(** * Multiscale time stepping with a two-block residual network

    A shallow embedding of [src/Resnet_multiscale_transfer.py]
    (classes [NNBlock] and [ResNet]) and the properties of its stepping
    primitive, composite loss, consistency check, training loop and the two
    forecast routines.

    Conventions.
    - Python exceptions are values of [exn]; a Python function that may raise
      returns a [result].
    - Tensor entries are elements of an abstract scalar type [R] carrying the
      arithmetic the code uses ([Scalar]); the shape of a tensor is stored
      next to its entries, as torch does, so that empty batches keep their
      trailing dimensions.
    - Python [float] values that drive control flow ([best_loss], the result
      of [.item()], [dt]) are binary64 numbers: Rocq's primitive floats. *)

From Stdlib Require Import String ZArith List Bool Lia.
From Stdlib Require Import PrimFloat FloatAxioms SpecFloat FloatOps.
Import ListNotations.
Set Warnings "-inexact-float".
Open Scope Z_scope.

(* ================================================================== *)
(** * Part I. The program *)
(* ================================================================== *)

(** ** Exceptions and fallible computations *)

Inductive exn : Type :=
| AssertionError
| IndexError
| KeyError
| TypeError
| NameError
| UnboundLocalError
| RuntimeError
| ZeroDivisionError
| NotImplementedError.

Inductive result (A : Type) : Type :=
| Ok (a : A)
| Err (e : exn).
Arguments Ok {A} a.
Arguments Err {A} e.

Definition bind {A B : Type} (c : result A) (k : A -> result B) : result B :=
  match c with
  | Ok a => k a
  | Err e => Err e
  end.

Notation "x <- c ;; k" := (bind c (fun x => k))
  (at level 61, c at next level, right associativity).
Notation "' p <- c ;; k" := (bind c (fun x => match x with p => k end))
  (at level 61, p pattern, c at next level, right associativity).

Fixpoint mapM {A B : Type} (f : A -> result B) (l : list A) : result (list B) :=
  match l with
  | [] => Ok []
  | a :: l' => b <- f a ;; bs <- mapM f l' ;; Ok (b :: bs)
  end.

(** ** Lists *)

Fixpoint zip_with {A B C : Type} (f : A -> B -> C) (l1 : list A) (l2 : list B)
  : list C :=
  match l1, l2 with
  | a :: l1', b :: l2' => f a b :: zip_with f l1' l2'
  | _, _ => []
  end.

(** Python's [l[i]] for an integer [i]: negative indices count from the end. *)
Definition py_index (len : nat) (i : Z) : result nat :=
  if (0 <=? i) && (i <? Z.of_nat len) then Ok (Z.to_nat i)
  else if (- Z.of_nat len <=? i) && (i <? 0) then Ok (Z.to_nat (i + Z.of_nat len))
  else Err IndexError.

Definition py_get {A : Type} (l : list A) (i : Z) : result A :=
  k <- py_index (length l) i ;;
  match nth_error l k with
  | Some a => Ok a
  | None => Err IndexError
  end.

(** Python's [l[:b]]. *)
Definition py_slice_to {A : Type} (l : list A) (b : Z) : list A :=
  if b <? 0 then firstn (Z.to_nat (Z.of_nat (length l) + b)) l
  else firstn (Z.to_nat b) l.

(** [list.insert(0, a)] and [list.append(a)]. *)
Definition py_insert0 {A : Type} (a : A) (l : list A) : list A := a :: l.
Definition py_append {A : Type} (l : list A) (a : A) : list A := l ++ [a].

(** [range(n)] and [range(a, b)]. *)
Definition py_range (n : Z) : list Z :=
  map Z.of_nat (seq 0 (Z.to_nat n)).
Definition py_range2 (a b : Z) : list Z :=
  map (fun k => a + Z.of_nat k) (seq 0 (Z.to_nat (b - a))).

(** ** Scalars *)

(** The arithmetic of tensor entries.  [ritem] is [Tensor.item()], the
    conversion of a zero-dimensional tensor to a Python float. *)
Class Scalar (R : Type) : Type := {
  rzero : R;
  radd : R -> R -> R;
  rsub : R -> R -> R;
  rmul : R -> R -> R;
  rdiv : R -> R -> R;
  rof_nat : nat -> R;
  ritem : R -> float
}.

Fixpoint float_of_nat (n : nat) : float :=
  match n with
  | O => 0%float
  | S n' => (float_of_nat n' + 1)%float
  end.

#[export] Instance Scalar_float : Scalar float := {
  rzero := 0%float;
  radd := PrimFloat.add;
  rsub := PrimFloat.sub;
  rmul := PrimFloat.mul;
  rdiv := PrimFloat.div;
  rof_nat := float_of_nat;
  ritem := fun x => x
}.

Section Tensors.
Context {R : Type} `{Scalar R}.

(** ** Tensors of rank two and three *)

Record tensor2 : Type := T2 {
  rows : nat;
  cols : nat;
  entries : list (list R)
}.

Record tensor3 : Type := T3 {
  dim0 : nat;
  dim1 : nat;
  dim2 : nat;
  entries3 : list (list (list R))
}.

Definition shape2 (t : tensor2) : nat * nat := (rows t, cols t).

(** The stored shape describes the entries. *)
Definition wf2 (t : tensor2) : Prop :=
  length (entries t) = rows t /\
  Forall (fun r => length r = cols t) (entries t).

Definition wf3 (t : tensor3) : Prop :=
  length (entries3 t) = dim0 t /\
  Forall (fun m => length m = dim1 t /\
                   Forall (fun r => length r = dim2 t) m) (entries3 t).

Definition tmap (f : R -> R) (t : tensor2) : tensor2 :=
  T2 (rows t) (cols t) (map (map f) (entries t)).

(** Broadcasting of one dimension: equal sizes, or one of them is 1. *)
Definition bdim (a b : nat) : result nat :=
  if Nat.eqb a b then Ok a
  else if Nat.eqb a 1 then Ok b
  else if Nat.eqb b 1 then Ok a
  else Err RuntimeError.

(** Stretch a dimension of size [have] to size [n] (a no-op when they
    agree; otherwise [have] is 1 and the single element is repeated). *)
Definition expand {A : Type} (n have : nat) (l : list A) : list A :=
  if Nat.eqb have n then l else flat_map (fun a => repeat a n) l.

Definition expand2 (r c : nat) (t : tensor2) : list (list R) :=
  expand r (rows t) (map (expand c (cols t)) (entries t)).

(** A pointwise binary operation on two rank-two tensors, with broadcasting. *)
Definition binop (f : R -> R -> R) (a b : tensor2) : result tensor2 :=
  r <- bdim (rows a) (rows b) ;;
  c <- bdim (cols a) (cols b) ;;
  Ok (T2 r c (zip_with (zip_with f) (expand2 r c a) (expand2 r c b))).

(** [a + b] *)
Definition tadd (a b : tensor2) : result tensor2 := binop radd a b.

(** [a += b]: the broadcast shape has to be the shape of [a]. *)
Definition tadd_inplace (a b : tensor2) : result tensor2 :=
  s <- tadd a b ;;
  if Nat.eqb (rows s) (rows a) && Nat.eqb (cols s) (cols a) then Ok s
  else Err RuntimeError.

(** [torch.nn.MSELoss(reduction='none')]: the squared difference, entry by
    entry. *)
Definition sq_diff (p t : R) : R := rmul (rsub p t) (rsub p t).
Definition criterion (input target : tensor2) : result tensor2 :=
  binop sq_diff input target.

(** [t.mean()]: the sum of all entries over their number. *)
Definition tsum_all (t : tensor2) : R :=
  fold_left radd (concat (entries t)) rzero.
Definition tmean (t : tensor2) : R :=
  rdiv (tsum_all t) (rof_nat (rows t * cols t)).

(** [ys[:, k, :]] for a literal column [k]. *)
Definition column (ys : tensor3) (k : nat) : result tensor2 :=
  if Nat.ltb k (dim1 ys)
  then Ok (T2 (dim0 ys) (dim2 ys) (map (fun m => nth k m []) (entries3 ys)))
  else Err IndexError.

(** ** [torch.nn.Linear] *)

Record Linear : Type := mkLinear {
  in_features : nat;
  out_features : nat;
  weight : list (list R);   (* out_features rows of in_features entries *)
  bias : list R             (* out_features entries *)
}.

Definition Linear_wf (L : Linear) : Prop :=
  length (weight L) = out_features L /\
  Forall (fun w => length w = in_features L) (weight L) /\
  length (bias L) = out_features L.

Definition dot (u v : list R) : R :=
  fold_left radd (zip_with rmul u v) rzero.

(** One row of [x W^T + b]. *)
Definition affine (L : Linear) (row : list R) : list R :=
  zip_with radd (map (dot row) (weight L)) (bias L).

Definition Linear_forward (L : Linear) (x : tensor2) : result tensor2 :=
  if Nat.eqb (cols x) (in_features L)
  then Ok (T2 (rows x) (out_features L) (map (affine L) (entries x)))
  else Err RuntimeError.

(** ** class NNBlock *)

(** [_modules] holds the layers under the keys ['Linear_0'], ...,
    ['Linear_{n_layers-1}'], in this order: the list [modules], looked up by
    the integer that the key is formatted from. *)
Record NNBlock : Type := mkNNBlock {
  n_layers : Z;
  activation : R -> R;      (* a pointwise nonlinearity; ReLU by default *)
  modules : list Linear
}.

(** [self._modules['Linear_{}'.format(i)]] *)
Definition get_module (b : NNBlock) (i : Z) : result Linear :=
  if i <? 0 then Err KeyError
  else match nth_error (modules b) (Z.to_nat i) with
       | Some L => Ok L
       | None => Err KeyError
       end.

(** The loop [for i in range(self.n_layers - 1)], from index [i], [n]
    iterations left. *)
Fixpoint hidden_layers (b : NNBlock) (i : Z) (n : nat) (x : tensor2)
  : result tensor2 :=
  match n with
  | O => Ok x
  | S n' =>
      L <- get_module b i ;;
      y <- Linear_forward L x ;;
      hidden_layers b (i + 1) n' (tmap (activation b) y)
  end.

Definition NNBlock_forward (b : NNBlock) (x : tensor2) : result tensor2 :=
  x' <- hidden_layers b 0 (Z.to_nat (n_layers b - 1)) x ;;
  (* no nonlinear activations in the last layer *)
  L <- get_module b (n_layers b - 1) ;;
  Linear_forward L x'.

(** [NNBlock.__init__(arch)] creates [Linear(arch[i], arch[i+1])] for
    [i < len(arch) - 1]; [layers_of arch ls] says that [ls] are such
    layers. *)
Fixpoint layers_of (arch : list nat) (ls : list Linear) : Prop :=
  match arch, ls with
  | [_], [] => True
  | a :: ((a' :: _) as arch'), L :: ls' =>
      in_features L = a /\ out_features L = a' /\ Linear_wf L /\
      layers_of arch' ls'
  | _, _ => False
  end.

Definition NNBlock_of (arch : list nat) (b : NNBlock) : Prop :=
  n_layers b = Z.of_nat (length arch) - 1 /\ layers_of arch (modules b).

(** ** class ResNet *)

(** The keys of [ResNet._modules]. *)
Inductive which : Type := large | small.

Record ResNet : Type := mkResNet {
  n_dim : Z;
  dt : float;
  step_size : Z;
  block_large : NNBlock;
  block_small : NNBlock
}.

(** [self._modules[key]] *)
Definition block (self : ResNet) (key : which) : NNBlock :=
  match key with
  | large => block_large self
  | small => block_small self
  end.

(** [ResNet.__init__(arch, dt, step_size)]: [arch[0] == arch[-1]] is
    asserted, [n_dim = arch[0]], and both blocks are built from [arch]. *)
Definition ResNet_of (arch : list nat) (self : ResNet) : Prop :=
  hd_error arch = Some (last arch O) /\
  n_dim self = Z.of_nat (hd O arch) /\
  NNBlock_of arch (block_large self) /\
  NNBlock_of arch (block_small self).

(** [ResNet.forward(x_init, step_size)] *)
Definition forward (self : ResNet) (x_init : tensor2) (step_size : which)
  : result tensor2 :=
  r <- NNBlock_forward (block self step_size) x_init ;;
  tadd x_init r.

(** A call [self.forward(x, *args)] with the positional arguments after
    [x]: Python binds them to the one parameter [step_size] and raises
    TypeError when their number is not one. *)
Definition call_forward (self : ResNet) (x : tensor2) (args : list which)
  : result tensor2 :=
  match args with
  | [step_size] => forward self x step_size
  | _ => Err TypeError
  end.

End Tensors.

Arguments tensor2 R : clear implicits.
Arguments tensor3 R : clear implicits.
Arguments Linear R : clear implicits.
Arguments NNBlock R : clear implicits.
Arguments ResNet R : clear implicits.

Section Loss.
Context {R : Type} `{Scalar R}.

(** [assert b] *)
Definition py_assert (b : bool) : result unit :=
  if b then Ok tt else Err AssertionError.

(** ** [ResNet.calculate_loss(x, ys, w)]

    The weight [w] is not read on the path that returns; the statements
    after [return loss.mean()] are never run and are left out. *)
Definition calculate_loss (self : ResNet R) (x : tensor2 R) (ys : tensor3 R)
  : result R :=
  (* batch_size, n_steps, n_dim = ys.size() *)
  let n_dim_ys := Z.of_nat (dim2 ys) in
  _ <- py_assert (n_dim_ys =? n_dim self) ;;
  (* 4 needs just small *)
  y_next <- forward self x small ;;
  t <- column ys 0 ;;
  loss <- criterion y_next t ;;
  (* 8 is 2 smalls or a large *)
  y_next <- forward self x small ;;
  y_next <- forward self y_next small ;;
  t <- column ys 1 ;; e <- criterion y_next t ;; loss <- tadd_inplace loss e ;;
  y_next <- forward self x large ;;
  t <- column ys 1 ;; e <- criterion y_next t ;; loss <- tadd_inplace loss e ;;
  (* for 12, need big and small in either order *)
  y_next <- forward self x small ;;
  y_next <- forward self y_next large ;;
  t <- column ys 2 ;; e <- criterion y_next t ;; loss <- tadd_inplace loss e ;;
  (* need same other way *)
  y_next <- forward self x large ;;
  y_next <- forward self y_next small ;;
  (* for 16: 2 big *)
  y_next <- forward self x large ;;
  y_next <- forward self y_next large ;;
  t <- column ys 3 ;; e <- criterion y_next t ;; loss <- tadd_inplace loss e ;;
  (* 4 small *)
  y_next <- forward self x small ;;
  y_next <- forward self y_next small ;;
  y_next <- forward self y_next small ;;
  y_next <- forward self y_next small ;;
  t <- column ys 3 ;; e <- criterion y_next t ;; loss <- tadd_inplace loss e ;;
  (* 2 small, large *)
  y_next <- forward self x small ;;
  y_next <- forward self y_next small ;;
  y_next <- forward self y_next large ;;
  t <- column ys 3 ;; e <- criterion y_next t ;; loss <- tadd_inplace loss e ;;
  (* large, 2 small *)
  y_next <- forward self x large ;;
  y_next <- forward self y_next small ;;
  y_next <- forward self y_next small ;;
  t <- column ys 3 ;; e <- criterion y_next t ;; loss <- tadd_inplace loss e ;;
  (* for 20 there is even more: 2 big, 1 small *)
  y_next <- forward self x large ;;
  y_next <- forward self y_next large ;;
  y_next <- forward self y_next small ;;
  t <- column ys 4 ;; e <- criterion y_next t ;; loss <- tadd_inplace loss e ;;
  y_next <- forward self x small ;;
  y_next <- forward self y_next large ;;
  y_next <- forward self y_next large ;;
  t <- column ys 4 ;; e <- criterion y_next t ;; loss <- tadd_inplace loss e ;;
  y_next <- forward self x large ;;
  y_next <- forward self y_next small ;;
  y_next <- forward self y_next large ;;
  t <- column ys 4 ;; e <- criterion y_next t ;; loss <- tadd_inplace loss e ;;
  (* 5 small *)
  y_next <- forward self x small ;;
  y_next <- forward self y_next small ;;
  y_next <- forward self y_next small ;;
  y_next <- forward self y_next small ;;
  y_next <- forward self y_next small ;;
  t <- column ys 4 ;; e <- criterion y_next t ;; loss <- tadd_inplace loss e ;;
  (* 3 small, large *)
  y_next <- forward self x large ;;
  y_next <- forward self y_next small ;;
  y_next <- forward self y_next small ;;
  y_next <- forward self y_next small ;;
  t <- column ys 4 ;; e <- criterion y_next t ;; loss <- tadd_inplace loss e ;;
  y_next <- forward self x small ;;
  y_next <- forward self y_next large ;;
  y_next <- forward self y_next small ;;
  y_next <- forward self y_next small ;;
  t <- column ys 4 ;; e <- criterion y_next t ;; loss <- tadd_inplace loss e ;;
  y_next <- forward self x small ;;
  y_next <- forward self y_next small ;;
  y_next <- forward self y_next large ;;
  y_next <- forward self y_next small ;;
  t <- column ys 4 ;; e <- criterion y_next t ;; loss <- tadd_inplace loss e ;;
  y_next <- forward self x small ;;
  y_next <- forward self y_next small ;;
  y_next <- forward self y_next small ;;
  y_next <- forward self y_next large ;;
  t <- column ys 4 ;; e <- criterion y_next t ;; loss <- tadd_inplace loss e ;;
  Ok (tmean loss).

(** ** The dataset object

    [utils_multiscale.DataSet] is used through these attributes only. *)
Record DataSet : Type := mkDataSet {
  ds_n_dim : Z;
  ds_dt : float;
  ds_step_size : Z;
  n_train : Z;
  train_x : tensor2 R;
  train_ys : tensor3 R;
  val_x : tensor2 R;
  val_ys : tensor3 R
}.

(** ** [ResNet.check_data_info(dataset)] *)
Definition check_data_info (self : ResNet R) (dataset : DataSet)
  : result unit :=
  _ <- py_assert (n_dim self =? ds_n_dim dataset) ;;
  _ <- py_assert (PrimFloat.eqb (dt self) (ds_dt dataset)) ;;
  py_assert (step_size self =? ds_step_size dataset).

(** ** What the specification says of the block, the step and the loss *)

(** The residual block in the specification's words: affine layers, the
    nonlinearity after each of them but the last. *)
Fixpoint residual_block_spec (act : R -> R) (first : Linear R)
    (others : list (Linear R)) (x : tensor2 R) : result (tensor2 R) :=
  match others with
  | [] => Linear_forward first x
  | next :: others' =>
      y <- Linear_forward first x ;;
      residual_block_spec act next others' (tmap act y)
  end.

(** [compose(x, sequence_of_which)]: apply [step] in the given order. *)
Fixpoint compose (self : ResNet R) (x : tensor2 R) (sequence : list which)
  : result (tensor2 R) :=
  match sequence with
  | [] => Ok x
  | w :: sequence' => y <- forward self x w ;; compose self y sequence'
  end.

(** The branches of the composite loss with the column of [ys] each is
    compared to, in the order of the specification's enumeration. *)
Definition loss_branches : list (list which * nat) :=
  [ ([small], 0);
    ([small; small], 1); ([large], 1);
    ([small; large], 2);
    ([large; large], 3); ([small; small; small; small], 3);
    ([small; small; large], 3); ([large; small; small], 3);
    ([large; large; small], 4); ([small; large; large], 4);
    ([large; small; large], 4); ([small; small; small; small; small], 4);
    ([large; small; small; small], 4); ([small; large; small; small], 4);
    ([small; small; large; small], 4); ([small; small; small; large], 4) ]%nat.

(** The unreduced squared error of one branch. *)
Definition branch_error (self : ResNet R) (x : tensor2 R) (ys : tensor3 R)
    (br : list which * nat) : result (tensor2 R) :=
  y <- compose self x (fst br) ;;
  t <- column ys (snd br) ;;
  criterion y t.

(** The sum of a non-empty list of tensors, from the left. *)
Definition tsum (e : tensor2 R) (es : list (tensor2 R)) : result (tensor2 R) :=
  fold_left (fun acc t => a <- acc ;; tadd a t) es (Ok e).

(** The mean of the sum of the branch errors. *)
Definition loss_spec (self : ResNet R) (x : tensor2 R) (ys : tensor3 R)
  : result R :=
  errs <- mapM (branch_error self x ys) loss_branches ;;
  match errs with
  | [] => Err RuntimeError
  | e :: es => s <- tsum e es ;; Ok (tmean s)
  end.

End Loss.

Arguments DataSet R : clear implicits.

Section Training.
Context {R : Type} `{Scalar R}.

(** The optimizer, the random number generator and what they do are
    outside the repository: [Adam(self.parameters(), lr)], [torch.randperm]
    and the three calls [optimizer.zero_grad(); train_loss.backward();
    optimizer.step()], which update the parameters from the batch the
    training loss was computed on.  They are taken as total functions.
    The ValueError with which Adam's constructor refuses its arguments
    comes before the loop and is in [train_net_call] below; [adam self] is
    the optimizer of a constructor that has accepted them. *)
Variables Opt Rng : Type.
Variable adam : ResNet R -> Opt.
Variable randperm : Rng -> nat -> list nat * Rng.
Variable optimizer_step :
  Opt -> ResNet R -> tensor2 R -> tensor3 R -> Opt * ResNet R.

(** [t[idx, :]] and [t[idx, :, :]] for a tensor [idx] of row numbers. *)
Definition take_rows (t : tensor2 R) (idx : list nat) : result (tensor2 R) :=
  rs <- mapM (fun i => if Nat.ltb i (rows t) then Ok (nth i (entries t) [])
                       else Err IndexError) idx ;;
  Ok (T2 (length idx) (cols t) rs).

Definition take_rows3 (t : tensor3 R) (idx : list nat) : result (tensor3 R) :=
  ms <- mapM (fun i => if Nat.ltb i (dim0 t) then Ok (nth i (entries3 t) [])
                       else Err IndexError) idx ;;
  Ok (T3 (length idx) (dim1 t) (dim2 t) ms).

(** What a run prints, applies and writes, in order. *)
Inductive event : Type :=
| PrintConverged              (* '--> model has reached an accuracy of 1e-8! ...' *)
| OptimizerStep (epoch : Z)   (* zero_grad, backward, optimizer.step() *)
| PrintTime                   (* 'time for first 10 = ' *)
| PrintEpoch (epoch : Z)      (* 'epoch {}, training loss {}, validation loss {}' *)
| PrintSaved (epoch : Z)      (* '--> new model saved @ epoch {}' *)
| Save (epoch : Z).           (* torch.save(self, model_path) *)

(** The variables of [train_net] and the model it mutates. *)
Record train_state : Type := mkState {
  epoch : Z;
  best_loss : float;
  val_loss : option R;        (* unbound before the first iteration *)
  net : ResNet R;
  optimizer : Opt;
  rng : Rng;
  log : list event
}.

Inductive control : Type := Continue | Break | Raise (e : exn).

Definition threshold : float := 1e-8%float.
Definition initial_best_loss : float := 1e+5%float.

Definition is_some {A : Type} (o : option A) : bool :=
  match o with Some _ => true | None => false end.

(** One pass through the body of [while epoch < max_epoch]. *)
Definition train_iter (dataset : DataSet R) (batch_size : Z)
    (model_path : option string) (st : train_state) : train_state * control :=
  let epoch1 := epoch st + 1 in
  (* prepare data *)
  let n_samples := n_train dataset in
  if n_samples <? 0
  then (mkState epoch1 (best_loss st) (val_loss st) (net st) (optimizer st)
          (rng st) (log st), Raise RuntimeError)
  else
  let '(new_idxs, rng1) := randperm (rng st) (Z.to_nat n_samples) in
  let idx := py_slice_to new_idxs batch_size in
  let st1 := mkState epoch1 (best_loss st) (val_loss st) (net st)
               (optimizer st) rng1 (log st) in
  match take_rows (train_x dataset) idx with
  | Err e => (st1, Raise e)
  | Ok batch_x =>
  match take_rows3 (train_ys dataset) idx with
  | Err e => (st1, Raise e)
  | Ok batch_ys =>
  (* calculate losses *)
  match calculate_loss (net st) batch_x batch_ys with
  | Err e => (st1, Raise e)
  | Ok train_loss =>
  match calculate_loss (net st) (val_x dataset) (val_ys dataset) with
  | Err e => (st1, Raise e)
  | Ok vl =>
  (* early stopping *)
  if (best_loss st <=? threshold)%float
  then (mkState epoch1 (best_loss st) (Some vl) (net st) (optimizer st) rng1
          (log st ++ [PrintConverged]), Break)
  else
  (* backward *)
  let '(opt1, net1) := optimizer_step (optimizer st) (net st) batch_x batch_ys in
  let log1 := log st ++ [OptimizerStep epoch1] in
  (* log *)
  let log2 := if epoch1 =? 10 then log1 ++ [PrintTime] else log1 in
  if epoch1 mod 1000 =? 0
  then
    let log3 := log2 ++ [PrintEpoch epoch1] in
    if (ritem vl <? best_loss st)%float
    then
      let log4 := match model_path with
                  | Some _ => log3 ++ [PrintSaved epoch1; Save epoch1]
                  | None => log3
                  end in
      (mkState epoch1 (ritem vl) (Some vl) net1 opt1 rng1 log4, Continue)
    else (mkState epoch1 (best_loss st) (Some vl) net1 opt1 rng1 log3, Continue)
  else (mkState epoch1 (best_loss st) (Some vl) net1 opt1 rng1 log2, Continue)
  end end end end.

(** How a run ends: the loop is left by [break] (Converged) or because
    [epoch < max_epoch] fails (Exhausted), or an exception escapes. *)
Inductive exit_state : Type := Converged | Exhausted.
Inductive outcome : Type :=
| Finished (how : exit_state)
| Raised (e : exn)
| OutOfFuel.

(** [while epoch < max_epoch: ...] *)
Fixpoint train_loop (fuel : nat) (dataset : DataSet R) (max_epoch batch_size : Z)
    (model_path : option string) (st : train_state) : train_state * outcome :=
  if epoch st <? max_epoch then
    match fuel with
    | O => (st, OutOfFuel)
    | S fuel' =>
        match train_iter dataset batch_size model_path st with
        | (st', Continue) =>
            train_loop fuel' dataset max_epoch batch_size model_path st'
        | (st', Break) => (st', Finished Converged)
        | (st', Raise e) => (st', Raised e)
        end
    end
  else (st, Finished Exhausted).

(** The state in which the loop is entered. *)
Definition train_init (self : ResNet R) (g : Rng) : train_state :=
  mkState 0 initial_best_loss None self (adam self) g [].

(** [ResNet.train_net(dataset, max_epoch, batch_size, w, lr, model_path)];
    [g] is the state of the random number generator at the call.  The loop
    runs at most [max_epoch] times, which is the fuel. *)
Definition train_net (self : ResNet R) (dataset : DataSet R)
    (max_epoch batch_size : Z) (model_path : option string) (g : Rng)
  : train_state * outcome :=
  (* check consistency *)
  match check_data_info self dataset with
  | Err e => (train_init self g, Raised e)
  | Ok _ =>
      match train_loop (Z.to_nat max_epoch) dataset max_epoch batch_size
              model_path (train_init self g) with
      | (st, Finished how) =>
          (* if to save at the end *)
          match val_loss st with
          | None => (st, Raised UnboundLocalError)
          | Some vl =>
              if (ritem vl <? best_loss st)%float && is_some model_path
              then (mkState (epoch st) (best_loss st) (val_loss st) (net st)
                      (optimizer st) (rng st)
                      (log st ++ [PrintSaved (epoch st); Save (epoch st)]),
                    Finished how)
              else (st, Finished how)
          end
      | other => other
      end
  end.

(** Counting events of a run. *)
Definition is_optimizer_step (ev : event) : bool :=
  match ev with OptimizerStep _ => true | _ => false end.
Definition is_save (ev : event) : bool :=
  match ev with Save _ => true | _ => false end.
Definition is_print_epoch (ev : event) : bool :=
  match ev with PrintEpoch _ => true | _ => false end.
Definition is_print_converged (ev : event) : bool :=
  match ev with PrintConverged => true | _ => false end.
Definition count_events (p : event -> bool) (l : list event) : nat :=
  length (filter p l).

(** The shapes [train_net] relies on: a dataset for a model built from
    [arch], with at least the five horizon columns the loss reads. *)
Definition dataset_fits (arch : list nat) (dataset : DataSet R) : Prop :=
  0 <= n_train dataset <= Z.of_nat (rows (train_x dataset)) /\
  cols (train_x dataset) = hd O arch /\
  dim0 (train_ys dataset) = rows (train_x dataset) /\
  dim2 (train_ys dataset) = cols (train_x dataset) /\
  (5 <= dim1 (train_ys dataset))%nat /\
  cols (val_x dataset) = hd O arch /\
  dim0 (val_ys dataset) = rows (val_x dataset) /\
  dim2 (val_ys dataset) = cols (val_x dataset) /\
  (5 <= dim1 (val_ys dataset))%nat.

(** Events that are neither an optimizer step nor the convergence
    message; events that are neither a checkpoint nor an epoch report. *)
Definition quiet (ev : event) : Prop :=
  is_optimizer_step ev = false /\ is_print_converged ev = false.
Definition silent (ev : event) : Prop :=
  is_save ev = false /\ is_print_epoch ev = false.

End Training.

Arguments train_state R Opt Rng : clear implicits.
Arguments mkState {R Opt Rng} _ _ _ _ _ _ _.
Arguments epoch {R Opt Rng} _.
Arguments best_loss {R Opt Rng} _.
Arguments val_loss {R Opt Rng} _.
Arguments net {R Opt Rng} _.
Arguments optimizer {R Opt Rng} _.
Arguments rng {R Opt Rng} _.
Arguments log {R Opt Rng} _.
Arguments train_iter {R H Opt Rng} _ _ _ _ _ _.
Arguments train_loop {R H Opt Rng} _ _ _ _ _ _ _ _.
Arguments train_init {R Opt Rng} _ _ _.
Arguments train_net {R H Opt Rng} _ _ _ _ _ _ _ _ _.

Section Forecast.
Context {R : Type} `{Scalar R}.

(** ** [scipy.interpolate.interp1d]

    Building the interpolant rejects a [kind] that is not one of scipy's
    names; what an accepted interpolant returns on the new abscissae is
    scipy's business ([interpolate], along [axis]). *)
Variable interpolate :
  string -> nat -> list Z -> tensor3 R -> list Z -> result (tensor3 R).

Definition interp1d_kinds : list string :=
  ["linear"; "nearest"; "nearest-up"; "zero"; "slinear"; "quadratic";
   "cubic"; "previous"; "next"]%string.

Definition interp1d (x : list Z) (y : tensor3 R) (kind : string) (axis : nat)
    (x_new : list Z) : result (tensor3 R) :=
  if existsb (String.eqb kind) interp1d_kinds
  then interpolate kind axis x y x_new
  else Err NotImplementedError.

(** ** Reshaping and indexing *)

Definition same_shape (a b : tensor2 R) : bool :=
  Nat.eqb (rows a) (rows b) && Nat.eqb (cols a) (cols b).

(** [torch.stack(preds, 2)]: entry [(i, j, s)] is entry [(i, j)] of the
    [s]-th tensor. *)
Definition stack2 (preds : list (tensor2 R)) : result (tensor3 R) :=
  match preds with
  | [] => Err RuntimeError
  | p :: _ =>
      if forallb (same_shape p) preds
      then Ok (T3 (rows p) (cols p) (length preds)
                 (map (fun i =>
                    map (fun j =>
                      map (fun q => nth j (nth i (entries q) []) rzero) preds)
                      (seq 0 (cols p)))
                    (seq 0 (rows p))))
      else Err RuntimeError
  end.

(** [t.transpose(1, 2)] *)
Definition transpose12 (t : tensor3 R) : tensor3 R :=
  T3 (dim0 t) (dim2 t) (dim1 t)
     (map (fun m =>
        map (fun k => map (fun r => nth k r rzero) m) (seq 0 (dim2 t)))
        (entries3 t)).

(** [k] consecutive pieces of [n] elements each. *)
Fixpoint chunks {A : Type} (k n : nat) (l : list A) : list (list A) :=
  match k with
  | O => []
  | S k' => firstn n l :: chunks k' n (skipn n l)
  end.

(** [torch.zeros(a, b, c)] *)
Definition zeros3 (a : nat) (b : Z) (c : nat) : result (tensor3 R) :=
  if b <? 0 then Err RuntimeError
  else Ok (T3 a (Z.to_nat b) c
             (repeat (repeat (repeat rzero c) (Z.to_nat b)) a)).

(** [t.reshape(-1, n_dim)] of a rank-three tensor: the free dimension is
    ambiguous or does not exist when [n_dim] is 0 or does not divide the
    number of entries. *)
Definition reshape_rows (t : tensor3 R) (n_dim : nat) : result (tensor2 R) :=
  let total := (dim0 t * dim1 t * dim2 t)%nat in
  if Nat.eqb n_dim 0 then Err RuntimeError
  else if negb (Nat.eqb (total mod n_dim) 0) then Err RuntimeError
  else Ok (T2 (total / n_dim) n_dim
             (chunks (total / n_dim) n_dim (concat (concat (entries3 t))))).

(** [t.reshape(n_test, -1, n_dim)] of a rank-two tensor. *)
Definition reshape_batch (t : tensor2 R) (n_test n_dim : nat)
  : result (tensor3 R) :=
  let total := (rows t * cols t)%nat in
  let known := (n_test * n_dim)%nat in
  if Nat.eqb known 0 then Err RuntimeError
  else if negb (Nat.eqb (total mod known) 0) then Err RuntimeError
  else let k := (total / known)%nat in
       Ok (T3 n_test k n_dim
             (chunks n_test k (chunks (n_test * k) n_dim (concat (entries t))))).

Fixpoint list_set {A : Type} (k : nat) (a : A) (l : list A) : list A :=
  match l, k with
  | [], _ => []
  | _ :: l', O => a :: l'
  | b :: l', S k' => b :: list_set k' a l'
  end.

(** [preds[:, i, :]] *)
Definition get_step (preds : tensor3 R) (i : Z) : result (tensor2 R) :=
  k <- py_index (dim1 preds) i ;;
  Ok (T2 (dim0 preds) (dim2 preds) (map (fun m => nth k m []) (entries3 preds))).

(** [preds[:, i, :] = v] for [v] of shape (dim0, dim2). *)
Definition set_step (preds : tensor3 R) (i : Z) (v : tensor2 R)
  : result (tensor3 R) :=
  k <- py_index (dim1 preds) i ;;
  if Nat.eqb (rows v) (dim0 preds) && Nat.eqb (cols v) (dim2 preds)
  then Ok (T3 (dim0 preds) (dim1 preds) (dim2 preds)
             (zip_with (fun m r => list_set k r m) (entries3 preds) (entries v)))
  else Err RuntimeError.

(** [preds[:, indices, :]] *)
Definition get_steps (preds : tensor3 R) (indices : list Z)
  : result (tensor3 R) :=
  ks <- mapM (py_index (dim1 preds)) indices ;;
  Ok (T3 (dim0 preds) (length indices) (dim2 preds)
        (map (fun m => map (fun k => nth k m []) ks) (entries3 preds))).

(** [preds[:, indices, :] = v] for [v] of shape (dim0, len(indices), dim2);
    the assignments are made in the order of [indices]. *)
Definition set_steps (preds : tensor3 R) (indices : list Z) (v : tensor3 R)
  : result (tensor3 R) :=
  ks <- mapM (py_index (dim1 preds)) indices ;;
  if Nat.eqb (dim0 v) (dim0 preds) && Nat.eqb (dim1 v) (length indices)
     && Nat.eqb (dim2 v) (dim2 preds)
  then Ok (T3 (dim0 preds) (dim1 preds) (dim2 preds)
             (zip_with
                (fun m vm =>
                   fold_left (fun acc kr => list_set (fst kr) (snd kr) acc)
                     (combine ks vm) m)
                (entries3 preds) (entries3 v)))
  else Err RuntimeError.

(** The indices of all passes, interleaved: the tuples of [zip] over the
    unpacked [indices_lists], flattened. *)
Definition zip_star (lists : list (list Z)) : list Z :=
  match lists with
  | [] => []
  | l :: ls =>
      let n := fold_left Nat.min (map (@length Z) ls) (length l) in
      flat_map (fun j => map (fun l' => nth j l' 0) lists) (seq 0 n)
  end.

(** ** [ResNet.uni_scale_forecast(x_init, n_steps)] *)

(** The loop [while cur_step < n_steps + self.step_size]. *)
Fixpoint uni_scale_loop (fuel : nat) (self : ResNet R) (n_steps cur_step : Z)
    (x_prev : tensor2 R) (steps : list Z) (preds : list (tensor2 R))
  : option (result (list Z * list (tensor2 R))) :=
  if cur_step <? n_steps + step_size self then
    match fuel with
    | O => None
    | S fuel' =>
        (* x_next = self.forward(x_prev) *)
        match call_forward self x_prev [] with
        | Err e => Some (Err e)
        | Ok x_next =>
            uni_scale_loop fuel' self n_steps (cur_step + step_size self)
              x_next (py_append steps cur_step) (py_append preds x_next)
        end
    end
  else Some (Ok (steps, preds)).

Definition uni_scale_forecast (fuel : nat) (self : ResNet R)
    (x_init : tensor2 R) (n_steps : Z) : option (result (tensor3 R)) :=
  let sample_steps := py_range n_steps in
  (* forward predictions *)
  match uni_scale_loop fuel self n_steps (step_size self - 1) x_init [] [] with
  | None => None
  | Some (Err e) => Some (Err e)
  | Some (Ok (steps, preds)) =>
      (* include the initial frame *)
      let steps := py_insert0 0 steps in
      let preds := py_insert0 x_init preds in
      (* interpolations *)
      Some (stacked <- stack2 preds ;;
            y <- interp1d steps stacked "linear" 2 sample_steps ;;
            Ok (transpose12 y))
  end.

(** ** [ResNet.vectorized_multi_scale_forecast(x_init, n_steps, models,
       step_sizes)] *)

Definition type_models : list which := [large; small].

(** The loop [for t in range(n_forward)] of one scale. *)
Fixpoint scale_steps (self : ResNet R) (n_test n_dim : nat) (step_size : Z)
    (type_model : which) (indices : list Z) (ts : list Z)
    (preds : tensor3 R) (y_prev : tensor2 R) (indices_lists : list (list Z))
  : result (tensor3 R * list (list Z)) :=
  match ts with
  | [] => Ok (preds, indices_lists)
  | t :: ts' =>
      y_next <- forward self y_prev type_model ;;
      let shifted_indices := map (fun x => x + (t + 1) * step_size) indices in
      let indices_lists := py_append indices_lists shifted_indices in
      v <- reshape_batch y_next n_test n_dim ;;
      preds <- set_steps preds shifted_indices v ;;
      scale_steps self n_test n_dim step_size type_model indices ts' preds
        y_next indices_lists
  end.

(** The body of [for i in [0,1]]; returns [preds], [indices],
    [total_step_sizes] and the [step_size] of this pass. *)
Definition scale_pass (self : ResNet R) (n_test n_dim : nat)
    (step_sizes : list Z) (i : Z)
    (preds : tensor3 R) (indices : list Z) (total_step_sizes : Z)
  : result (tensor3 R * list Z * Z * Z) :=
  step_size <- py_get step_sizes i ;;
  type_model <- py_get type_models i ;;
  (* n_forward = int(total_step_sizes/step_size) *)
  n_forward <- (if step_size =? 0 then Err ZeroDivisionError
                else Ok (Z.quot total_step_sizes step_size)) ;;
  sel <- get_steps preds indices ;;
  y_prev <- reshape_rows sel n_dim ;;
  ' (preds, indices_lists) <-
    scale_steps self n_test n_dim step_size type_model indices
      (py_range n_forward) preds y_prev [indices] ;;
  Ok (preds, zip_star indices_lists, step_size - 1, step_size).

(** [step_size[-1]] where [step_size] is an int. *)
Definition int_subscript (n i : Z) : result Z := Err TypeError.

Definition vectorized_multi_scale_forecast (self : ResNet R)
    (x_init : tensor2 R) (n_steps : Z) (models : list (ResNet R))
    (step_sizes : list Z) : result (tensor3 R) :=
  let n_test := rows x_init in
  let n_dim := cols x_init in
  model0 <- py_get models 0 ;;
  let extended_n_steps := n_steps + step_size model0 in
  preds <- zeros3 n_test (extended_n_steps + 1) n_dim ;;
  (* vectorized simulation *)
  let indices := [0] in
  preds <- set_step preds 0 x_init ;;
  let total_step_sizes := n_steps in
  ' (preds, indices, total_step_sizes, _) <-
    scale_pass self n_test n_dim step_sizes 0 preds indices total_step_sizes ;;
  ' (preds, indices, total_step_sizes, step_size) <-
    scale_pass self n_test n_dim step_sizes 1 preds indices total_step_sizes ;;
  (* simulate the tails *)
  last_idx <- py_get indices (-1) ;;
  y_prev <- get_step preds last_idx ;;
  if last_idx <? n_steps
  then
    (* the loop body up to its first call: last_idx += step_size[-1], then
       y_next = mself.forward(y_prev, type_model), where the name mself is
       not defined *)
    s <- int_subscript step_size (-1) ;;
    Err NameError
  else
    (* interpolations *)
    let sample_steps := py_range2 1 (n_steps + 1) in
    valid_preds <- get_steps preds indices ;;
    interp1d indices valid_preds "lin/ear" 1 sample_steps.

End Forecast.

Section Sessions.
Context {R : Type} `{Scalar R}.

(** The pointwise combination of two tensors of one shape. *)
Definition pointwise (f : R -> R -> R) (a b : tensor2 R) : tensor2 R :=
  T2 (rows a) (cols a) (zip_with (zip_with f) (entries a) (entries b)).

(** The value of a computation that returned, for use in statements. *)
Definition result_value {A : Type} (d : A) (c : result A) : A :=
  match c with Ok a => a | Err _ => d end.

(** The state reached by one step, when the step returns. *)
Definition step (self : ResNet R) (x : tensor2 R) (w : which) : tensor2 R :=
  result_value x (forward self x w).

End Sessions.

(** ** Calls on the model object

    The activation is a [torch.nn.Module] of the caller's choice
    ([torch.nn.ReLU()] by default), and [ResNet.__init__] hands the one
    object to both blocks.  Calling a module may read and change state of
    its own (a buffer, the generator from which a random activation draws
    in training mode).  Here the methods are written as calls on the
    object: they take the state of the activation module and return it.
    [A] is that state and [call_activation] the module's call. *)

Section ModuleCalls.
Context {R : Type} `{Scalar R}.
Variable A : Type.
Variable call_activation : A -> tensor2 R -> tensor2 R * A.

(** An [NNBlock] object: [n_layers] and [_modules]; its [activation] is
    the shared module. *)
Record NNBlock_obj : Type := mkNNBlock_obj {
  obj_n_layers : Z;
  obj_modules : list (Linear R)
}.

(** A [ResNet] object: the attributes, the two blocks of [_modules] and
    the activation module's state. *)
Record ResNet_obj : Type := mkResNet_obj {
  obj_n_dim : Z;
  obj_dt : float;
  obj_step_size : Z;
  obj_large : NNBlock_obj;
  obj_small : NNBlock_obj;
  obj_activation : A
}.

(** [self._modules['Linear_{}'.format(i)]] *)
Definition obj_get_module (b : NNBlock_obj) (i : Z) : result (Linear R) :=
  if i <? 0 then Err KeyError
  else match nth_error (obj_modules b) (Z.to_nat i) with
       | Some L => Ok L
       | None => Err KeyError
       end.

(** The loop [for i in range(self.n_layers - 1)] of [NNBlock.forward],
    from index [i], [n] iterations left; [a] is the state in which the
    activation is called next. *)
Fixpoint hidden_layers_call (b : NNBlock_obj) (i : Z) (n : nat)
    (x : tensor2 R) (a : A) : result (tensor2 R) * A :=
  match n with
  | O => (Ok x, a)
  | S n' =>
      match obj_get_module b i with
      | Err e => (Err e, a)
      | Ok L =>
          match Linear_forward L x with
          | Err e => (Err e, a)
          | Ok y =>
              let '(x', a') := call_activation a y in
              hidden_layers_call b (i + 1) n' x' a'
          end
      end
  end.

(** [NNBlock.forward(x)] *)
Definition NNBlock_call (b : NNBlock_obj) (x : tensor2 R) (a : A)
  : result (tensor2 R) * A :=
  let '(hidden, a') :=
    hidden_layers_call b 0 (Z.to_nat (obj_n_layers b - 1)) x a in
  (x' <- hidden ;;
   (* no nonlinear activations in the last layer *)
   L <- obj_get_module b (obj_n_layers b - 1) ;;
   Linear_forward L x',
   a').

(** [self._modules[step_size]] *)
Definition obj_block (self : ResNet_obj) (key : which) : NNBlock_obj :=
  match key with
  | large => obj_large self
  | small => obj_small self
  end.

(** [ResNet.forward(x_init, step_size)]: the output, or the exception, and
    the object after the call. *)
Definition forward_call (self : ResNet_obj) (x_init : tensor2 R)
    (step_size : which) : result (tensor2 R) * ResNet_obj :=
  let '(residual, a') :=
    NNBlock_call (obj_block self step_size) x_init (obj_activation self) in
  (r <- residual ;; tadd x_init r,
   mkResNet_obj (obj_n_dim self) (obj_dt self) (obj_step_size self)
     (obj_large self) (obj_small self) a').

(** A sequence of calls on one model object: steps, and updates of the
    object (an optimizer step, say) between them. *)
Inductive call : Type :=
| Step (x : tensor2 R) (step_size : which)
| Update (new : ResNet_obj -> ResNet_obj).

Fixpoint session (self : ResNet_obj) (calls : list call)
  : list (result (tensor2 R)) * ResNet_obj :=
  match calls with
  | [] => ([], self)
  | Step x w :: calls' =>
      let '(out, self1) := forward_call self x w in
      let '(outs, self') := session self1 calls' in
      (out :: outs, self')
  | Update new :: calls' => session (new self) calls'
  end.

(** The model of Part I that an object is when its activation is the
    function [f], entry by entry. *)
Definition as_model (f : R -> R) (self : ResNet_obj) : ResNet R :=
  mkResNet (obj_n_dim self) (obj_dt self) (obj_step_size self)
    (mkNNBlock (obj_n_layers (obj_large self)) f (obj_modules (obj_large self)))
    (mkNNBlock (obj_n_layers (obj_small self)) f (obj_modules (obj_small self))).

End ModuleCalls.

Arguments NNBlock_obj R : clear implicits.
Arguments mkNNBlock_obj {R} _ _.
Arguments obj_n_layers {R} _.
Arguments obj_modules {R} _.
Arguments ResNet_obj R A : clear implicits.
Arguments mkResNet_obj {R A} _ _ _ _ _ _.
Arguments obj_n_dim {R A} _.
Arguments obj_dt {R A} _.
Arguments obj_step_size {R A} _.
Arguments obj_large {R A} _.
Arguments obj_small {R A} _.
Arguments obj_activation {R A} _.
Arguments obj_get_module {R} _ _.
Arguments hidden_layers_call {R H A} _ _ _ _ _ _.
Arguments NNBlock_call {R H A} _ _ _ _.
Arguments obj_block {R A} _ _.
Arguments forward_call {R H A} _ _ _ _.
Arguments call R A : clear implicits.
Arguments Step {R A} _ _.
Arguments Update {R A} _.
Arguments session {R H A} _ _ _.
Arguments as_model {R A} _ _.


(** ** A small model and datasets

    The entries are binary64 numbers here and binary32 numbers in torch;
    the tensors below hold small integers, on which the two agree. *)

Module Fixture.

(** [torch.nn.ReLU()] on one entry; a NaN stays a NaN. *)
Definition relu (x : float) : float :=
  if PrimFloat.is_nan x then x
  else if (0 <? x)%float then x else 0%float.

(** [arch = [3, 2, 3]], all weights and biases zero. *)
Definition arch : list nat := [3; 2; 3]%nat.
Definition hidden : Linear float :=
  mkLinear 3 2 [[0; 0; 0]; [0; 0; 0]]%float [0; 0]%float.
Definition output : Linear float :=
  mkLinear 2 3 [[0; 0]; [0; 0]; [0; 0]]%float [0; 0; 0]%float.
Definition blk : NNBlock float := mkNNBlock 2 relu [hidden; output].
Definition model : ResNet float := mkResNet 3 0.01%float 4 blk blk.

(** The same blocks with the output bias set to one. *)
Definition output1 : Linear float :=
  mkLinear 2 3 [[0; 0]; [0; 0]; [0; 0]]%float [1; 1; 1]%float.
Definition blk1 : NNBlock float := mkNNBlock 2 relu [hidden; output1].
Definition model1 : ResNet float := mkResNet 3 0.01%float 4 blk1 blk1.

(** A model whose architecture has a single entry, [arch = [3]]. *)
Definition blk0 : NNBlock float := mkNNBlock 0 relu [].
Definition model0 : ResNet float := mkResNet 3 0.01%float 4 blk0 blk0.

Definition const2 (r c : nat) (v : float) : tensor2 float :=
  T2 r c (repeat (repeat v c) r).
Definition const3 (a b c : nat) (v : float) : tensor3 float :=
  T3 a b c (repeat (repeat (repeat v c) b) a).

Definition x2 : tensor2 float := T2 2 3 [[1; 2; 3]; [4; 5; 6]]%float.
Definition ys2 : tensor3 float := const3 2 5 3 1%float.
Definition ys2_short : tensor3 float := const3 2 4 3 1%float.

(** train_x of shape (100, 3), five horizon columns, step_size 4; the
    targets are reached exactly by the zero model ([dataset]) or are far
    from what it predicts ([dataset_far]). *)
Definition dataset : DataSet float :=
  mkDataSet 3 0.01%float 4 100
    (const2 100 3 0%float) (const3 100 5 3 0%float)
    (const2 10 3 0%float) (const3 10 5 3 0%float).
Definition dataset_far : DataSet float :=
  mkDataSet 3 0.01%float 4 100
    (const2 100 3 0%float) (const3 100 5 3 1000%float)
    (const2 10 3 0%float) (const3 10 5 3 1000%float).

(** An optimizer that leaves the parameters alone and a generator that
    returns the identity permutation. *)
Definition adam (_ : ResNet float) : unit := tt.
Definition randperm (g : unit) (n : nat) : list nat * unit := (seq 0 n, g).
Definition optimizer_step (o : unit) (m : ResNet float) (_ : tensor2 float)
    (_ : tensor3 float) : unit * ResNet float := (o, m).

(** The run of the scenario on [dataset], where the zero model is exact. *)
Definition run5 (model_path : option string)
  : train_state float unit unit * outcome :=
  train_net adam randperm optimizer_step model dataset 5 20 model_path tt.

(** A state in which [best_loss] has been lowered to 0. *)
Definition state_best_0 : train_state float unit unit :=
  mkState 1000 0%float (Some 0%float) model tt tt [].

(** The first pass of a run on [dataset], and a pass from
    [state_best_0]. *)
Definition first_pass : train_state float unit unit * control :=
  train_iter randperm optimizer_step dataset 20 None
    (train_init adam model tt).
Definition break_pass : train_state float unit unit * control :=
  train_iter randperm optimizer_step dataset 20 None state_best_0.

(** The object of a model with ones in the hidden layer's bias and in the
    output layer's weights, for an activation module with a state in
    [nat]. *)
Definition hidden_b1 : Linear float :=
  mkLinear 3 2 [[0; 0; 0]; [0; 0; 0]]%float [1; 1]%float.
Definition output_w1 : Linear float :=
  mkLinear 2 3 [[1; 1]; [1; 1]; [1; 1]]%float [0; 0; 0]%float.
Definition blk_obj : NNBlock_obj float := mkNNBlock_obj 2 [hidden_b1; output_w1].
Definition object : ResNet_obj float nat :=
  mkResNet_obj 3 0.01%float 4 blk_obj blk_obj 0%nat.
Definition blk_obj1 : NNBlock_obj float := mkNNBlock_obj 2 [hidden; output1].
Definition object1 : ResNet_obj float nat :=
  mkResNet_obj 3 0.01%float 4 blk_obj1 blk_obj1 0%nat.

(** [torch.nn.ReLU()] as a module: its call leaves its state alone. *)
Definition relu_module (a : nat) (t : tensor2 float) : tensor2 float * nat :=
  (tmap relu t, a).

(** [torch.nn.Dropout(0.5)] in training mode, the mode of a new module,
    with a generator whose draws keep every entry in an even state and
    drop every entry in an odd one; a kept entry is scaled by
    1 / (1 - 0.5). *)
Definition dropout_module (a : nat) (t : tensor2 float) : tensor2 float * nat :=
  (tmap (fun v => if Nat.even a then (v * 2)%float else (v * 0)%float) t, S a).

(** An interpolation that returns its data. *)
Definition interpolate (_ : string) (_ : nat) (_ : list Z)
    (y : tensor3 float) (_ : list Z) : result (tensor3 float) := Ok y.

End Fixture.

(** ** The constructors *)

Section Constructors.
Context {R : Type} `{Scalar R}.

(** [torch.nn.Linear(a, b)] draws the parameters of a new layer from the
    state of torch's random number generator. *)
Variable Gen : Type.
Variable new_linear : Gen -> nat -> nat -> Linear R * Gen.

(** The loop [for i in range(self.n_layers): self.add_module('Linear_i',
    Linear(arch[i], arch[i+1]))], from index [i], [n] iterations left. *)
Fixpoint add_modules (arch : list nat) (i n : nat) (g : Gen)
  : list (Linear R) * Gen :=
  match n with
  | O => ([], g)
  | S n' =>
      let '(L, g1) := new_linear g (nth i arch O) (nth (S i) arch O) in
      let '(ls, g2) := add_modules arch (S i) n' g1 in
      (L :: ls, g2)
  end.

(** [NNBlock.__init__(arch, activation)] *)
Definition NNBlock_init (arch : list nat) (act : R -> R) (g : Gen)
  : NNBlock R * Gen :=
  let n_layers := Z.of_nat (length arch) - 1 in
  let '(ls, g') := add_modules arch 0 (Z.to_nat n_layers) g in
  (mkNNBlock n_layers act ls, g').

(** [ResNet.__init__(arch, dt, step_size, activation)]; [arch] is a list by
    its type. *)
Definition ResNet_init (arch : list nat) (dt : float) (step_size : Z)
    (act : R -> R) (g : Gen) : result (ResNet R * Gen) :=
  (* check consistencies *)
  first <- py_get arch 0 ;;
  final <- py_get arch (-1) ;;
  _ <- py_assert (Nat.eqb first final) ;;
  (* param *)
  n_dim <- py_get arch 0 ;;
  (* layer *)
  let '(large_block, g1) := NNBlock_init arch act g in
  let '(small_block, g2) := NNBlock_init arch act g1 in
  Ok (mkResNet (Z.of_nat n_dim) dt step_size large_block small_block, g2).

(** What torch guarantees of a new layer: its shape. *)
Definition new_linear_sized : Prop :=
  forall g a b,
    in_features (fst (new_linear g a b)) = a /\
    out_features (fst (new_linear g a b)) = b /\
    Linear_wf (fst (new_linear g a b)).

End Constructors.

Arguments add_modules {R Gen} _ _ _ _ _.
Arguments NNBlock_init {R Gen} _ _ _ _.
Arguments ResNet_init {R Gen} _ _ _ _ _ _.
Arguments new_linear_sized {R Gen} _.

(** ** [ResNet.calculate_loss_single(x, ys, w, type_scale)] *)

(** What the single-scale loss needs of the scalars besides [Scalar]: the
    larger of two entries (for [Tensor.max()]) and the product of a Python
    float with a zero-dimensional tensor. *)
Class ScalarMax (R : Type) : Type := {
  rmax : R -> R -> R;
  rscale : float -> R -> R
}.

(** On floats the maximum keeps a NaN, as [Tensor.max()] does. *)
#[export] Instance ScalarMax_float : ScalarMax float := {
  rmax := fun a b =>
    if PrimFloat.is_nan a || PrimFloat.is_nan b then PrimFloat.nan
    else if (a <? b)%float then b else a;
  rscale := PrimFloat.mul
}.

Section SingleScaleLoss.
Context {R : Type} `{Scalar R} `{ScalarMax R}.

(** [torch.zeros(a, b, c)] for sizes read off a tensor. *)
Definition zeros_like_shape (a b c : nat) : tensor3 R :=
  T3 a b c (repeat (repeat (repeat rzero c) b) a).

(** [y_preds[:, t, :] = v] for [t] in [range(n_steps)]: [v] is broadcast to
    the shape (dim0, dim2) of the slice. *)
Definition assign_step (y_preds : tensor3 R) (t : nat) (v : tensor2 R)
  : result (tensor3 R) :=
  if (Nat.eqb (rows v) (dim0 y_preds) || Nat.eqb (rows v) 1)
     && (Nat.eqb (cols v) (dim2 y_preds) || Nat.eqb (cols v) 1)
  then Ok (T3 (dim0 y_preds) (dim1 y_preds) (dim2 y_preds)
             (zip_with (fun m r => list_set t r m) (entries3 y_preds)
                (expand2 (dim0 y_preds) (dim2 y_preds) v)))
  else Err RuntimeError.

(** The loop [for t in range(n_steps)] over the remaining values of [t]. *)
Fixpoint rollout (self : ResNet R) (type_scale : which) (ts : list nat)
    (y_preds : tensor3 R) (y_prev : tensor2 R) : result (tensor3 R) :=
  match ts with
  | [] => Ok y_preds
  | t :: ts' =>
      y_next <- forward self y_prev type_scale ;;
      y_preds <- assign_step y_preds t y_next ;;
      rollout self type_scale ts' y_preds y_next
  end.

Definition expand3 (a b c : nat) (t : tensor3 R) : list (list (list R)) :=
  expand a (dim0 t)
    (map (fun m => expand b (dim1 t) (map (expand c (dim2 t)) m)) (entries3 t)).

(** The criterion on rank-three tensors. *)
Definition criterion3 (input target : tensor3 R) : result (tensor3 R) :=
  a <- bdim (dim0 input) (dim0 target) ;;
  b <- bdim (dim1 input) (dim1 target) ;;
  c <- bdim (dim2 input) (dim2 target) ;;
  Ok (T3 a b c (zip_with (zip_with (zip_with sq_diff))
                  (expand3 a b c input) (expand3 a b c target))).

Definition elements3 (t : tensor3 R) : list R := concat (concat (entries3 t)).

(** [t.mean()] *)
Definition tmean3 (t : tensor3 R) : R :=
  rdiv (fold_left radd (elements3 t) rzero)
       (rof_nat (dim0 t * dim1 t * dim2 t)).

(** The largest entry. *)
Definition max_entry (t : tensor3 R) : R :=
  match elements3 t with
  | [] => rzero
  | e :: es => fold_left rmax es e
  end.

(** [t.max()]: torch refuses a tensor without entries. *)
Definition tmax3 (t : tensor3 R) : result R :=
  if Nat.eqb (dim0 t * dim1 t * dim2 t) 0 then Err RuntimeError
  else Ok (max_entry t).

Definition calculate_loss_single (self : ResNet R) (x : tensor2 R)
    (ys : tensor3 R) (w : float) (type_scale : which) : result R :=
  (* batch_size, n_steps, n_dim = ys.size() *)
  let batch_size := dim0 ys in
  let n_steps := dim1 ys in
  let n_dim_ys := dim2 ys in
  _ <- py_assert (Z.of_nat n_dim_ys =? n_dim self) ;;
  (* forward (recurrence) *)
  let y_preds := zeros_like_shape batch_size n_steps n_dim_ys in
  y_preds <- rollout self type_scale (seq 0 n_steps) y_preds x ;;
  (* compute loss *)
  e1 <- criterion3 y_preds ys ;;
  let mean_term := rscale w (tmean3 e1) in
  e2 <- criterion3 y_preds ys ;;
  mx <- tmax3 e2 ;;
  let max_term := rscale (1 - w)%float mx in
  Ok (radd mean_term max_term).

(** The pointwise combination of two rank-three tensors of one shape. *)
Definition pointwise3 (f : R -> R -> R) (a b : tensor3 R) : tensor3 R :=
  T3 (dim0 a) (dim1 a) (dim2 a)
     (zip_with (zip_with (zip_with f)) (entries3 a) (entries3 b)).

(** The states after 1, 2, ..., [n] steps from [x] with one block. *)
Fixpoint trajectory (self : ResNet R) (w : which) (n : nat) (x : tensor2 R)
  : list (tensor2 R) :=
  match n with
  | O => []
  | S n' => let y := step self x w in y :: trajectory self w n' y
  end.

(** The tensor of shape (a, len(preds), c) whose slice [[:, t, :]] is the
    [t]-th of [preds], each of shape (a, c). *)
Definition stack_steps (a c : nat) (preds : list (tensor2 R)) : tensor3 R :=
  T3 a (length preds) c
     (map (fun i => map (fun q => nth i (entries q) []) preds) (seq 0 a)).

(** The single-scale loss in closed form: the squared errors of the
    trajectory against [ys], their mean weighted by [w] and their maximum
    by [1 - w]. *)
Definition loss_single_spec (self : ResNet R) (x : tensor2 R) (ys : tensor3 R)
    (w : float) (type_scale : which) : R :=
  let y_preds := stack_steps (dim0 ys) (dim2 ys)
                   (trajectory self type_scale (dim1 ys) x) in
  let errors := pointwise3 sq_diff y_preds ys in
  radd (rscale w (tmean3 errors)) (rscale (1 - w)%float (max_entry errors)).

(** The shapes [train_net_single] relies on: a dataset for a model built
    from [arch] with any horizon of one column or more, and batches and a
    validation set that are not empty. *)
Definition dataset_fits_single (arch : list nat) (dataset : DataSet R)
    (batch_size : Z) : Prop :=
  1 <= batch_size /\
  1 <= n_train dataset <= Z.of_nat (rows (train_x dataset)) /\
  (1 <= hd O arch)%nat /\
  cols (train_x dataset) = hd O arch /\
  dim0 (train_ys dataset) = rows (train_x dataset) /\
  dim2 (train_ys dataset) = cols (train_x dataset) /\
  (1 <= dim1 (train_ys dataset))%nat /\
  (1 <= rows (val_x dataset))%nat /\
  cols (val_x dataset) = hd O arch /\
  dim0 (val_ys dataset) = rows (val_x dataset) /\
  dim2 (val_ys dataset) = cols (val_x dataset) /\
  (1 <= dim1 (val_ys dataset))%nat.

End SingleScaleLoss.

(** ** [ResNet.train_net_single(dataset, max_epoch, batch_size, w, lr,
       model_path)] *)

Section TrainingWith.
Context {R : Type} `{Scalar R}.
Variables Opt Rng : Type.
Variable adam : ResNet R -> Opt.
Variable randperm : Rng -> nat -> list nat * Rng.
Variable optimizer_step :
  Opt -> ResNet R -> tensor2 R -> tensor3 R -> Opt * ResNet R.

(** [train_net_single] is [train_net] line by line, but for the loss it
    calls: the loop is written once, over the loss method. *)
Variable loss : ResNet R -> tensor2 R -> tensor3 R -> result R.

(** One pass through the body of [while epoch < max_epoch]. *)
Definition train_iter_with (dataset : DataSet R) (batch_size : Z)
    (model_path : option string) (st : train_state R Opt Rng)
  : train_state R Opt Rng * control :=
  let epoch1 := epoch st + 1 in
  (* prepare data *)
  let n_samples := n_train dataset in
  if n_samples <? 0
  then (mkState epoch1 (best_loss st) (val_loss st) (net st) (optimizer st)
          (rng st) (log st), Raise RuntimeError)
  else
  let '(new_idxs, rng1) := randperm (rng st) (Z.to_nat n_samples) in
  let idx := py_slice_to new_idxs batch_size in
  let st1 := mkState epoch1 (best_loss st) (val_loss st) (net st)
               (optimizer st) rng1 (log st) in
  match take_rows (train_x dataset) idx with
  | Err e => (st1, Raise e)
  | Ok batch_x =>
  match take_rows3 (train_ys dataset) idx with
  | Err e => (st1, Raise e)
  | Ok batch_ys =>
  (* calculate losses *)
  match loss (net st) batch_x batch_ys with
  | Err e => (st1, Raise e)
  | Ok train_loss =>
  match loss (net st) (val_x dataset) (val_ys dataset) with
  | Err e => (st1, Raise e)
  | Ok vl =>
  (* early stopping *)
  if (best_loss st <=? threshold)%float
  then (mkState epoch1 (best_loss st) (Some vl) (net st) (optimizer st) rng1
          (log st ++ [PrintConverged]), Break)
  else
  (* backward *)
  let '(opt1, net1) := optimizer_step (optimizer st) (net st) batch_x batch_ys in
  let log1 := log st ++ [OptimizerStep epoch1] in
  (* log *)
  let log2 := if epoch1 =? 10 then log1 ++ [PrintTime] else log1 in
  if epoch1 mod 1000 =? 0
  then
    let log3 := log2 ++ [PrintEpoch epoch1] in
    if (ritem vl <? best_loss st)%float
    then
      let log4 := match model_path with
                  | Some _ => log3 ++ [PrintSaved epoch1; Save epoch1]
                  | None => log3
                  end in
      (mkState epoch1 (ritem vl) (Some vl) net1 opt1 rng1 log4, Continue)
    else (mkState epoch1 (best_loss st) (Some vl) net1 opt1 rng1 log3, Continue)
  else (mkState epoch1 (best_loss st) (Some vl) net1 opt1 rng1 log2, Continue)
  end end end end.

(** [while epoch < max_epoch: ...] *)
Fixpoint train_loop_with (fuel : nat) (dataset : DataSet R)
    (max_epoch batch_size : Z) (model_path : option string)
    (st : train_state R Opt Rng) : train_state R Opt Rng * outcome :=
  if epoch st <? max_epoch then
    match fuel with
    | O => (st, OutOfFuel)
    | S fuel' =>
        match train_iter_with dataset batch_size model_path st with
        | (st', Continue) =>
            train_loop_with fuel' dataset max_epoch batch_size model_path st'
        | (st', Break) => (st', Finished Converged)
        | (st', Raise e) => (st', Raised e)
        end
    end
  else (st, Finished Exhausted).

Definition train_net_with (self : ResNet R) (dataset : DataSet R)
    (max_epoch batch_size : Z) (model_path : option string) (g : Rng)
  : train_state R Opt Rng * outcome :=
  (* check consistency *)
  match check_data_info self dataset with
  | Err e => (train_init adam self g, Raised e)
  | Ok _ =>
      match train_loop_with (Z.to_nat max_epoch) dataset max_epoch batch_size
              model_path (train_init adam self g) with
      | (st, Finished how) =>
          (* if to save at the end *)
          match val_loss st with
          | None => (st, Raised UnboundLocalError)
          | Some vl =>
              if (ritem vl <? best_loss st)%float && is_some model_path
              then (mkState (epoch st) (best_loss st) (val_loss st) (net st)
                      (optimizer st) (rng st)
                      (log st ++ [PrintSaved (epoch st); Save (epoch st)]),
                    Finished how)
              else (st, Finished how)
          end
      | other => other
      end
  end.

End TrainingWith.

Arguments train_iter_with {R H Opt Rng} _ _ _ _ _ _ _.
Arguments train_loop_with {R H Opt Rng} _ _ _ _ _ _ _ _ _.
Arguments train_net_with {R H Opt Rng} _ _ _ _ _ _ _ _ _ _.

(** [train_net_single]: the loop with
    [self.calculate_loss_single(x, ys, w=w)], whose [type_scale] is left at
    its default ['small']. *)
Definition train_net_single {R : Type} `{Scalar R} `{ScalarMax R}
    {Opt Rng : Type} (adam : ResNet R -> Opt)
    (randperm : Rng -> nat -> list nat * Rng)
    (optimizer_step :
       Opt -> ResNet R -> tensor2 R -> tensor3 R -> Opt * ResNet R)
    (self : ResNet R) (dataset : DataSet R) (max_epoch batch_size : Z)
    (w : float) (model_path : option string) (g : Rng)
  : train_state R Opt Rng * outcome :=
  train_net_with adam randperm optimizer_step
    (fun m x ys => calculate_loss_single m x ys w small)
    self dataset max_epoch batch_size model_path g.

(** ** The optimizer's constructor

    [torch.optim.Adam(self.parameters(), lr=lr)] comes after the
    consistency check and before the loop (lines 129 and 330).  It raises
    ValueError when [0.0 <= lr] does not hold and when the model has no
    parameter; its other arguments keep their defaults.  The parameters of
    a model are the weights and biases of the layers of its two blocks:
    there is none when both blocks are without layers, as for an [arch]
    of a single entry. *)

Definition has_parameters {R : Type} (self : ResNet R) : bool :=
  match modules (block_large self) ++ modules (block_small self) with
  | [] => false
  | _ :: _ => true
  end.

Definition adam_accepts {R : Type} (self : ResNet R) (lr : float) : bool :=
  (0 <=? lr)%float && has_parameters self.

(** How a call of a training method goes: Adam's constructor raises its
    ValueError, or the method runs with the optimizer it was given. *)
Inductive training_call (T : Type) : Type :=
| AdamValueError
| Runs (run : T).
Arguments AdamValueError {T}.
Arguments Runs {T} run.

(** [ResNet.train_net(dataset, max_epoch, batch_size, w, lr, model_path)]
    and [ResNet.train_net_single(...)] as they are called, [lr] included:
    [adam self] is the optimizer that the constructor returns when it
    accepts its arguments.  A failed consistency check comes first. *)
Definition train_net_call {R : Type} `{Scalar R} {Opt Rng : Type}
    (adam : ResNet R -> Opt) (randperm : Rng -> nat -> list nat * Rng)
    (optimizer_step :
       Opt -> ResNet R -> tensor2 R -> tensor3 R -> Opt * ResNet R)
    (self : ResNet R) (dataset : DataSet R) (max_epoch batch_size : Z)
    (lr : float) (model_path : option string) (g : Rng)
  : training_call (train_state R Opt Rng * outcome) :=
  match check_data_info self dataset with
  | Err _ =>
      Runs (train_net adam randperm optimizer_step self dataset max_epoch
              batch_size model_path g)
  | Ok _ =>
      if adam_accepts self lr
      then Runs (train_net adam randperm optimizer_step self dataset max_epoch
                   batch_size model_path g)
      else AdamValueError
  end.

Definition train_net_single_call {R : Type} `{Scalar R} `{ScalarMax R}
    {Opt Rng : Type}
    (adam : ResNet R -> Opt) (randperm : Rng -> nat -> list nat * Rng)
    (optimizer_step :
       Opt -> ResNet R -> tensor2 R -> tensor3 R -> Opt * ResNet R)
    (self : ResNet R) (dataset : DataSet R) (max_epoch batch_size : Z)
    (w lr : float) (model_path : option string) (g : Rng)
  : training_call (train_state R Opt Rng * outcome) :=
  match check_data_info self dataset with
  | Err _ =>
      Runs (train_net_single adam randperm optimizer_step self dataset
              max_epoch batch_size w model_path g)
  | Ok _ =>
      if adam_accepts self lr
      then Runs (train_net_single adam randperm optimizer_step self dataset
                   max_epoch batch_size w model_path g)
      else AdamValueError
  end.

(** What holds of the variables of a training method each time the loop
    test is reached: [epoch] optimizer steps so far, checkpoints only with
    a path and at multiples of 1000, [best_loss] at or below the threshold
    only since a report, [val_loss] bound after the first pass. *)
Definition loop_inv {R Opt Rng : Type} (model_path : option string)
    (st : train_state R Opt Rng) : Prop :=
  0 <= epoch st /\
  Z.of_nat (count_events is_optimizer_step (log st)) = epoch st /\
  count_events is_print_converged (log st) = 0%nat /\
  (forall e, In (Save e) (log st) ->
             model_path <> None /\ e mod 1000 = 0 /\ 1 <= e <= epoch st) /\
  ((best_loss st <=? threshold)%float = true ->
   1000 <= epoch st /\ epoch st mod 1000 = 0) /\
  (0 < epoch st -> is_some (val_loss st) = true) /\
  (epoch st = 0 -> val_loss st = None /\ log st = []).

(** How a run of a training method relates its optimizer steps to its
    epochs, by the way it ends: all of [max_epoch] passes step when the
    loop runs out, and the pass that stops early or raises does not. *)
Definition steps_follow_epochs {R Opt Rng : Type} (max_epoch : Z)
    (run : train_state R Opt Rng * outcome) : Prop :=
  let st := fst run in
  let steps := Z.of_nat (count_events is_optimizer_step (log st)) in
  match snd run with
  | Finished Exhausted =>
      0 < max_epoch /\ epoch st = max_epoch /\ steps = max_epoch
  | Finished Converged =>
      1 <= epoch st <= max_epoch /\ steps = epoch st - 1
  | Raised _ =>
      (epoch st = 0 /\ steps = 0) \/
      (1 <= epoch st <= max_epoch /\ steps = epoch st - 1)
  | OutOfFuel => False
  end.

(** An early stop comes one pass after a report has lowered [best_loss] to
    1e-8 or less: at an epoch 1000 k + 1. *)
Definition converges_after_report {R Opt Rng : Type}
    (run : train_state R Opt Rng * outcome) : Prop :=
  snd run = Finished Converged ->
  1000 < epoch (fst run) /\ (epoch (fst run) - 1) mod 1000 = 0 /\
  (best_loss (fst run) <=? threshold)%float = true /\
  count_events is_print_converged (log (fst run)) = 1%nat.

(** Checkpoints are written with a path only, in the report of an epoch
    that is a multiple of 1000 or at the exit of the loop. *)
Definition saves_at_reports_or_exit {R Opt Rng : Type}
    (model_path : option string) (run : train_state R Opt Rng * outcome)
  : Prop :=
  forall e, In (Save e) (log (fst run)) ->
            model_path <> None /\
            (e mod 1000 = 0 \/ e = epoch (fst run)) /\
            1 <= e <= epoch (fst run).

(** ** Further concrete cases *)

Module Cases.
Import Fixture.

(** A generator of layers whose parameters are all zero. *)
Definition new_linear (g : unit) (a b : nat) : Linear float * unit :=
  (mkLinear a b (repeat (repeat 0%float a) b) (repeat 0%float b), g).

(** A batch of vectors with two entries, for a model of three. *)
Definition x_narrow : tensor2 float := const2 2 2 0%float.

(** Targets for a batch of three, of no column, and of one column. *)
Definition ys3 : tensor3 float := const3 3 5 3 1%float.
Definition ys_empty : tensor3 float := const3 2 0 3 1%float.
Definition ys_one : tensor3 float := const3 2 1 3 1%float.

(** [dataset] with four horizon columns instead of five. *)
Definition dataset_short : DataSet float :=
  mkDataSet 3 0.01%float 4 100
    (const2 100 3 0%float) (const3 100 4 3 0%float)
    (const2 10 3 0%float) (const3 10 4 3 0%float).

(** [model] with another large block. *)
Definition model_other_large : ResNet float :=
  mkResNet 3 0.01%float 4 blk1 blk.

End Cases.

(* ================================================================== *)
(** * Part II. Properties *)
(* ================================================================== *)

(** ** Fallible computations *)

Lemma bind_Ok_red {A B : Type} (a : A) (k : A -> result B) :
  bind (Ok a) k = k a.
Proof. reflexivity. Qed.

Lemma bind_Err_red {A B : Type} (e : exn) (k : A -> result B) :
  bind (Err e) k = Err e.
Proof. reflexivity. Qed.

Lemma bind_inv {A B : Type} (c : result A) (k : A -> result B) (b : B) :
  bind c k = Ok b -> exists a, c = Ok a /\ k a = Ok b.
Proof.
  destruct c as [a | e]; simpl; intros Hb; [| discriminate Hb].
  now exists a.
Qed.

Lemma bind_err_cont {A B : Type} (c : result A) (k : A -> result B) :
  (forall a, exists e, k a = Err e) -> exists e, bind c k = Err e.
Proof.
  intros Hk. destruct c as [a | e]; simpl.
  - apply Hk.
  - now exists e.
Qed.

Lemma zip_with_length {A B C : Type} (f : A -> B -> C) (l1 : list A) (l2 : list B) :
  length (zip_with f l1 l2) = Nat.min (length l1) (length l2).
Proof.
  revert l2. induction l1 as [| a l1 IH]; intros [| b l2]; simpl; auto.
Qed.

Section TensorFacts.
Context {R : Type} `{Scalar R}.

Lemma bdim_same (a : nat) : bdim a a = Ok a.
Proof. unfold bdim. now rewrite Nat.eqb_refl. Qed.

Lemma expand_same {A : Type} (n : nat) (l : list A) : expand n n l = l.
Proof. unfold expand. now rewrite Nat.eqb_refl. Qed.

Lemma expand2_same (t : tensor2 R) : expand2 (rows t) (cols t) t = entries t.
Proof.
  unfold expand2. rewrite expand_same.
  rewrite (map_ext _ (fun r => r)) by (intros; apply expand_same).
  apply map_id.
Qed.

(** On two tensors of one shape nothing is broadcast. *)
Lemma binop_same_shape (f : R -> R -> R) (a b : tensor2 R) :
  rows b = rows a -> cols b = cols a ->
  binop f a b = Ok (pointwise f a b).
Proof.
  intros Hr Hc. unfold binop, pointwise.
  rewrite Hr, Hc, !bdim_same. simpl.
  rewrite expand2_same.
  replace (expand2 (rows a) (cols a) b) with (entries b); [reflexivity |].
  rewrite <- Hr, <- Hc. symmetry. apply expand2_same.
Qed.

Lemma tadd_same_shape (a b : tensor2 R) :
  rows b = rows a -> cols b = cols a -> tadd a b = Ok (pointwise radd a b).
Proof. apply binop_same_shape. Qed.

Lemma criterion_same_shape (a b : tensor2 R) :
  rows b = rows a -> cols b = cols a ->
  criterion a b = Ok (pointwise sq_diff a b).
Proof. apply binop_same_shape. Qed.

Lemma tadd_inplace_same_shape (a b : tensor2 R) :
  rows b = rows a -> cols b = cols a ->
  tadd_inplace a b = Ok (pointwise radd a b).
Proof.
  intros Hr Hc. unfold tadd_inplace.
  rewrite tadd_same_shape by assumption. simpl.
  now rewrite !Nat.eqb_refl.
Qed.

Lemma pointwise_wf (f : R -> R -> R) (a b : tensor2 R) :
  rows b = rows a -> cols b = cols a -> wf2 a -> wf2 b ->
  wf2 (pointwise f a b).
Proof.
  intros Hr Hc [La Fa] [Lb Fb]. unfold wf2, pointwise; simpl. split.
  - rewrite zip_with_length, La, Lb, Hr. apply Nat.min_id.
  - rewrite Hc in Fb. clear La Lb Hr Hc.
    revert Fb. generalize (entries b). induction Fa as [| r ra Hlen Fa IH];
      intros [| s sb] Fb; simpl; constructor.
    + inversion Fb; subst. rewrite zip_with_length. lia.
    + inversion Fb; subst. now apply IH.
Qed.

Lemma tmap_wf (f : R -> R) (t : tensor2 R) : wf2 t -> wf2 (tmap f t).
Proof.
  intros [L F]. unfold wf2, tmap; simpl. split.
  - now rewrite length_map.
  - rewrite Forall_map. eapply Forall_impl; [| exact F].
    intros r Hr; simpl. now rewrite length_map.
Qed.

(** *** Linear layers *)

Lemma affine_length (L : Linear R) (row : list R) :
  Linear_wf L -> length (affine L row) = out_features L.
Proof.
  intros (Hw & _ & Hb). unfold affine.
  rewrite zip_with_length, length_map, Hw, Hb. apply Nat.min_id.
Qed.

Lemma Linear_forward_ok (L : Linear R) (x : tensor2 R) :
  cols x = in_features L ->
  exists y, Linear_forward L x = Ok y /\
            rows y = rows x /\ cols y = out_features L /\
            (Linear_wf L -> wf2 x -> wf2 y).
Proof.
  intros Hc. unfold Linear_forward. rewrite Hc, Nat.eqb_refl.
  eexists; split; [reflexivity |]. simpl.
  split; [reflexivity |]. split; [reflexivity |].
  intros HL [Len F]. unfold wf2; simpl. split.
  - now rewrite length_map.
  - rewrite Forall_map. eapply Forall_impl; [| exact F].
    intros r _. now apply affine_length.
Qed.

End TensorFacts.

Section BlockFacts.
Context {R : Type} `{Scalar R}.

Lemma get_module_nth (b : NNBlock R) (k : nat) (L : Linear R) :
  nth_error (modules b) k = Some L -> get_module b (Z.of_nat k) = Ok L.
Proof.
  intros Hk. unfold get_module.
  destruct (Z.ltb_spec (Z.of_nat k) 0) as [Hneg | _]; [lia |].
  now rewrite Nat2Z.id, Hk.
Qed.

(** The loop over the hidden layers followed by the last layer is the
    block of the specification, from any layer on. *)
Lemma hidden_then_last (b : NNBlock R) (rest pre : list (Linear R))
    (L : Linear R) (x : tensor2 R) :
  modules b = pre ++ L :: rest ->
  (x' <- hidden_layers b (Z.of_nat (length pre)) (length rest) x ;;
   Lf <- get_module b (Z.of_nat (length pre + length rest)) ;;
   Linear_forward Lf x')
  = residual_block_spec (activation b) L rest x.
Proof.
  revert pre L x. induction rest as [| L' rest IH]; intros pre L x Hm.
  - simpl. rewrite Nat.add_0_r.
    rewrite (get_module_nth b (length pre) L).
    + reflexivity.
    + rewrite Hm, nth_error_app2, Nat.sub_diag by lia. reflexivity.
  - simpl hidden_layers. simpl residual_block_spec.
    rewrite (get_module_nth b (length pre) L).
    2: { rewrite Hm, nth_error_app2, Nat.sub_diag by lia. reflexivity. }
    simpl bind at 2.
    destruct (Linear_forward L x) as [y | e]; [| reflexivity].
    simpl bind.
    specialize (IH (pre ++ [L]) L' (tmap (activation b) y)).
    rewrite length_app in IH. simpl length in IH.
    replace (Z.of_nat (length pre) + 1) with (Z.of_nat (length pre + 1)) by lia.
    replace (length pre + S (length rest))%nat
      with (length pre + 1 + length rest)%nat by lia.
    apply IH. rewrite Hm, <- app_assoc. reflexivity.
Qed.

(** [NNBlock.forward] computes the block of the specification. *)
Lemma NNBlock_forward_spec (b : NNBlock R) (L : Linear R)
    (rest : list (Linear R)) (x : tensor2 R) :
  modules b = L :: rest ->
  n_layers b = Z.of_nat (length (modules b)) ->
  NNBlock_forward b x = residual_block_spec (activation b) L rest x.
Proof.
  intros Hm Hn. unfold NNBlock_forward.
  rewrite Hn, Hm. simpl length.
  replace (Z.to_nat (Z.of_nat (S (length rest)) - 1)) with (length rest) by lia.
  replace (Z.of_nat (S (length rest)) - 1)
    with (Z.of_nat (length (@nil (Linear R)) + length rest))
    by (cbn [length Nat.add]; lia).
  apply (hidden_then_last b rest [] L x). exact Hm.
Qed.

(** Layers built from an architecture compose: the block maps a batch of
    [arch[0]]-vectors to a batch of [arch[-1]]-vectors. *)
Lemma residual_block_spec_ok (act : R -> R) (rest : list (Linear R)) :
  forall (a : nat) (arch : list nat) (L : Linear R) (x : tensor2 R),
    layers_of (a :: arch) (L :: rest) ->
    cols x = a ->
    exists r, residual_block_spec act L rest x = Ok r /\
              rows r = rows x /\ cols r = last (a :: arch) O /\
              (wf2 x -> wf2 r).
Proof.
  induction rest as [| L' rest IH]; intros a arch L x Hl Hc.
  - destruct arch as [| a' arch']; [contradiction |].
    destruct Hl as (Hin & Hout & HwfL & Hrest).
    destruct arch' as [| a'' arch'']; [| contradiction].
    destruct (Linear_forward_ok L x) as (y & Hy & Hr & Hcy & Hwf);
      [congruence |].
    exists y. simpl.
    split; [exact Hy |]. split; [exact Hr |]. split; [congruence |].
    intros Hx. now apply Hwf.
  - destruct arch as [| a' arch']; [contradiction |].
    destruct Hl as (Hin & Hout & HwfL & Hrest).
    destruct (Linear_forward_ok L x) as (y & Hy & Hr & Hcy & Hwf);
      [congruence |].
    destruct (IH a' arch' L' (tmap act y) Hrest) as (r & Hres & Hrr & Hcr & Hwfr).
    { simpl. congruence. }
    exists r. simpl residual_block_spec. rewrite Hy. simpl bind.
    split; [exact Hres |]. split; [| split].
    + rewrite Hrr. simpl. exact Hr.
    + rewrite Hcr. destruct arch'; reflexivity.
    + intros Hx. apply Hwfr, tmap_wf, Hwf; assumption.
Qed.

Lemma layers_of_nonempty (arch : list nat) (ls : list (Linear R)) :
  (2 <= length arch)%nat -> layers_of arch ls ->
  exists a arch' L rest, arch = a :: arch' /\ ls = L :: rest.
Proof.
  intros Hlen Hl. destruct arch as [| a [| a' arch']]; simpl in Hlen; try lia.
  destruct ls as [| L rest]; [contradiction |].
  now exists a, (a' :: arch'), L, rest.
Qed.

Lemma layers_of_length (arch : list nat) :
  forall ls : list (Linear R),
    layers_of arch ls -> S (length ls) = length arch.
Proof.
  induction arch as [| a arch IH]; intros ls Hl; [contradiction |].
  destruct arch as [| a' arch'].
  - destruct ls; [reflexivity | contradiction].
  - destruct ls as [| L rest]; [contradiction |].
    destruct Hl as (_ & _ & _ & Hrest). simpl. f_equal. now apply IH.
Qed.

(** The stepping primitive on a model built by [ResNet.__init__] from an
    architecture with at least one layer. *)
Lemma forward_ok (arch : list nat) (self : ResNet R) (x : tensor2 R)
    (w : which) :
  ResNet_of arch self -> (2 <= length arch)%nat ->
  Z.of_nat (cols x) = n_dim self ->
  exists L rest r,
    modules (block self w) = L :: rest /\
    residual_block_spec (activation (block self w)) L rest x = Ok r /\
    rows r = rows x /\ cols r = cols x /\ (wf2 x -> wf2 r) /\
    forward self x w = Ok (pointwise radd x r).
Proof.
  intros (Hhd & Hnd & Hlarge & Hsmall) Hlen Hx.
  assert (Hb : NNBlock_of arch (block self w)) by (destruct w; assumption).
  destruct Hb as (Hn & Hl).
  destruct (layers_of_nonempty arch _ Hlen Hl) as (a & arch' & L & rest & -> & Hm).
  rewrite Hm in Hl.
  cbn [hd_error hd] in Hhd, Hnd.
  assert (Hca : cols x = a) by lia.
  destruct (residual_block_spec_ok (activation (block self w)) rest a arch' L x Hl Hca)
    as (r & Hres & Hrr & Hcr & Hwfr).
  assert (Hcols : cols r = cols x) by congruence.
  exists L, rest, r.
  split; [exact Hm |]. split; [exact Hres |]. split; [exact Hrr |].
  split; [exact Hcols |]. split; [exact Hwfr |].
  unfold forward.
  rewrite (NNBlock_forward_spec _ L rest x Hm).
  - rewrite Hres. simpl bind. apply tadd_same_shape; assumption.
  - rewrite Hn, Hm. pose proof (layers_of_length _ _ Hl) as Hlen'.
    rewrite <- Hlen'. lia.
Qed.

End BlockFacts.

Section StepProperties.
Context {R : Type} `{Scalar R}.

(** C2. On a model built from an architecture with at least one layer and
    a batch [x] of [n_dim]-vectors, [step(x, which)] is [forward], and it
    returns exactly [x + r] where [r] is the output of the residual block
    of [which] as the specification describes it (affine layers, the
    nonlinearity after all but the last); the output has the shape of the
    input. *)
Theorem step_is_input_plus_residual (arch : list nat) (self : ResNet R)
    (x : tensor2 R) (w : which) :
  ResNet_of arch self -> (2 <= length arch)%nat ->
  wf2 x -> Z.of_nat (cols x) = n_dim self ->
  exists L rest r,
    modules (block self w) = L :: rest /\
    residual_block_spec (activation (block self w)) L rest x = Ok r /\
    forward self x w = Ok (pointwise radd x r) /\
    shape2 (pointwise radd x r) = shape2 x /\
    wf2 (pointwise radd x r).
Proof.
  intros Hnet Hlen Hwf Hx.
  destruct (forward_ok arch self x w Hnet Hlen Hx)
    as (L & rest & r & Hm & Hres & Hrr & Hcr & Hwfr & Hf).
  exists L, rest, r.
  split; [exact Hm |]. split; [exact Hres |]. split; [exact Hf |].
  split; [reflexivity |].
  apply pointwise_wf; auto.
Qed.

(** A block without layers (an architecture of length one) has no last
    layer to look up. *)
Lemma NNBlock_forward_no_layer (b : NNBlock R) (x : tensor2 R) :
  n_layers b = 0 -> NNBlock_forward b x = Err KeyError.
Proof. intros Hn. unfold NNBlock_forward. rewrite Hn. reflexivity. Qed.

(** *** Calls on the object *)

Section CallProperties.
Variable A : Type.
Variable call_activation : A -> tensor2 R -> tensor2 R * A.

(** A step writes no attribute and no parameter of the object, whatever
    its activation does. *)
Lemma forward_call_keeps_parameters (self : ResNet_obj R A) (x : tensor2 R)
    (w : which) :
  let self' := snd (forward_call call_activation self x w) in
  obj_n_dim self' = obj_n_dim self /\ obj_dt self' = obj_dt self /\
  obj_step_size self' = obj_step_size self /\
  obj_large self' = obj_large self /\ obj_small self' = obj_small self.
Proof.
  cbv zeta. unfold forward_call.
  destruct (NNBlock_call call_activation (obj_block self w) x
              (obj_activation self)) as [residual a'].
  cbn [snd obj_n_dim obj_dt obj_step_size obj_large obj_small].
  repeat split.
Qed.

Section FunctionActivation.
Variable f : tensor2 R -> tensor2 R.
Hypothesis call_is_function : forall a t, call_activation a t = (f t, a).

(** With an activation that is a function of its input, the loop over the
    hidden layers hands back the state it was given. *)
Lemma hidden_layers_call_state (b : NNBlock_obj R) (n : nat) :
  forall (i : Z) (x : tensor2 R) (a : A),
    snd (hidden_layers_call call_activation b i n x a) = a.
Proof.
  induction n as [| n IH]; intros i x a; cbn [hidden_layers_call];
    [reflexivity |].
  destruct (obj_get_module b i) as [L | e]; [| reflexivity].
  destruct (Linear_forward L x) as [y | e]; [| reflexivity].
  rewrite call_is_function. apply IH.
Qed.

Lemma NNBlock_call_state (b : NNBlock_obj R) (x : tensor2 R) (a : A) :
  snd (NNBlock_call call_activation b x a) = a.
Proof.
  unfold NNBlock_call.
  pose proof (hidden_layers_call_state b (Z.to_nat (obj_n_layers b - 1)) 0 x a)
    as Hs.
  destruct (hidden_layers_call call_activation b 0
              (Z.to_nat (obj_n_layers b - 1)) x a) as [hidden a'].
  exact Hs.
Qed.

Lemma forward_call_state (self : ResNet_obj R A) (x : tensor2 R) (w : which) :
  snd (forward_call call_activation self x w) = self.
Proof.
  unfold forward_call.
  pose proof (NNBlock_call_state (obj_block self w) x (obj_activation self))
    as Hs.
  destruct (NNBlock_call call_activation (obj_block self w) x
              (obj_activation self)) as [residual a'].
  cbn [snd] in Hs |- *. rewrite Hs. destruct self; reflexivity.
Qed.

End FunctionActivation.

(** With an activation that is the function [g] entry by entry, a call on
    the object is [forward] on the model of Part I. *)
Lemma hidden_layers_call_as_model (g : R -> R) (n_l : Z)
    (b : NNBlock_obj R) (n : nat) :
  (forall a t, call_activation a t = (tmap g t, a)) ->
  forall (i : Z) (x : tensor2 R) (a : A),
    hidden_layers_call call_activation b i n x a
    = (hidden_layers (mkNNBlock n_l g (obj_modules b)) i n x, a).
Proof.
  intros Hg. induction n as [| n IH]; intros i x a;
    cbn [hidden_layers_call hidden_layers]; [reflexivity |].
  unfold obj_get_module, get_module. cbn [modules activation].
  destruct (i <? 0); [reflexivity |].
  destruct (nth_error (obj_modules b) (Z.to_nat i)) as [L |]; [| reflexivity].
  rewrite bind_Ok_red.
  destruct (Linear_forward L x) as [y | e]; [| reflexivity].
  rewrite bind_Ok_red, Hg. apply IH.
Qed.

Lemma forward_call_as_model (g : R -> R) (self : ResNet_obj R A)
    (x : tensor2 R) (w : which) :
  (forall a t, call_activation a t = (tmap g t, a)) ->
  forward_call call_activation self x w
  = (forward (as_model g self) x w, self).
Proof.
  intros Hg. unfold forward_call, NNBlock_call, forward, NNBlock_forward.
  rewrite (hidden_layers_call_as_model g (obj_n_layers (obj_block self w))
             _ _ Hg).
  assert (Hb : block (as_model g self) w
               = mkNNBlock (obj_n_layers (obj_block self w)) g
                   (obj_modules (obj_block self w)))
    by (destruct w; reflexivity).
  rewrite Hb. cbn [n_layers].
  unfold obj_get_module, get_module. cbn [modules].
  destruct self; reflexivity.
Qed.


End CallProperties.

End StepProperties.

Section LossProperties.
Context {R : Type} `{Scalar R}.

Lemma column_ok (ys : tensor3 R) (k : nat) :
  (k < dim1 ys)%nat ->
  column ys k
  = Ok (T2 (dim0 ys) (dim2 ys) (map (fun m => nth k m []) (entries3 ys))).
Proof.
  intros Hk. unfold column.
  destruct (Nat.ltb_spec k (dim1 ys)); [reflexivity | lia].
Qed.

Lemma column_out_of_range (ys : tensor3 R) (k : nat) :
  (dim1 ys <= k)%nat -> column ys k = Err IndexError.
Proof.
  intros Hk. unfold column.
  destruct (Nat.ltb_spec k (dim1 ys)); [lia | reflexivity].
Qed.

Lemma py_assert_true (b : bool) : b = true -> py_assert b = Ok tt.
Proof. now intros ->. Qed.

Lemma large_small_not_a_branch : ~ In ([large; small], 2%nat) loss_branches.
Proof.
  unfold loss_branches. simpl. intros Hin.
  repeat (destruct Hin as [Hin | Hin]; [discriminate Hin |]).
  exact Hin.
Qed.

End LossProperties.

Section LossTheorem.
Context {R : Type} `{Scalar R}.

Lemma forward_value (arch : list nat) (self : ResNet R) (x0 t : tensor2 R)
    (w : which) :
  ResNet_of arch self -> (2 <= length arch)%nat ->
  Z.of_nat (cols x0) = n_dim self ->
  rows t = rows x0 -> cols t = cols x0 ->
  forward self t w = Ok (step self t w) /\
  rows (step self t w) = rows x0 /\ cols (step self t w) = cols x0.
Proof.
  intros Hnet Hlen Hx Hr Hc.
  destruct (forward_ok arch self t w Hnet Hlen)
    as (_ & _ & r & _ & _ & Hrr & Hcr & _ & Hf); [congruence |].
  unfold step. rewrite Hf. simpl. auto.
Qed.

Ltac forward_step arch x0 Hnet Hlen Hx :=
  match goal with
  | |- context [forward ?self ?t ?w] =>
      let Hrr := fresh "Hrows" in
      let Hcr := fresh "Hcols" in
      let Hf := fresh "Hf" in
      destruct (forward_value arch self x0 t w Hnet Hlen Hx)
        as (Hf & Hrr & Hcr);
      [ first [reflexivity | assumption] ..
      | rewrite Hf; clear Hf; rewrite ?bind_Ok_red ]
  end.

Ltac shape_side x0 :=
  cbn [cols rows pointwise];
  first
    [ reflexivity
    | assumption
    | transitivity (rows x0);
      [ first [reflexivity | assumption]
      | symmetry; first [reflexivity | assumption] ]
    | transitivity (cols x0);
      [ first [reflexivity | assumption]
      | symmetry; first [reflexivity | assumption] ] ].

Ltac same_shape_step x0 :=
  first
    [ rewrite criterion_same_shape by shape_side x0
    | rewrite tadd_inplace_same_shape by shape_side x0 ];
  rewrite ?bind_Ok_red.

Lemma tsum_nil (e : tensor2 R) : tsum e [] = Ok e.
Proof. reflexivity. Qed.

Lemma tsum_cons (e t : tensor2 R) (es : list (tensor2 R)) :
  rows t = rows e -> cols t = cols e ->
  tsum e (t :: es) = tsum (pointwise radd e t) es.
Proof.
  intros Hr Hc. unfold tsum. cbn [fold_left bind].
  now rewrite tadd_same_shape.
Qed.

(** On inputs of the documented shapes the code and the specification's
    loss return, and return the same scalar. *)
Lemma calculate_loss_agrees (arch : list nat) (self : ResNet R)
    (x : tensor2 R) (ys : tensor3 R) :
  ResNet_of arch self -> (2 <= length arch)%nat ->
  Z.of_nat (cols x) = n_dim self ->
  dim0 ys = rows x -> dim2 ys = cols x -> (5 <= dim1 ys)%nat ->
  exists v : R,
    calculate_loss self x ys = Ok v /\ loss_spec self x ys = Ok v.
Proof.
  intros Hnet Hlen Hx Hd0 Hd2 Hd1.
  unfold calculate_loss, loss_spec.
  rewrite py_assert_true by (apply Z.eqb_eq; lia).
  unfold loss_branches, branch_error.
  cbn [mapM compose fst snd].
  rewrite ?bind_Ok_red.
  rewrite (column_ok ys 0), (column_ok ys 1), (column_ok ys 2),
    (column_ok ys 3), (column_ok ys 4) by lia.
  repeat first [forward_step arch x Hnet Hlen Hx | same_shape_step x].
  do 15 rewrite tsum_cons by shape_side x.
  rewrite tsum_nil, ?bind_Ok_red.
  eexists. split; reflexivity.
Qed.

(** C1. On a batch [x] of [n_dim]-vectors and targets [ys] for the same
    batch with at least five horizon columns, [calculate_loss] returns a
    scalar, the mean of the sum of the unreduced squared errors of exactly
    the sixteen branches of [loss_branches], each against its column of
    [ys]; the branch (large, small) at column 2 is computed by the code but
    is not among the summed branches. *)
Theorem calculate_loss_mean_of_branch_sum (arch : list nat) (self : ResNet R)
    (x : tensor2 R) (ys : tensor3 R) :
  ResNet_of arch self -> (2 <= length arch)%nat ->
  Z.of_nat (cols x) = n_dim self ->
  dim0 ys = rows x -> dim2 ys = cols x -> (5 <= dim1 ys)%nat ->
  (exists v : R,
      calculate_loss self x ys = Ok v /\ loss_spec self x ys = Ok v) /\
  length loss_branches = 16%nat /\
  ~ In ([large; small], 2%nat) loss_branches.
Proof.
  intros Hnet Hlen Hx Hd0 Hd2 Hd1.
  split; [now apply (calculate_loss_agrees arch) |].
  split; [reflexivity | apply large_small_not_a_branch].
Qed.

(** A call that returns has found column 4 of [ys], whatever the model and
    the batch are. *)
Lemma calculate_loss_ok_column4 (self : ResNet R) (x : tensor2 R)
    (ys : tensor3 R) (v : R) :
  calculate_loss self x ys = Ok v -> (4 < dim1 ys)%nat.
Proof.
  intros Hv.
  destruct (Nat.lt_ge_cases 4 (dim1 ys)) as [Hlt | Hge]; [exact Hlt |].
  exfalso. unfold calculate_loss in Hv.
  rewrite (column_out_of_range ys 4 Hge) in Hv.
  repeat
    (apply bind_inv in Hv;
     let a := fresh "a" in
     destruct Hv as (a & _ & Hv); cbv beta in Hv;
     try discriminate Hv).
Qed.

(** The one check of the arguments: the last dimension of [ys]. *)
Lemma calculate_loss_checks_last_dim (self : ResNet R) (x : tensor2 R)
    (ys : tensor3 R) :
  Z.of_nat (dim2 ys) <> n_dim self ->
  calculate_loss self x ys = Err AssertionError.
Proof.
  intros Hd. unfold calculate_loss.
  destruct (Z.eqb_spec (Z.of_nat (dim2 ys)) (n_dim self)) as [He | _];
    [contradiction | reflexivity].
Qed.

(** C9. [calculate_loss] checks the last dimension of [ys] only and then
    reads the columns 0 to 4: when [ys] has fewer than five horizon columns
    the call never returns normally, and on a model and a batch of the
    documented shapes the exception is the out-of-range IndexError. *)
Theorem calculate_loss_short_ys_index_error (arch : list nat)
    (self : ResNet R) (x : tensor2 R) (ys : tensor3 R) :
  (dim1 ys < 5)%nat ->
  (forall v, calculate_loss self x ys <> Ok v) /\
  (ResNet_of arch self -> (2 <= length arch)%nat ->
   Z.of_nat (cols x) = n_dim self ->
   dim0 ys = rows x -> dim2 ys = cols x ->
   calculate_loss self x ys = Err IndexError).
Proof.
  intros Hshort. split.
  - intros v Hv. apply calculate_loss_ok_column4 in Hv. lia.
  - intros Hnet Hlen Hx Hd0 Hd2.
    unfold calculate_loss.
    rewrite py_assert_true by (apply Z.eqb_eq; lia).
    rewrite ?bind_Ok_red.
    assert (Hcases : (dim1 ys = 0 \/ dim1 ys = 1 \/ dim1 ys = 2 \/
                      dim1 ys = 3 \/ dim1 ys = 4)%nat) by lia.
    destruct Hcases as [Hn | [Hn | [Hn | [Hn | Hn]]]];
      rewrite ?(column_ok ys 0), ?(column_ok ys 1), ?(column_ok ys 2),
        ?(column_ok ys 3) by lia;
      rewrite ?(column_out_of_range ys 0), ?(column_out_of_range ys 1),
        ?(column_out_of_range ys 2), ?(column_out_of_range ys 3),
        ?(column_out_of_range ys 4) by lia;
      repeat first [ forward_step arch x Hnet Hlen Hx
                   | same_shape_step x
                   | rewrite bind_Err_red ];
      reflexivity.
Qed.

End LossTheorem.


Section TrainingFacts.
Context {R : Type} `{Scalar R}.
Variables Opt Rng : Type.
Variable adam : ResNet R -> Opt.
Variable randperm : Rng -> nat -> list nat * Rng.
Variable optimizer_step :
  Opt -> ResNet R -> tensor2 R -> tensor3 R -> Opt * ResNet R.

(** What one pass through the loop body does to the variables of
    [train_net], by the way the pass ends. *)
Lemma train_iter_spec (dataset : DataSet R) (batch_size : Z)
    (model_path : option string) (st st' : train_state R Opt Rng)
    (c : control) :
  train_iter randperm optimizer_step dataset batch_size model_path st
  = (st', c) ->
  epoch st' = epoch st + 1 /\
  match c with
  | Raise e => log st' = log st /\ best_loss st' = best_loss st
  | Break =>
      (best_loss st <=? threshold)%float = true /\
      log st' = log st ++ [PrintConverged] /\
      best_loss st' = best_loss st /\
      net st' = net st /\
      optimizer st' = optimizer st /\
      is_some (val_loss st') = true
  | Continue =>
      (best_loss st <=? threshold)%float = false /\
      is_some (val_loss st') = true /\
      exists tail,
        log st' = log st ++ OptimizerStep (epoch st + 1) :: tail /\
        Forall quiet tail /\
        ((epoch st + 1) mod 1000 <> 0 ->
         Forall silent tail /\ best_loss st' = best_loss st)
  end.
Proof.
  unfold train_iter. intros Hit.
  repeat match type of Hit with
         | context [match ?c with _ => _ end] => destruct c eqn:?
         | context [if ?c then _ else _] => destruct c eqn:?
         end;
    injection Hit as <- <-;
    cbn [fst snd epoch log best_loss net optimizer val_loss is_some].
  all: split; [reflexivity |].
  all: try (split; reflexivity).
  all: try (repeat split; reflexivity).
  all: split; [reflexivity |]; split; [reflexivity |].
  all: rewrite <- ?app_assoc; cbn [app].
  all: eexists; split; [reflexivity |].
  all: split; [repeat constructor |].
  all: intros Hmod; try (exfalso; apply Hmod; apply Z.eqb_eq; assumption).
  all: split; [repeat constructor | reflexivity].
Qed.

Lemma count_events_app (p : event -> bool) (l1 l2 : list event) :
  count_events p (l1 ++ l2) = (count_events p l1 + count_events p l2)%nat.
Proof. unfold count_events. now rewrite filter_app, length_app. Qed.

Lemma count_events_none (p : event -> bool) (l : list event) :
  Forall (fun ev => p ev = false) l -> count_events p l = 0%nat.
Proof.
  unfold count_events. induction 1 as [| ev l Hev _ IH]; simpl; [reflexivity |].
  now rewrite Hev.
Qed.

Lemma quiet_counts (tail : list event) :
  Forall quiet tail ->
  count_events is_optimizer_step tail = 0%nat /\
  count_events is_print_converged tail = 0%nat.
Proof.
  intros Hq. split; apply count_events_none;
    (eapply Forall_impl; [| exact Hq]); intros ev [H1 H2]; assumption.
Qed.

Lemma silent_counts (tail : list event) :
  Forall silent tail ->
  count_events is_save tail = 0%nat /\
  count_events is_print_epoch tail = 0%nat.
Proof.
  intros Hq. split; apply count_events_none;
    (eapply Forall_impl; [| exact Hq]); intros ev [H1 H2]; assumption.
Qed.

Lemma initial_best_loss_above_threshold :
  (initial_best_loss <=? threshold)%float = false.
Proof. reflexivity. Qed.

(** The fuel [train_net] gives the loop is enough. *)
Lemma train_loop_fuel (dataset : DataSet R) (max_epoch batch_size : Z)
    (model_path : option string) (fuel : nat) :
  forall st : train_state R Opt Rng,
    max_epoch - epoch st <= Z.of_nat fuel ->
    snd (train_loop randperm optimizer_step fuel dataset max_epoch batch_size
           model_path st) <> OutOfFuel.
Proof.
  induction fuel as [| fuel IH]; intros st Hfuel; simpl.
  - destruct (Z.ltb_spec (epoch st) max_epoch); [lia | discriminate].
  - destruct (Z.ltb_spec (epoch st) max_epoch); [| discriminate].
    destruct (train_iter randperm optimizer_step dataset batch_size
                model_path st) as [st' c] eqn:Hit.
    apply train_iter_spec in Hit. destruct Hit as [Hep _].
    destruct c; simpl; try discriminate.
    apply IH. lia.
Qed.

(** While [max_epoch <= 1000], the early-stopping test reads the initial
    [best_loss] in every pass: the loop is never left by [break]. *)
Lemma train_loop_within_1000 (dataset : DataSet R) (max_epoch batch_size : Z)
    (model_path : option string) (fuel : nat) :
  max_epoch <= 1000 ->
  forall (st st' : train_state R Opt Rng) (out : outcome),
    0 <= epoch st ->
    (epoch st < 1000 -> best_loss st = initial_best_loss) ->
    count_events is_print_converged (log st) = 0%nat ->
    train_loop randperm optimizer_step fuel dataset max_epoch batch_size
      model_path st = (st', out) ->
    out <> Finished Converged /\
    count_events is_print_converged (log st') = 0%nat /\
    (out = Finished Exhausted ->
     max_epoch <= epoch st' /\ (epoch st <= max_epoch -> epoch st' <= max_epoch)) /\
    (out = Finished Exhausted ->
     is_some (val_loss st) = true \/ epoch st < max_epoch ->
     is_some (val_loss st') = true).
Proof.
  intros Hmax. induction fuel as [| fuel IH];
    intros st st' out Hep Hbest Hlog Hrun; simpl in Hrun.
  - destruct (Z.ltb_spec (epoch st) max_epoch);
      injection Hrun as <- <-.
    + repeat split; try discriminate; auto.
    + repeat split; try discriminate; auto; try lia.
      intros _ [Hv | Hlt]; [exact Hv | lia].
  - destruct (Z.ltb_spec (epoch st) max_epoch) as [Hlt | Hge].
    2: { injection Hrun as <- <-.
         repeat split; try discriminate; auto; try lia.
         intros _ [Hv | Hlt]; [exact Hv | lia]. }
    destruct (train_iter randperm optimizer_step dataset batch_size
                model_path st) as [st1 c] eqn:Hit.
    apply train_iter_spec in Hit. destruct Hit as [Hep1 Hc].
    destruct c as [| | e].
    + destruct Hc as (_ & Hval & tail & Hlog1 & Hquiet & Hmod).
      destruct (IH st1 st' out) as (Hout & Hcount & Hexh & Hval'); auto.
      * lia.
      * intros Hlt1. destruct Hmod as [_ Hb].
        { rewrite Z.mod_small by lia. lia. }
        rewrite Hb. apply Hbest. lia.
      * rewrite Hlog1, count_events_app, Hlog.
        change (OptimizerStep (epoch st + 1) :: tail)
          with ([OptimizerStep (epoch st + 1)] ++ tail).
        rewrite count_events_app.
        destruct (quiet_counts tail Hquiet) as [_ ->]. reflexivity.
      * split; [exact Hout |]. split; [exact Hcount |]. split.
        -- intros Hfin. destruct (Hexh Hfin) as [H1 H2]. split; [exact H1 |].
           intros _. apply H2. lia.
        -- intros Hfin _. apply Hval'; [exact Hfin | left; exact Hval].
    + destruct Hc as (Hleb & _).
      rewrite Hbest in Hleb by lia.
      rewrite initial_best_loss_above_threshold in Hleb. discriminate Hleb.
    + destruct Hc as (Hlog1 & _). injection Hrun as <- <-.
      repeat split; try discriminate; auto. congruence.
Qed.

(** [train_net] gives its loop enough fuel, whatever [max_epoch] is. *)
Lemma train_net_fuel (self : ResNet R) (dataset : DataSet R)
    (max_epoch batch_size : Z) (model_path : option string) (g : Rng) :
  snd (train_net adam randperm optimizer_step self dataset max_epoch
         batch_size model_path g) <> OutOfFuel.
Proof.
  unfold train_net.
  destruct (check_data_info self dataset) as [[] | e]; [| discriminate].
  pose proof (train_loop_fuel dataset max_epoch batch_size model_path
                (Z.to_nat max_epoch) (train_init adam self g)) as Hfuel.
  cbn [train_init epoch] in Hfuel. specialize (Hfuel ltac:(lia)).
  destruct (train_loop randperm optimizer_step (Z.to_nat max_epoch) dataset
              max_epoch batch_size model_path (train_init adam self g))
    as [st1 out1].
  cbn [snd] in Hfuel.
  destruct out1 as [how | e |]; [| discriminate | contradiction].
  destruct (val_loss st1) as [vl |]; [| discriminate].
  destruct ((ritem vl <? best_loss st1)%float && is_some model_path);
    discriminate.
Qed.

(** C10. The test compares [best_loss], which only the every-1000-epochs
    block lowers, after that pass's gradient step: in a run with
    [max_epoch <= 1000] the Converged transition never fires, however small
    the validation loss is, and a run that ends without an exception ends
    Exhausted, at [epoch = max_epoch]. *)
Theorem converged_never_fires_up_to_1000 (self : ResNet R)
    (dataset : DataSet R) (max_epoch batch_size : Z)
    (model_path : option string) (g : Rng)
    (st : train_state R Opt Rng) (out : outcome) :
  max_epoch <= 1000 ->
  train_net adam randperm optimizer_step self dataset max_epoch batch_size
    model_path g = (st, out) ->
  out <> Finished Converged /\
  count_events is_print_converged (log st) = 0%nat /\
  out <> OutOfFuel /\
  (forall how, out = Finished how -> how = Exhausted /\ epoch st = max_epoch).
Proof.
  intros Hmax Hrun. unfold train_net in Hrun.
  destruct (check_data_info self dataset) as [[] | e].
  2: { injection Hrun as <- <-. repeat split; try discriminate. }
  destruct (train_loop randperm optimizer_step (Z.to_nat max_epoch) dataset
              max_epoch batch_size model_path (train_init adam self g))
    as [st1 out1] eqn:Hloop.
  pose proof (train_loop_fuel dataset max_epoch batch_size model_path
                (Z.to_nat max_epoch) (train_init adam self g)) as Hfuel.
  rewrite Hloop in Hfuel. cbn [snd train_init epoch] in Hfuel.
  specialize (Hfuel ltac:(lia)).
  pose proof (train_loop_within_1000 dataset max_epoch batch_size model_path
                (Z.to_nat max_epoch) Hmax (train_init adam self g) st1 out1
                (Z.le_refl 0) (fun _ => eq_refl) eq_refl Hloop)
    as (Hconv & Hcount & Hexh & Hval).
  cbn [train_init epoch val_loss is_some] in Hexh, Hval.
  destruct out1 as [how | e |].
  - destruct how; [contradiction Hconv; reflexivity |].
    destruct (Hexh eq_refl) as [Hge Hle].
    destruct (val_loss st1) as [vl |] eqn:Hvl.
    + assert (Hpos : 0 < max_epoch).
      { destruct (Z.lt_ge_cases 0 max_epoch) as [Hp | Hn]; [exact Hp |].
        exfalso. simpl in Hloop.
        replace (Z.to_nat max_epoch) with 0%nat in Hloop by lia.
        simpl in Hloop.
        destruct (Z.ltb_spec 0 max_epoch); [lia |].
        injection Hloop as <-. discriminate Hvl. }
      destruct ((ritem vl <? best_loss st1)%float && is_some model_path);
        injection Hrun as <- <-; cbn [log epoch].
      * split; [discriminate |]. split.
        { rewrite count_events_app, Hcount. reflexivity. }
        split; [discriminate |].
        intros how Hhow. injection Hhow as <-. split; [reflexivity | lia].
      * split; [discriminate |]. split; [exact Hcount |].
        split; [discriminate |].
        intros how Hhow. injection Hhow as <-. split; [reflexivity | lia].
    + injection Hrun as <- <-.
      repeat split; try discriminate; auto.
  - injection Hrun as <- <-. repeat split; try discriminate; auto.
  - contradiction Hfuel; reflexivity.
Qed.

(** C6, as the code has it.  The early-stopping test of a pass reads
    [best_loss], not the validation loss computed in that pass.  In a pass
    whose losses are computed: when [best_loss <= 1e-8] the pass ends in
    [break] before the gradient step, the loop returns at once as
    Converged, and model and optimizer are as they were; when [best_loss]
    is above 1e-8 the pass applies its gradient step and the loop goes on,
    whatever the validation loss is. *)
Theorem early_stopping_reads_best_loss (dataset : DataSet R)
    (max_epoch batch_size : Z) (model_path : option string)
    (st st' : train_state R Opt Rng) (c : control) :
  train_iter randperm optimizer_step dataset batch_size model_path st
  = (st', c) ->
  (forall e, c <> Raise e) ->
  ((best_loss st <=? threshold)%float = true ->
   c = Break /\
   log st' = log st ++ [PrintConverged] /\
   count_events is_optimizer_step (log st')
   = count_events is_optimizer_step (log st) /\
   net st' = net st /\ optimizer st' = optimizer st /\
   (epoch st < max_epoch ->
    forall fuel,
      train_loop randperm optimizer_step (S fuel) dataset max_epoch
        batch_size model_path st = (st', Finished Converged))) /\
  ((best_loss st <=? threshold)%float = false ->
   c = Continue /\
   count_events is_optimizer_step (log st')
   = S (count_events is_optimizer_step (log st))).
Proof.
  intros Hit Hraise.
  pose proof (train_iter_spec _ _ _ _ _ _ Hit) as [Hep Hc].
  destruct c as [| | e]; [| | contradiction (Hraise e); reflexivity].
  - destruct Hc as (Hleb & _ & tail & Hlog & Hquiet & _). split.
    + intros Htrue. rewrite Htrue in Hleb. discriminate Hleb.
    + intros _. split; [reflexivity |].
      rewrite Hlog, count_events_app.
      change (OptimizerStep (epoch st + 1) :: tail)
        with ([OptimizerStep (epoch st + 1)] ++ tail).
      rewrite count_events_app.
      destruct (quiet_counts tail Hquiet) as [-> _].
      change (count_events is_optimizer_step [OptimizerStep (epoch st + 1)])
        with 1%nat.
      lia.
  - destruct Hc as (Hleb & Hlog & _ & Hnet & Hopt & _). split.
    + intros _. split; [reflexivity |]. split; [exact Hlog |].
      split; [| split; [exact Hnet | split; [exact Hopt |]]].
      * rewrite Hlog, count_events_app.
        change (count_events is_optimizer_step [PrintConverged]) with 0%nat.
        lia.
      * intros Hlt fuel. simpl.
        destruct (Z.ltb_spec (epoch st) max_epoch); [| lia].
        rewrite Hit. reflexivity.
    + intros Hfalse. rewrite Hfalse in Hleb. discriminate Hleb.
Qed.

(** *** Runs on data of the right shapes *)

Lemma not_below_infinity (x : float) :
  (x <? infinity)%float = false -> (x <? initial_best_loss)%float = false.
Proof.
  rewrite !ltb_spec.
  assert (Hinf : Prim2SF infinity = S754_infinity false)
    by (vm_compute; reflexivity).
  assert (Hbest : exists m e,
             Prim2SF initial_best_loss = S754_finite false m e).
  { vm_compute. eexists. eexists. reflexivity. }
  destruct Hbest as (m & e & Hbest). rewrite Hinf, Hbest.
  unfold SFltb, SFcompare.
  destruct (Prim2SF x) as [s | s | | s m' e']; try destruct s;
    intros Hx; try discriminate Hx; reflexivity.
Qed.

Lemma Forall_prefix {A : Type} (P : A -> Prop) (n : nat) :
  forall l : list A, Forall P l -> Forall P (firstn n l).
Proof.
  induction n as [| n IH]; intros l Hl; simpl; [constructor |].
  destruct Hl as [| a l Ha Hl]; constructor; auto.
Qed.

Lemma Forall_py_slice_to {A : Type} (P : A -> Prop) (l : list A) (b : Z) :
  Forall P l -> Forall P (py_slice_to l b).
Proof.
  intros Hl. unfold py_slice_to.
  destruct (b <? 0); now apply Forall_prefix.
Qed.

Lemma mapM_ok {A B : Type} (f : A -> result B) (g : A -> B) (l : list A) :
  Forall (fun a => f a = Ok (g a)) l -> mapM f l = Ok (map g l).
Proof.
  induction 1 as [| a l Ha _ IH]; simpl; [reflexivity |].
  now rewrite Ha, IH.
Qed.

Lemma take_rows_ok (t : tensor2 R) (idx : list nat) :
  Forall (fun i => (i < rows t)%nat) idx ->
  exists rs, take_rows t idx = Ok (T2 (length idx) (cols t) rs).
Proof.
  intros Hidx. unfold take_rows.
  rewrite (mapM_ok _ (fun i => nth i (entries t) [])).
  - eexists. reflexivity.
  - eapply Forall_impl; [| exact Hidx]. intros i Hi; cbv beta in *.
    destruct (Nat.ltb_spec i (rows t)); [reflexivity | lia].
Qed.

Lemma take_rows3_ok (t : tensor3 R) (idx : list nat) :
  Forall (fun i => (i < dim0 t)%nat) idx ->
  exists ms, take_rows3 t idx = Ok (T3 (length idx) (dim1 t) (dim2 t) ms).
Proof.
  intros Hidx. unfold take_rows3.
  rewrite (mapM_ok _ (fun i => nth i (entries3 t) [])).
  - eexists. reflexivity.
  - eapply Forall_impl; [| exact Hidx]. intros i Hi; cbv beta in *.
    destruct (Nat.ltb_spec i (dim0 t)); [reflexivity | lia].
Qed.

Section GoodRuns.
Variable arch : list nat.
Variable dataset : DataSet R.
Variables (max_epoch batch_size : Z) (model_path : option string).
Hypothesis Hlen : (2 <= length arch)%nat.
Hypothesis Hfits : dataset_fits arch dataset.
Hypothesis Hperm :
  forall g n, Forall (fun i => (i < n)%nat) (fst (randperm g n)).
Hypothesis Hopt :
  forall o m bx bys,
    ResNet_of arch m -> ResNet_of arch (snd (optimizer_step o m bx bys)).

(** No exception escapes a pass, and the model keeps its architecture. *)
Lemma train_iter_good (st st' : train_state R Opt Rng) (c : control) :
  ResNet_of arch (net st) ->
  train_iter randperm optimizer_step dataset batch_size model_path st
  = (st', c) ->
  (forall e, c <> Raise e) /\ ResNet_of arch (net st').
Proof.
  intros Hnet Hit.
  destruct Hfits as (Hn & Hxc & Hy0 & Hy2 & Hy1 & Hvc & Hv0 & Hv2 & Hv1).
  assert (Hnd : n_dim (net st) = Z.of_nat (hd O arch)) by apply Hnet.
  unfold train_iter in Hit.
  destruct (Z.ltb_spec (n_train dataset) 0) as [Hneg | _]; [lia |].
  pose proof (Hperm (rng st) (Z.to_nat (n_train dataset))) as Hidx.
  destruct (randperm (rng st) (Z.to_nat (n_train dataset)))
    as [new_idxs rng1].
  cbn [fst] in Hidx.
  assert (Hsl : Forall (fun i => (i < rows (train_x dataset))%nat)
                  (py_slice_to new_idxs batch_size)).
  { apply Forall_py_slice_to. eapply Forall_impl; [| exact Hidx].
    intros i Hi; simpl in *. lia. }
  destruct (take_rows_ok (train_x dataset) _ Hsl) as [rs Hrs].
  rewrite Hrs in Hit.
  rewrite <- Hy0 in Hsl.
  destruct (take_rows3_ok (train_ys dataset) _ Hsl) as [ms Hms].
  rewrite Hms in Hit.
  match type of Hit with
  | context [calculate_loss (net st) ?bx ?bys] =>
      destruct (calculate_loss_agrees arch (net st) bx bys)
        as (tl & Htl & _); cbn [rows cols dim0 dim1 dim2]; auto; try lia
  end.
  rewrite Htl in Hit.
  destruct (calculate_loss_agrees arch (net st) (val_x dataset)
              (val_ys dataset)) as (vl & Hvl & _); auto; try lia.
  rewrite Hvl in Hit.
  destruct (best_loss st <=? threshold)%float.
  - injection Hit as <- <-. split; [discriminate | exact Hnet].
  - match type of Hit with
    | context [optimizer_step ?o ?m ?bx ?bys] =>
        pose proof (Hopt o m bx bys Hnet) as Hnet1;
        destruct (optimizer_step o m bx bys) as [opt1 net1]
    end.
    cbn [snd] in Hnet1.
    destruct ((epoch st + 1) mod 1000 =? 0);
      [destruct (ritem vl <? best_loss st)%float |];
      injection Hit as <- <-; (split; [discriminate | exact Hnet1]).
Qed.

(** With [max_epoch < 1000], a run from the initial [best_loss] makes
    one optimizer step per remaining epoch and leaves Exhausted; nothing
    is saved or reported in the loop. *)
Lemma train_loop_good (Hmax : max_epoch < 1000) (fuel : nat) :
  forall st : train_state R Opt Rng,
    ResNet_of arch (net st) ->
    0 <= epoch st <= max_epoch ->
    best_loss st = initial_best_loss ->
    max_epoch - epoch st <= Z.of_nat fuel ->
    exists st',
      train_loop randperm optimizer_step fuel dataset max_epoch batch_size
        model_path st = (st', Finished Exhausted) /\
      epoch st' = max_epoch /\
      best_loss st' = initial_best_loss /\
      count_events is_optimizer_step (log st')
      = (count_events is_optimizer_step (log st)
         + Z.to_nat (max_epoch - epoch st))%nat /\
      count_events is_save (log st') = count_events is_save (log st) /\
      count_events is_print_epoch (log st')
      = count_events is_print_epoch (log st) /\
      (epoch st < max_epoch -> is_some (val_loss st') = true).
Proof.
  induction fuel as [| fuel IH]; intros st Hnet Hep Hbest Hfuel; simpl.
  - destruct (Z.ltb_spec (epoch st) max_epoch); [lia |].
    exists st. replace (max_epoch - epoch st) with 0 by lia.
    repeat split; auto; try lia.
  - destruct (Z.ltb_spec (epoch st) max_epoch) as [Hlt | Hge].
    2: { exists st. replace (max_epoch - epoch st) with 0 by lia.
         repeat split; auto; try lia. }
    destruct (train_iter randperm optimizer_step dataset batch_size
                model_path st) as [st1 c] eqn:Hit.
    destruct (train_iter_good st st1 c Hnet Hit) as [Hraise Hnet1].
    apply train_iter_spec in Hit. destruct Hit as [Hep1 Hc].
    destruct c as [| | e]; [| | contradiction (Hraise e); reflexivity].
    + destruct Hc as (_ & Hval & tail & Hlog & Hquiet & Hmod).
      destruct Hmod as [Hsilent Hb].
      { rewrite Z.mod_small by lia. lia. }
      destruct (IH st1 Hnet1) as (st' & Hrun & He & Hbl & Hco & Hcs & Hcp & _);
        try lia; [congruence |].
      exists st'. split; [exact Hrun |]. split; [exact He |].
      split; [exact Hbl |].
      destruct (quiet_counts tail Hquiet) as [Hq1 _].
      destruct (silent_counts tail Hsilent) as [Hs1 Hs2].
      rewrite Hlog in Hco, Hcs, Hcp.
      change (OptimizerStep (epoch st + 1) :: tail)
        with ([OptimizerStep (epoch st + 1)] ++ tail) in Hco, Hcs, Hcp.
      rewrite !count_events_app in Hco, Hcs, Hcp.
      rewrite Hq1 in Hco. rewrite Hs1 in Hcs. rewrite Hs2 in Hcp.
      change (count_events is_optimizer_step [OptimizerStep (epoch st + 1)])
        with 1%nat in Hco.
      change (count_events is_save [OptimizerStep (epoch st + 1)])
        with 0%nat in Hcs.
      change (count_events is_print_epoch [OptimizerStep (epoch st + 1)])
        with 0%nat in Hcp.
      split; [rewrite Hco; lia |].
      split; [rewrite Hcs; lia |].
      split; [rewrite Hcp; lia |].
      intros _.
      destruct (Z.ltb_spec (epoch st1) max_epoch) as [Hlt1 | Hge1].
      * destruct (IH st1 Hnet1) as (st'' & Hrun' & _ & _ & _ & _ & _ & Hv);
          try lia; [congruence |].
        rewrite Hrun in Hrun'. injection Hrun' as <-. now apply Hv.
      * destruct fuel; simpl in Hrun;
          destruct (Z.ltb_spec (epoch st1) max_epoch); try lia;
          injection Hrun as <-; exact Hval.
    + destruct Hc as (Hleb & _). rewrite Hbest in Hleb.
      rewrite initial_best_loss_above_threshold in Hleb. discriminate Hleb.
Qed.

End GoodRuns.

(** C7, as the code has it.  In the scenario (train_x of shape (100, 3),
    step_size 4, five horizon columns, batch_size 20, max_epoch 5) the
    loop is entered with [epoch = 0] and [best_loss = 1e+5], the sentinel
    of the code.  The run makes exactly five optimizer steps and ends
    Exhausted at epoch 5; no report or checkpoint event fires in the loop;
    a checkpoint is written, once and at loop exit, exactly when the last
    validation loss is below 1e+5 and a path is configured; so none is
    written when the validation loss is not below the sentinel, and none
    when it is not below +infinity. *)
Theorem five_epochs_five_optimizer_steps (arch : list nat) (self : ResNet R)
    (dataset : DataSet R) (model_path : option string) (g : Rng) :
  ResNet_of arch self -> (2 <= length arch)%nat ->
  (forall g n, Forall (fun i => (i < n)%nat) (fst (randperm g n))) ->
  (forall o m bx bys,
      ResNet_of arch m -> ResNet_of arch (snd (optimizer_step o m bx bys))) ->
  n_dim self = 3 -> step_size self = 4 ->
  ds_n_dim dataset = 3 -> ds_step_size dataset = 4 ->
  (dt self =? ds_dt dataset)%float = true ->
  n_train dataset = 100 ->
  rows (train_x dataset) = 100%nat -> cols (train_x dataset) = 3%nat ->
  dim0 (train_ys dataset) = 100%nat -> dim1 (train_ys dataset) = 5%nat ->
  dim2 (train_ys dataset) = 3%nat ->
  cols (val_x dataset) = 3%nat ->
  dim0 (val_ys dataset) = rows (val_x dataset) ->
  dim1 (val_ys dataset) = 5%nat -> dim2 (val_ys dataset) = 3%nat ->
  epoch (train_init adam self g) = 0 /\
  best_loss (train_init adam self g) = 1e+5%float /\
  exists st vl,
    train_net adam randperm optimizer_step self dataset 5 20 model_path g
    = (st, Finished Exhausted) /\
    epoch st = 5 /\ best_loss st = 1e+5%float /\ val_loss st = Some vl /\
    count_events is_optimizer_step (log st) = 5%nat /\
    count_events is_print_epoch (log st) = 0%nat /\
    count_events is_save (log st)
    = (if (ritem vl <? 1e+5)%float && is_some model_path then 1 else 0)%nat /\
    ((ritem vl <? infinity)%float = false ->
     count_events is_save (log st) = 0%nat).
Proof.
  intros Hnet Hlen Hperm Hopt Hnd Hss Hdn Hds Hdt Hn Hr Hc Hy0 Hy1 Hy2
    Hvc Hv0 Hv1 Hv2.
  split; [reflexivity |]. split; [reflexivity |].
  assert (Hhd : hd O arch = 3%nat).
  { destruct Hnet as (_ & Hh & _). lia. }
  assert (Hfits : dataset_fits arch dataset).
  { unfold dataset_fits. rewrite Hn, Hr, Hc, Hy0, Hy1, Hy2, Hvc, Hv0, Hv1, Hv2, Hhd.
    repeat split; lia. }
  unfold train_net, check_data_info.
  rewrite Hnd, Hss, Hdn, Hds, Hdt. cbn [Z.eqb Pos.eqb py_assert bind].
  destruct (train_loop_good arch dataset 5 20 model_path Hlen Hfits Hperm Hopt
              ltac:(lia) (Z.to_nat 5) (train_init adam self g))
    as (st' & Hrun & Hep & Hbl & Hco & Hcs & Hcp & Hval);
    [exact Hnet | cbn [train_init epoch]; lia | reflexivity
    | cbn [train_init epoch]; lia |].
  rewrite Hrun.
  cbn [train_init epoch log] in Hco, Hcs, Hcp, Hval.
  change (count_events is_optimizer_step []) with 0%nat in Hco.
  change (count_events is_save []) with 0%nat in Hcs.
  change (count_events is_print_epoch []) with 0%nat in Hcp.
  specialize (Hval ltac:(lia)).
  destruct (val_loss st') as [vl |] eqn:Hvl; [| discriminate Hval].
  rewrite Hbl. change initial_best_loss with 1e+5%float.
  destruct ((ritem vl <? 1e+5)%float && is_some model_path) eqn:Hsave.
  - eexists. exists vl. split; [reflexivity |].
    cbn [epoch best_loss val_loss log].
    rewrite !count_events_app, Hco, Hcs, Hcp, Hsave.
    repeat split; auto.
    intros Hinf. apply not_below_infinity in Hinf.
    change initial_best_loss with 1e+5%float in Hinf.
    rewrite Hinf in Hsave. discriminate Hsave.
  - exists st', vl. split; [reflexivity |].
    rewrite Hco, Hcs, Hcp, Hsave. repeat split; auto.
Qed.

End TrainingFacts.


Section ConsistencyCheck.
Context {R : Type} `{Scalar R}.

(** C5. [check_data_info] raises (an AssertionError, the specification's
    ConsistencyError) exactly when model and dataset disagree on [n_dim],
    on [dt] (Python's [==] on floats is false) or on [step_size]; each of
    the three mismatches raises whatever the other two fields are; and it
    returns None exactly when the three agree. *)
Theorem check_data_info_raises_iff (self : ResNet R) (dataset : DataSet R) :
  (check_data_info self dataset = Err AssertionError <->
   n_dim self <> ds_n_dim dataset \/
   (dt self =? ds_dt dataset)%float = false \/
   step_size self <> ds_step_size dataset) /\
  (check_data_info self dataset = Ok tt <->
   n_dim self = ds_n_dim dataset /\
   (dt self =? ds_dt dataset)%float = true /\
   step_size self = ds_step_size dataset) /\
  (check_data_info self dataset = Err AssertionError \/
   check_data_info self dataset = Ok tt).
Proof.
  unfold check_data_info.
  destruct (Z.eqb_spec (n_dim self) (ds_n_dim dataset)) as [Hn | Hn];
    destruct (dt self =? ds_dt dataset)%float eqn:Hd;
    destruct (Z.eqb_spec (step_size self) (ds_step_size dataset)) as [Hs | Hs];
    simpl; (split; [| split]); try tauto;
    split; try tauto; try discriminate;
    intros; try reflexivity; intuition (try discriminate; try congruence).
Qed.

End ConsistencyCheck.

Section ForecastProperties.
Context {R : Type} `{Scalar R}.
Variable interpolate :
  string -> nat -> list Z -> tensor3 R -> list Z -> result (tensor3 R).

(** C3, on the code.  [uni_scale_forecast] calls [self.forward(x_prev)]
    without the [step_size] argument that [forward] requires: for every
    [n_steps >= 0], smaller than [step_size] or not, the first pass of the
    loop raises TypeError and no tensor is returned. *)
Theorem uni_scale_forecast_raises_TypeError (fuel : nat) (self : ResNet R)
    (x_init : tensor2 R) (n_steps : Z) :
  0 <= n_steps ->
  uni_scale_forecast interpolate (S fuel) self x_init n_steps
  = Some (Err TypeError).
Proof.
  intros Hn. unfold uni_scale_forecast. simpl.
  destruct (Z.ltb_spec (step_size self - 1) (n_steps + step_size self));
    [reflexivity | lia].
Qed.

Lemma interp1d_lin_ear (x : list Z) (y : tensor3 R) (axis : nat)
    (x_new : list Z) :
  interp1d interpolate x y "lin/ear" axis x_new = Err NotImplementedError.
Proof. reflexivity. Qed.

(** X17. No call of the assembler returns: an exception is raised before, or
    the interpolant is requested with the kind ['lin/ear']. *)
Lemma vectorized_forecast_never_returns (self : ResNet R)
    (x_init : tensor2 R) (n_steps : Z) (models : list (ResNet R))
    (step_sizes : list Z) :
  exists e,
    vectorized_multi_scale_forecast interpolate self x_init n_steps models
      step_sizes = Err e.
Proof.
  unfold vectorized_multi_scale_forecast.
  apply bind_err_cont; intros model0.
  apply bind_err_cont; intros preds0.
  apply bind_err_cont; intros preds1.
  apply bind_err_cont; intros [[[preds2 indices2] total2] s0].
  apply bind_err_cont; intros [[[preds3 indices3] total3] s1].
  apply bind_err_cont; intros last_idx.
  apply bind_err_cont; intros y_prev.
  destruct (last_idx <? n_steps).
  - apply bind_err_cont; intros s. now exists NameError.
  - apply bind_err_cont; intros valid_preds.
    exists NotImplementedError. apply interp1d_lin_ear.
Qed.

(** With one step size the second pass of [for i in [0,1]] finds no
    [step_sizes[1]]. *)
Lemma scale_pass_single_pair (self : ResNet R) (n_test n_dim : nat) (s : Z)
    (preds : tensor3 R) (indices : list Z) (total : Z) :
  scale_pass self n_test n_dim [s] 1 preds indices total = Err IndexError.
Proof. reflexivity. Qed.

(** C4, on the code.  Called with a single model/step_size pair the
    assembler raises for every input and every step size, 1 included: the
    second pass of [for i in [0,1]] has no [step_sizes[1]]
    ([scale_pass_single_pair]), and no path returns a tensor that could
    be compared with repeated small steps. *)
Theorem vectorized_forecast_single_pair_raises (self : ResNet R)
    (x_init : tensor2 R) (n_steps : Z) (models : list (ResNet R)) (s : Z) :
  exists e,
    vectorized_multi_scale_forecast interpolate self x_init n_steps models
      [s] = Err e.
Proof.
  unfold vectorized_multi_scale_forecast.
  apply bind_err_cont; intros model0.
  apply bind_err_cont; intros preds0.
  apply bind_err_cont; intros preds1.
  apply bind_err_cont; intros [[[preds2 indices2] total2] s0].
  rewrite scale_pass_single_pair. now exists IndexError.
Qed.

End ForecastProperties.

(** ** The properties on a concrete model *)

Module Examples.
Import Fixture.

Lemma model_of_arch : ResNet_of arch model.
Proof.
  unfold ResNet_of, NNBlock_of, arch, model; simpl.
  repeat first [reflexivity | split | constructor].
Qed.

Lemma randperm_in_range (g : unit) (n : nat) :
  Forall (fun i => (i < n)%nat) (fst (randperm g n)).
Proof.
  unfold randperm; simpl. apply Forall_forall. intros i Hi.
  apply in_seq in Hi. lia.
Qed.

Lemma optimizer_step_keeps_arch (o : unit) (m : ResNet float)
    (bx : tensor2 float) (bys : tensor3 float) :
  ResNet_of arch m -> ResNet_of arch (snd (optimizer_step o m bx bys)).
Proof. intros Hm. exact Hm. Qed.

(** The loss of the zero model against targets 1: sixteen times the
    squared distances 0, 1, 4, 9, 16, 36, over six entries.  Every
    intermediate value is an integer below 2^24, so that binary32, in
    which torch computes, and binary64 agree on it. *)
Example calculate_loss_exact :
  calculate_loss model (T2 2 3 [[1; 2; 3]; [4; 5; 7]]%float) ys2
  = Ok 176%float.
Proof. vm_compute. reflexivity. Qed.

Example calculate_loss_no_layer :
  calculate_loss model0 x2 ys2 = Err KeyError.
Proof. vm_compute. reflexivity. Qed.

Lemma calculate_loss_mean_of_branch_sum_witness :
  (exists v : float,
      calculate_loss model x2 ys2 = Ok v /\ loss_spec model x2 ys2 = Ok v) /\
  length (@loss_branches) = 16%nat /\
  ~ In ([large; small], 2%nat) loss_branches.
Proof.
  apply (calculate_loss_mean_of_branch_sum arch model x2 ys2);
    [ exact model_of_arch | simpl; lia | reflexivity | reflexivity
    | reflexivity | simpl; lia ].
Defined.

Lemma wf2_x2 : wf2 x2.
Proof. unfold wf2, x2; simpl. repeat first [reflexivity | split | constructor]. Qed.

Lemma step_is_input_plus_residual_witness :
  exists L rest r,
    modules (block model small) = L :: rest /\
    residual_block_spec (activation (block model small)) L rest x2 = Ok r /\
    forward model x2 small = Ok (pointwise radd x2 r) /\
    shape2 (pointwise radd x2 r) = shape2 x2 /\
    wf2 (pointwise radd x2 r).
Proof.
  apply (step_is_input_plus_residual arch model x2 small);
    [ exact model_of_arch | simpl; lia | exact wf2_x2 | reflexivity ].
Defined.


(** The two outputs of the witness: the hidden layer gives 1 in both
    entries, the output layer adds 2 to every entry of the input. *)
Example step_twice_outputs :
  fst (session relu_module object [Step x2 small; Step x2 small])
  = [Ok (T2 2 3 [[3; 4; 5]; [6; 7; 8]]%float);
     Ok (T2 2 3 [[3; 4; 5]; [6; 7; 8]]%float)].
Proof. vm_compute. reflexivity. Qed.

(** With a parameter update between two calls the outputs differ. *)
Example step_after_update_differs :
  fst (session relu_module object
         [Step x2 small; Update (fun _ => object1); Step x2 small])
  = [Ok (T2 2 3 [[3; 4; 5]; [6; 7; 8]]%float);
     Ok (T2 2 3 [[2; 3; 4]; [5; 6; 7]]%float)].
Proof. vm_compute. reflexivity. Qed.

(** With an activation that draws random numbers the outputs of two
    successive calls differ although no parameter has changed: the first
    call keeps the hidden entries (doubled), the second drops them, and
    the state of the generator has moved on. *)
Example step_twice_differs_with_dropout :
  session dropout_module object [Step x2 small; Step x2 small]
  = ([Ok (T2 2 3 [[5; 6; 7]; [8; 9; 10]]%float);
      Ok (T2 2 3 [[1; 2; 3]; [4; 5; 6]]%float)],
     mkResNet_obj 3 0.01%float 4 blk_obj blk_obj 2%nat).
Proof. vm_compute. reflexivity. Qed.

Lemma calculate_loss_short_ys_index_error_witness :
  (forall v, calculate_loss model x2 ys2_short <> Ok v) /\
  calculate_loss model x2 ys2_short = Err IndexError.
Proof.
  destruct (calculate_loss_short_ys_index_error arch model x2 ys2_short)
    as [Hnever Hindex]; [simpl; lia |].
  split; [exact Hnever |].
  apply Hindex;
    [ exact model_of_arch | simpl; lia | reflexivity | reflexivity
    | reflexivity ].
Defined.

(** *** The forecasts *)

Lemma uni_scale_forecast_raises_TypeError_witness :
  uni_scale_forecast interpolate 1 model (const2 1 3 0%float) 3
  = Some (Err TypeError).
Proof.
  apply (uni_scale_forecast_raises_TypeError interpolate 0 model
           (const2 1 3 0%float) 3).
  lia.
Defined.

Example vectorized_forecast_step_size_1 :
  vectorized_multi_scale_forecast interpolate model (const2 1 3 0%float) 1
    [model] [1] = Err IndexError.
Proof. vm_compute. reflexivity. Qed.

Example vectorized_forecast_default_step_sizes :
  vectorized_multi_scale_forecast interpolate model (const2 1 3 0%float) 10
    [model] [8; 4] = Err NotImplementedError.
Proof. vm_compute. reflexivity. Qed.

(** *** The training loop *)

Example run5_log :
  log (fst (run5 (Some "model.pt"%string)))
  = [OptimizerStep 1; OptimizerStep 2; OptimizerStep 3; OptimizerStep 4;
     OptimizerStep 5; PrintSaved 5; Save 5]
  /\ snd (run5 (Some "model.pt"%string)) = Finished Exhausted.
Proof. vm_compute. split; reflexivity. Qed.

(** C6, counterexample.  In the first pass of a run on [dataset] the
    validation loss is 0, which is below 1e-8; the pass does not break: it
    applies its gradient step, and the loop goes on to a second one. *)
Lemma small_val_loss_does_not_stop :
  let r := train_net adam randperm optimizer_step model dataset 2 20 None tt in
  val_loss (fst first_pass) = Some 0%float /\
  (ritem 0%float <=? threshold)%float = true /\
  snd first_pass = Continue /\
  log (fst first_pass) = [OptimizerStep 1] /\
  log (fst r) = [OptimizerStep 1; OptimizerStep 2] /\
  snd r = Finished Exhausted.
Proof. vm_compute. repeat split; reflexivity. Qed.

Lemma first_pass_continues : snd first_pass = Continue.
Proof. vm_compute. reflexivity. Qed.

Lemma break_pass_breaks : snd break_pass = Break.
Proof. vm_compute. reflexivity. Qed.

Lemma early_stopping_reads_best_loss_witness :
  (snd first_pass = Continue /\
   count_events is_optimizer_step (log (fst first_pass))
   = S (count_events is_optimizer_step (log (train_init adam model tt)))) /\
  (snd break_pass = Break /\
   log (fst break_pass) = log state_best_0 ++ [PrintConverged]).
Proof.
  split.
  - refine (proj2 (early_stopping_reads_best_loss unit unit randperm
                     optimizer_step dataset 5 20 None
                     (train_init adam model tt)
                     (fst first_pass) (snd first_pass) _ _) _).
    + apply surjective_pairing.
    + rewrite first_pass_continues. discriminate.
    + vm_compute. reflexivity.
  - refine (let H := proj1 (early_stopping_reads_best_loss unit unit randperm
                       optimizer_step dataset 5 20 None state_best_0
                       (fst break_pass) (snd break_pass) _ _) _ in
            conj (proj1 H) (proj1 (proj2 H))).
    + apply surjective_pairing.
    + rewrite break_pass_breaks. discriminate.
    + vm_compute. reflexivity.
Defined.

(** C7, counterexample.  The loop is entered with [best_loss = 1e+5], not
    with +infinity: on [dataset_far] the validation loss is 1.6e7, below
    +infinity and not below 1e+5, and the run with a path configured
    writes no checkpoint at exit. *)
Lemma initial_best_loss_is_not_infinity :
  let r := train_net adam randperm optimizer_step model dataset_far 5 20
             (Some "model.pt"%string) tt in
  best_loss (train_init adam model tt) = 1e+5%float /\
  (best_loss (train_init adam model tt) =? infinity)%float = false /\
  val_loss (fst r) = Some 16000000%float /\
  (16000000 <? infinity)%float = true /\
  count_events is_save (log (fst r)) = 0%nat.
Proof. vm_compute. repeat split; reflexivity. Qed.

Lemma five_epochs_five_optimizer_steps_witness :
  epoch (train_init adam model tt) = 0 /\
  best_loss (train_init adam model tt) = 1e+5%float /\
  exists st vl,
    run5 (Some "model.pt"%string) = (st, Finished Exhausted) /\
    epoch st = 5 /\ best_loss st = 1e+5%float /\ val_loss st = Some vl /\
    count_events is_optimizer_step (log st) = 5%nat /\
    count_events is_print_epoch (log st) = 0%nat /\
    count_events is_save (log st)
    = (if (ritem vl <? 1e+5)%float && is_some (Some "model.pt"%string)
       then 1 else 0)%nat /\
    ((ritem vl <? infinity)%float = false ->
     count_events is_save (log st) = 0%nat).
Proof.
  apply (five_epochs_five_optimizer_steps unit unit adam randperm
           optimizer_step arch model dataset (Some "model.pt"%string) tt);
    first [ exact model_of_arch | exact randperm_in_range
          | exact optimizer_step_keeps_arch | reflexivity
          | unfold arch; simpl; lia ].
Defined.

Lemma converged_never_fires_up_to_1000_witness :
  let r := train_net adam randperm optimizer_step model dataset 5 20 None tt in
  snd r <> Finished Converged /\
  count_events is_print_converged (log (fst r)) = 0%nat /\
  snd r <> OutOfFuel /\
  (forall how, snd r = Finished how ->
               how = Exhausted /\ epoch (fst r) = 5).
Proof.
  cbv zeta.
  refine (converged_never_fires_up_to_1000 unit unit adam randperm
            optimizer_step model dataset 5 20 None tt _ _ _ _);
    [ lia | apply surjective_pairing ].
Defined.

End Examples.

(* ================================================================== *)
(** * Part III. Further properties of the code *)
(* ================================================================== *)

(** ** The constructors *)

Lemma skipn_cons_nth {A : Type} (d : A) (l : list A) :
  forall i, (i < length l)%nat -> skipn i l = nth i l d :: skipn (S i) l.
Proof.
  induction l as [| a l IH]; intros i Hi; simpl in Hi; [lia |].
  destruct i as [| i]; [reflexivity |].
  cbn [skipn nth]. apply IH. lia.
Qed.

Lemma nth_error_last {A : Type} (d : A) (l : list A) :
  l <> [] -> nth_error l (length l - 1) = Some (last l d).
Proof.
  induction l as [| a l IH]; intros Hne; [contradiction |].
  destruct l as [| b l]; [reflexivity |].
  specialize (IH ltac:(discriminate)).
  change (last (a :: b :: l) d) with (last (b :: l) d).
  rewrite <- IH.
  replace (length (a :: b :: l) - 1)%nat with (S (length (b :: l) - 1))
    by (cbn [length]; lia).
  reflexivity.
Qed.

Lemma py_get_first {A : Type} (a : A) (l : list A) : py_get (a :: l) 0 = Ok a.
Proof.
  unfold py_get, py_index. cbn [length].
  destruct (Z.ltb_spec 0 (Z.of_nat (S (length l)))); [reflexivity | lia].
Qed.

Lemma py_get_last {A : Type} (d : A) (l : list A) :
  l <> [] -> py_get l (-1) = Ok (last l d).
Proof.
  intros Hne. unfold py_get, py_index.
  assert (Hlen : (0 < length l)%nat) by (destruct l; [contradiction | simpl; lia]).
  cbn [Z.leb Z.compare andb].
  destruct (Z.leb_spec (- Z.of_nat (length l)) (-1)); [| lia].
  cbn [Z.ltb Z.compare andb bind].
  replace (Z.to_nat (-1 + Z.of_nat (length l))) with (length l - 1)%nat by lia.
  now rewrite (nth_error_last d l Hne).
Qed.

Lemma py_get_empty {A : Type} (i : Z) : py_get (@nil A) i = Err IndexError.
Proof.
  unfold py_get, py_index. cbn [length Z.of_nat Z.opp].
  destruct (0 <=? i) eqn:H0; destruct (i <? 0) eqn:H1; try reflexivity; lia.
Qed.

Section ConstructorFacts.
Context {R : Type} `{Scalar R}.
Variable Gen : Type.
Variable new_linear : Gen -> nat -> nat -> Linear R * Gen.

Lemma add_modules_layers (arch : list nat) :
  new_linear_sized new_linear ->
  forall n i g,
    (i + n + 1 = length arch)%nat ->
    layers_of (skipn i arch) (fst (add_modules new_linear arch i n g)).
Proof.
  intros Hnew. induction n as [| n IH]; intros i g Hlen.
  - rewrite (skipn_cons_nth O) by lia.
    rewrite skipn_all2 by lia. exact I.
  - cbn [add_modules].
    destruct (Hnew g (nth i arch O) (nth (S i) arch O)) as (Hin & Hout & Hwf).
    destruct (new_linear g (nth i arch O) (nth (S i) arch O)) as [L g1].
    cbn [fst] in Hin, Hout, Hwf.
    specialize (IH (S i) g1 ltac:(lia)).
    destruct (add_modules new_linear arch (S i) n g1) as [ls g2].
    cbn [fst] in *.
    rewrite (skipn_cons_nth O) by lia.
    rewrite (skipn_cons_nth O arch (S i)) in * by lia.
    cbn [layers_of]. auto.
Qed.

Lemma NNBlock_init_of (arch : list nat) (act : R -> R) (g : Gen) :
  new_linear_sized new_linear -> arch <> [] ->
  NNBlock_of arch (fst (NNBlock_init new_linear arch act g)) /\
  activation (fst (NNBlock_init new_linear arch act g)) = act.
Proof.
  intros Hnew Hne. unfold NNBlock_init, NNBlock_of.
  assert (Hlen : (0 < length arch)%nat)
    by (destruct arch; [contradiction | simpl; lia]).
  pose proof (add_modules_layers arch Hnew
                (Z.to_nat (Z.of_nat (length arch) - 1)) 0 g ltac:(lia)) as Hl.
  destruct (add_modules new_linear arch 0
              (Z.to_nat (Z.of_nat (length arch) - 1)) g) as [ls g'].
  cbn [fst skipn n_layers modules activation] in *. auto.
Qed.

(** How [ResNet.__init__] ends, by its argument. *)
Lemma ResNet_init_cases (arch : list nat) (dt0 : float) (step_size0 : Z)
    (act : R -> R) (g : Gen) :
  match arch with
  | [] => ResNet_init new_linear arch dt0 step_size0 act g = Err IndexError
  | a :: _ =>
      if Nat.eqb a (last arch O)
      then ResNet_init new_linear arch dt0 step_size0 act g
           = Ok (mkResNet (Z.of_nat a) dt0 step_size0
                   (fst (NNBlock_init new_linear arch act g))
                   (fst (NNBlock_init new_linear arch act
                           (snd (NNBlock_init new_linear arch act g)))),
                 snd (NNBlock_init new_linear arch act
                        (snd (NNBlock_init new_linear arch act g))))
      else ResNet_init new_linear arch dt0 step_size0 act g
           = Err AssertionError
  end.
Proof.
  destruct arch as [| a rest].
  - unfold ResNet_init. now rewrite py_get_empty.
  - unfold ResNet_init.
    rewrite py_get_first, (py_get_last O) by discriminate.
    cbn [bind].
    destruct (Nat.eqb a (last (a :: rest) O)); [| reflexivity].
    cbn [py_assert bind].
    destruct (NNBlock_init new_linear (a :: rest) act g) as [lb g1].
    cbn [fst snd].
    destruct (NNBlock_init new_linear (a :: rest) act g1) as [sb g2].
    reflexivity.
Qed.

(** X1. A model that [ResNet.__init__] returns is built from its [arch]:
    both blocks have one well-shaped layer per consecutive pair of [arch],
    [n_dim] is [arch[0]], which is also [arch[-1]], and [dt], [step_size]
    and the activation are the arguments. *)
Theorem ResNet_init_builds_arch (arch : list nat) (dt0 : float)
    (step_size0 : Z) (act : R -> R) (g g' : Gen) (self : ResNet R) :
  new_linear_sized new_linear ->
  ResNet_init new_linear arch dt0 step_size0 act g = Ok (self, g') ->
  ResNet_of arch self /\
  n_dim self = Z.of_nat (hd O arch) /\ hd O arch = last arch O /\
  dt self = dt0 /\ step_size self = step_size0 /\
  activation (block self large) = act /\ activation (block self small) = act.
Proof.
  intros Hnew Hinit.
  pose proof (ResNet_init_cases arch dt0 step_size0 act g) as Hc.
  destruct arch as [| a rest]; [rewrite Hc in Hinit; discriminate Hinit |].
  destruct (Nat.eqb_spec a (last (a :: rest) O)) as [Heq | Hneq];
    [| rewrite Hc in Hinit; discriminate Hinit].
  rewrite Hc in Hinit. injection Hinit as <- _.
  destruct (NNBlock_init_of (a :: rest) act g Hnew ltac:(discriminate))
    as [Hlarge Hactl].
  destruct (NNBlock_init_of (a :: rest) act
              (snd (NNBlock_init new_linear (a :: rest) act g)) Hnew
              ltac:(discriminate)) as [Hsmall Hacts].
  unfold ResNet_of. cbn [hd hd_error n_dim dt step_size block block_large block_small].
  split.
  - split; [congruence |]. split; [reflexivity |]. split; assumption.
  - repeat split; auto.
Qed.

(** X2. [ResNet.__init__] raises IndexError on an empty [arch] and
    AssertionError when [arch[0]] differs from [arch[-1]]; it returns a model
    in every other case, an [arch] of a single entry included. *)
Theorem ResNet_init_outcomes (arch : list nat) (dt0 : float) (step_size0 : Z)
    (act : R -> R) (g : Gen) :
  (arch = [] <->
   ResNet_init new_linear arch dt0 step_size0 act g = Err IndexError) /\
  (arch <> [] /\ hd O arch <> last arch O <->
   ResNet_init new_linear arch dt0 step_size0 act g = Err AssertionError) /\
  (arch <> [] /\ hd O arch = last arch O <->
   exists self g',
     ResNet_init new_linear arch dt0 step_size0 act g = Ok (self, g')).
Proof.
  pose proof (ResNet_init_cases arch dt0 step_size0 act g) as Hc.
  destruct arch as [| a rest].
  - split; [| split].
    + split; auto.
    + split; [intros [Hne _]; contradiction | rewrite Hc; discriminate].
    + split; [intros [Hne _]; contradiction |].
      intros (self & g' & Hi). rewrite Hc in Hi. discriminate Hi.
  - cbn [hd].
    destruct (Nat.eqb_spec a (last (a :: rest) O)) as [Heq | Hneq].
    + split; [| split].
      * split; [discriminate | rewrite Hc; discriminate].
      * split; [intros [_ Hd]; contradiction | rewrite Hc; discriminate].
      * split; [intros _; rewrite Hc; eauto |].
        intros _. split; [discriminate | exact Heq].
    + split; [| split].
      * split; [discriminate | rewrite Hc; discriminate].
      * split; [intros _; exact Hc |].
        intros _. split; [discriminate | exact Hneq].
      * split; [intros [_ Hd]; contradiction |].
        intros (self & g' & Hi). rewrite Hc in Hi. discriminate Hi.
Qed.

(** X3. A model constructed from an [arch] with at least two entries steps
    every batch of [arch[0]]-vectors: [forward] returns, for either block, a
    tensor of the shape of its input. *)
Theorem constructed_model_steps (arch : list nat) (dt0 : float)
    (step_size0 : Z) (act : R -> R) (g g' : Gen) (self : ResNet R)
    (x : tensor2 R) (w : which) :
  new_linear_sized new_linear ->
  ResNet_init new_linear arch dt0 step_size0 act g = Ok (self, g') ->
  (2 <= length arch)%nat ->
  wf2 x -> cols x = hd O arch ->
  exists y, forward self x w = Ok y /\ shape2 y = shape2 x /\ wf2 y.
Proof.
  intros Hnew Hinit Hlen Hwf Hc.
  pose proof (ResNet_init_cases arch dt0 step_size0 act g) as Hcases.
  destruct arch as [| a rest]; [rewrite Hcases in Hinit; discriminate Hinit |].
  destruct (Nat.eqb_spec a (last (a :: rest) O)) as [Heq | Hneq];
    [| rewrite Hcases in Hinit; discriminate Hinit].
  rewrite Hcases in Hinit. injection Hinit as <- _.
  destruct (NNBlock_init_of (a :: rest) act g Hnew ltac:(discriminate))
    as [Hlarge _].
  destruct (NNBlock_init_of (a :: rest) act
              (snd (NNBlock_init new_linear (a :: rest) act g)) Hnew
              ltac:(discriminate)) as [Hsmall _].
  match goal with
  | |- context [forward ?m x w] =>
      destruct (forward_ok (a :: rest) m x w) as
        (L & ls & r & _ & _ & Hrr & Hcr & Hwfr & Hf)
  end.
  - unfold ResNet_of. cbn [hd hd_error n_dim block_large block_small].
    split; [congruence |]. split; [reflexivity |]. split; assumption.
  - exact Hlen.
  - cbn [n_dim hd] in *. now rewrite Hc.
  - eexists. split; [exact Hf |]. split; [reflexivity |].
    apply pointwise_wf; auto.
Qed.

(** X4. [ResNet.__init__] accepts an [arch] of a single entry, but the model
    it returns has no layer: every call of [forward] on it raises KeyError
    (the lookup of ['Linear_-1']). *)
Theorem single_entry_arch_never_steps (a : nat) (dt0 : float) (step_size0 : Z)
    (act : R -> R) (g : Gen) :
  exists self g',
    ResNet_init new_linear [a] dt0 step_size0 act g = Ok (self, g') /\
    forall (x : tensor2 R) (w : which), forward self x w = Err KeyError.
Proof.
  pose proof (ResNet_init_cases [a] dt0 step_size0 act g) as Hc.
  cbn [last] in Hc. rewrite Nat.eqb_refl in Hc.
  eexists. eexists. split; [exact Hc |].
  intros x w. unfold forward.
  destruct w; cbn [block block_large block_small];
    rewrite NNBlock_forward_no_layer; reflexivity.
Qed.

End ConstructorFacts.

(** ** Errors of the step and of the composite loss *)

Section ShapeErrors.
Context {R : Type} `{Scalar R}.

Lemma residual_block_spec_wrong_width (act : R -> R) (L : Linear R)
    (rest : list (Linear R)) (x : tensor2 R) :
  cols x <> in_features L ->
  residual_block_spec act L rest x = Err RuntimeError.
Proof.
  intros Hc.
  assert (Hl : Linear_forward L x = Err RuntimeError).
  { unfold Linear_forward.
    destruct (Nat.eqb_spec (cols x) (in_features L)); [contradiction | reflexivity]. }
  destruct rest; cbn [residual_block_spec]; rewrite Hl; reflexivity.
Qed.

(** X5. On a model with at least one layer, [forward] of a batch whose
    vectors do not have [n_dim] entries raises RuntimeError (the first
    layer refuses the product), for either block. *)
Theorem forward_wrong_width (arch : list nat) (self : ResNet R)
    (x : tensor2 R) (w : which) :
  ResNet_of arch self -> (2 <= length arch)%nat ->
  Z.of_nat (cols x) <> n_dim self ->
  forward self x w = Err RuntimeError.
Proof.
  intros (Hhd & Hnd & Hlarge & Hsmall) Hlen Hx.
  assert (Hb : NNBlock_of arch (block self w)) by (destruct w; assumption).
  destruct Hb as (Hn & Hl).
  destruct (layers_of_nonempty arch _ Hlen Hl)
    as (a & arch' & L & rest & -> & Hm).
  rewrite Hm in Hl. cbn [hd] in Hnd.
  pose proof (layers_of_length _ _ Hl) as Hlen'.
  destruct arch' as [| a' arch'']; [contradiction |].
  destruct Hl as (Hin & _).
  unfold forward.
  rewrite (NNBlock_forward_spec _ L rest x Hm).
  - rewrite residual_block_spec_wrong_width; [reflexivity | lia].
  - rewrite Hn, Hm. rewrite <- Hlen'. lia.
Qed.

(** X6. [calculate_loss] does not compare the batch sizes of [x] and [ys]:
    when they differ and neither is 1, the first criterion cannot broadcast
    its arguments and the call raises RuntimeError. *)
Theorem calculate_loss_batch_mismatch (arch : list nat) (self : ResNet R)
    (x : tensor2 R) (ys : tensor3 R) :
  ResNet_of arch self -> (2 <= length arch)%nat ->
  Z.of_nat (cols x) = n_dim self -> dim2 ys = cols x ->
  (1 <= dim1 ys)%nat ->
  rows x <> dim0 ys -> rows x <> 1%nat -> dim0 ys <> 1%nat ->
  calculate_loss self x ys = Err RuntimeError.
Proof.
  intros Hnet Hlen Hx Hd2 Hd1 Hne Hx1 Hy1.
  unfold calculate_loss.
  rewrite py_assert_true by (apply Z.eqb_eq; lia).
  rewrite bind_Ok_red.
  destruct (forward_ok arch self x small Hnet Hlen Hx)
    as (_ & _ & r & _ & _ & Hrr & Hcr & _ & Hf).
  rewrite Hf, bind_Ok_red, (column_ok ys 0) by lia.
  rewrite bind_Ok_red.
  assert (Hcrit : criterion (pointwise radd x r)
                    (T2 (dim0 ys) (dim2 ys)
                       (map (fun m => nth 0 m []) (entries3 ys)))
                  = Err RuntimeError).
  { unfold criterion, binop, bdim. cbn [rows cols pointwise].
    destruct (Nat.eqb_spec (rows x) (dim0 ys)); [contradiction |].
    destruct (Nat.eqb_spec (rows x) 1); [contradiction |].
    destruct (Nat.eqb_spec (dim0 ys) 1); [contradiction |].
    reflexivity. }
  rewrite Hcrit. reflexivity.
Qed.

End ShapeErrors.

(** ** The training methods *)

Section TrainingWithFacts.
Context {R : Type} `{Scalar R}.
Variables Opt Rng : Type.
Variable adam : ResNet R -> Opt.
Variable randperm : Rng -> nat -> list nat * Rng.
Variable optimizer_step :
  Opt -> ResNet R -> tensor2 R -> tensor3 R -> Opt * ResNet R.
Variable loss : ResNet R -> tensor2 R -> tensor3 R -> result R.

(** What one pass does to the variables, by the way it is left. *)
Lemma train_iter_with_cases (dataset : DataSet R) (batch_size : Z)
    (model_path : option string) (st st' : train_state R Opt Rng)
    (c : control) :
  train_iter_with randperm optimizer_step loss dataset batch_size model_path st
  = (st', c) ->
  epoch st' = epoch st + 1 /\
  match c with
  | Raise e =>
      log st' = log st /\ best_loss st' = best_loss st /\
      val_loss st' = val_loss st
  | Break =>
      (best_loss st <=? threshold)%float = true /\
      log st' = log st ++ [PrintConverged] /\
      best_loss st' = best_loss st /\
      is_some (val_loss st') = true
  | Continue =>
      (best_loss st <=? threshold)%float = false /\
      is_some (val_loss st') = true /\
      (best_loss st' = best_loss st \/ (epoch st + 1) mod 1000 = 0) /\
      exists tail,
        log st' = log st ++ OptimizerStep (epoch st + 1) :: tail /\
        Forall quiet tail /\
        (forall e, In (Save e) tail ->
                   model_path <> None /\ e = epoch st + 1 /\ e mod 1000 = 0)
  end.
Proof.
  unfold train_iter_with. intros Hit.
  repeat match type of Hit with
         | context [match ?c with _ => _ end] => destruct c eqn:?
         | context [if ?c then _ else _] => destruct c eqn:?
         end;
    injection Hit as <- <-;
    cbn [fst snd epoch log best_loss net optimizer val_loss is_some].
  all: split; [reflexivity |].
  all: try (split; [reflexivity |]; split; reflexivity).
  all: try (split; [reflexivity |]; split; [reflexivity |];
            split; reflexivity).
  all: split; [reflexivity |]; split; [reflexivity |].
  all: split; [first [left; reflexivity | right; apply Z.eqb_eq; assumption] |].
  all: rewrite <- ?app_assoc; cbn [app].
  all: eexists; split; [reflexivity |].
  all: split; [repeat constructor |].
  all: intros e Hin; cbn [In] in Hin.
  all: repeat match goal with
              | Hor : _ \/ _ |- _ => destruct Hor as [Hor | Hor]
              end; try discriminate; try contradiction.
  all: injection Hin as <-.
  all: split; [discriminate |]; split; [reflexivity |].
  all: apply Z.eqb_eq; assumption.
Qed.

Lemma loop_inv_init (model_path : option string) (self : ResNet R) (g : Rng) :
  loop_inv model_path (train_init adam self g).
Proof.
  unfold loop_inv, train_init.
  cbn [epoch log best_loss val_loss].
  split; [lia |]. split; [reflexivity |]. split; [reflexivity |].
  split; [intros e [] |].
  split; [intros Hb; exfalso; revert Hb; apply not_true_iff_false;
          apply initial_best_loss_above_threshold |].
  split; [lia | intros _; split; reflexivity].
Qed.

Lemma count_step_tail (p : event -> bool) (l tail : list event) (ev : event) :
  count_events p (l ++ ev :: tail)
  = (count_events p l + count_events p [ev] + count_events p tail)%nat.
Proof.
  change (ev :: tail) with ([ev] ++ tail).
  rewrite !count_events_app. lia.
Qed.

(** A pass that is left by [continue] keeps the invariant of the loop. *)
Lemma loop_inv_continue (dataset : DataSet R) (batch_size : Z)
    (model_path : option string) (st st' : train_state R Opt Rng) :
  loop_inv model_path st ->
  train_iter_with randperm optimizer_step loss dataset batch_size model_path st
  = (st', Continue) ->
  loop_inv model_path st'.
Proof.
  intros (Hep & Hsteps & Hconv & Hsave & Hbest & Hval & Hnone) Hit.
  apply train_iter_with_cases in Hit.
  destruct Hit as (Hep1 & Hleb & Hval1 & Hb & tail & Hlog & Hquiet & Htail).
  destruct (quiet_counts tail Hquiet) as [Hq1 Hq2].
  unfold loop_inv.
  split; [lia |].
  split; [rewrite Hlog, count_step_tail, Hq1;
          change (count_events is_optimizer_step [OptimizerStep (epoch st + 1)])
            with 1%nat; lia |].
  split; [rewrite Hlog, count_step_tail, Hq2, Hconv; reflexivity |].
  split.
  { intros e Hin. rewrite Hlog in Hin. apply in_app_iff in Hin.
    destruct Hin as [Hin | [Hin | Hin]].
    - destruct (Hsave e Hin) as (Hp & Hm & Hr).
      split; [exact Hp |]. split; [exact Hm | lia].
    - discriminate Hin.
    - destruct (Htail e Hin) as (Hp & He & Hm).
      split; [exact Hp |]. split; [exact Hm | lia]. }
  split.
  { intros Hb1. destruct Hb as [Hb | Hmod].
    - rewrite Hb, Hleb in Hb1. discriminate Hb1.
    - rewrite Hep1. split; [| exact Hmod].
      destruct (Z.eq_dec (epoch st + 1) 0) as [H0 | H0]; [lia |].
      destruct (Z.lt_ge_cases (epoch st + 1) 1000) as [Hlt | Hge];
        [| exact Hge].
      rewrite Z.mod_small in Hmod by lia. lia. }
  split; [intros _; exact Hval1 | lia].
Qed.

(** The loop, from a state that satisfies its invariant. *)
Lemma train_loop_with_run (dataset : DataSet R) (max_epoch batch_size : Z)
    (model_path : option string) (fuel : nat) :
  forall (st st' : train_state R Opt Rng) (out : outcome),
    loop_inv model_path st ->
    max_epoch - epoch st <= Z.of_nat fuel ->
    train_loop_with randperm optimizer_step loss fuel dataset max_epoch
      batch_size model_path st = (st', out) ->
    match out with
    | Finished Exhausted =>
        loop_inv model_path st' /\ max_epoch <= epoch st' /\
        (epoch st < max_epoch -> epoch st' = max_epoch) /\
        (max_epoch <= epoch st -> st' = st)
    | Finished Converged =>
        epoch st < epoch st' <= max_epoch /\
        Z.of_nat (count_events is_optimizer_step (log st')) = epoch st' - 1 /\
        count_events is_print_converged (log st') = 1%nat /\
        (forall e, In (Save e) (log st') ->
                   model_path <> None /\ e mod 1000 = 0 /\ 1 <= e <= epoch st') /\
        (best_loss st' <=? threshold)%float = true /\
        1000 < epoch st' /\ (epoch st' - 1) mod 1000 = 0 /\
        is_some (val_loss st') = true
    | Raised _ =>
        epoch st < epoch st' <= max_epoch /\
        Z.of_nat (count_events is_optimizer_step (log st')) = epoch st' - 1 /\
        count_events is_print_converged (log st') = 0%nat /\
        (forall e, In (Save e) (log st') ->
                   model_path <> None /\ e mod 1000 = 0 /\ 1 <= e <= epoch st')
    | OutOfFuel => False
    end.
Proof.
  induction fuel as [| fuel IH]; intros st st' out Hinv Hfuel Hrun;
    simpl in Hrun.
  - destruct (Z.ltb_spec (epoch st) max_epoch) as [Hlt | Hge]; [lia |].
    injection Hrun as <- <-.
    split; [exact Hinv |]. split; [exact Hge |]. split; [lia | reflexivity].
  - destruct (Z.ltb_spec (epoch st) max_epoch) as [Hlt | Hge].
    2: { injection Hrun as <- <-.
         split; [exact Hinv |]. split; [exact Hge |].
         split; [lia | reflexivity]. }
    destruct (train_iter_with randperm optimizer_step loss dataset batch_size
                model_path st) as [st1 c] eqn:Hit.
    destruct c as [| | e].
    + pose proof (loop_inv_continue _ _ _ _ _ Hinv Hit) as Hinv1.
      apply train_iter_with_cases in Hit. destruct Hit as [Hep1 _].
      assert (Hfuel1 : max_epoch - epoch st1 <= Z.of_nat fuel) by lia.
      specialize (IH st1 st' out Hinv1 Hfuel1 Hrun).
      destruct out as [[|] | e |].
      * destruct IH as (H1 & H2 & H3 & H4 & H5 & H6 & H7 & H8).
        split; [lia |]. repeat (split; [assumption |]). assumption.
      * destruct IH as (H1 & H2 & H3 & H4).
        split; [exact H1 |]. split; [exact H2 |].
        split; [| lia].
        intros _. destruct (Z.lt_ge_cases (epoch st1) max_epoch) as [Hl | Hg].
        -- apply H3, Hl.
        -- rewrite (H4 Hg). lia.
      * destruct IH as (H1 & H2 & H3 & H4).
        split; [lia |]. repeat (split; [assumption |]). assumption.
      * exact IH.
    + injection Hrun as <- <-.
      destruct Hinv as (Hep & Hsteps & Hconv & Hsave & Hbest & Hval & Hnone).
      apply train_iter_with_cases in Hit.
      destruct Hit as (Hep1 & Hleb & Hlog & Hb & Hval1).
      destruct (Hbest Hleb) as [H1000 Hmod].
      split; [lia |].
      split; [rewrite Hlog, count_events_app;
              change (count_events is_optimizer_step [PrintConverged])
                with 0%nat; lia |].
      split; [rewrite Hlog, count_events_app, Hconv; reflexivity |].
      split.
      { intros e Hin. rewrite Hlog in Hin. apply in_app_iff in Hin.
        destruct Hin as [Hin | [Hin | []]]; [| discriminate Hin].
        destruct (Hsave e Hin) as (Hp & Hm & Hr).
        split; [exact Hp |]. split; [exact Hm | lia]. }
      split; [rewrite Hb; exact Hleb |].
      split; [lia |].
      split; [rewrite Hep1; replace (epoch st + 1 - 1) with (epoch st) by lia;
              exact Hmod | exact Hval1].
    + injection Hrun as <- <-.
      destruct Hinv as (Hep & Hsteps & Hconv & Hsave & Hbest & Hval & Hnone).
      apply train_iter_with_cases in Hit.
      destruct Hit as (Hep1 & Hlog & Hb & Hval1).
      split; [lia |].
      split; [rewrite Hlog; lia |].
      split; [rewrite Hlog; exact Hconv |].
      intros e' Hin. rewrite Hlog in Hin.
      destruct (Hsave e' Hin) as (Hp & Hm & Hr).
      split; [exact Hp |]. split; [exact Hm | lia].
Qed.

(** What a training method has done when it ends, whatever its loss is. *)
Lemma train_net_with_facts (self : ResNet R) (dataset : DataSet R)
    (max_epoch batch_size : Z) (model_path : option string) (g : Rng) :
  let run := train_net_with adam randperm optimizer_step loss self dataset
               max_epoch batch_size model_path g in
  steps_follow_epochs max_epoch run /\
  converges_after_report run /\
  saves_at_reports_or_exit model_path run.
Proof.
  cbv zeta. unfold train_net_with.
  destruct (check_data_info self dataset) as [[] | e].
  2: { unfold steps_follow_epochs, converges_after_report,
         saves_at_reports_or_exit, train_init.
       cbn [fst snd epoch log].
       split; [left; split; reflexivity |].
       split; [discriminate | intros e' []]. }
  destruct (train_loop_with randperm optimizer_step loss (Z.to_nat max_epoch)
              dataset max_epoch batch_size model_path (train_init adam self g))
    as [st out] eqn:Hrun.
  apply train_loop_with_run in Hrun;
    [| apply loop_inv_init | unfold train_init; cbn [epoch]; lia].
  unfold train_init in Hrun; cbn [epoch] in Hrun.
  unfold steps_follow_epochs, converges_after_report, saves_at_reports_or_exit.
  destruct out as [[|] | e |].
  - (* early stop *)
    destruct Hrun as (Hep & Hsteps & Hconv & Hsave & Hleb & H1000 & Hmod & Hval).
    destruct (val_loss st) as [vl |] eqn:Hvl; [| discriminate Hval].
    destruct ((ritem vl <? best_loss st)%float && is_some model_path) eqn:Hexit;
      cbn [fst snd epoch log best_loss].
    + apply andb_prop in Hexit. destruct Hexit as [_ Hpath].
      split; [split; [lia |]; rewrite count_events_app;
              change (count_events is_optimizer_step
                        [PrintSaved (epoch st); Save (epoch st)]) with 0%nat;
              lia |].
      split.
      * intros _. split; [exact H1000 |]. split; [exact Hmod |].
        split; [exact Hleb |]. rewrite count_events_app, Hconv. reflexivity.
      * intros e Hin. apply in_app_iff in Hin.
        destruct Hin as [Hin | [Hin | [Hin | []]]]; [| discriminate Hin |].
        -- destruct (Hsave e Hin) as (Hp & Hm & Hr).
           split; [exact Hp |]. split; [left; exact Hm | exact Hr].
        -- injection Hin as <-.
           split; [destruct model_path; [discriminate | discriminate Hpath] |].
           split; [right; reflexivity | lia].
    + split; [split; [lia | exact Hsteps] |].
      split.
      * intros _. split; [exact H1000 |]. split; [exact Hmod |].
        split; [exact Hleb | exact Hconv].
      * intros e Hin. destruct (Hsave e Hin) as (Hp & Hm & Hr).
        split; [exact Hp |]. split; [left; exact Hm | exact Hr].
  - (* the loop ran out *)
    destruct Hrun as (Hinv & Hge & Hmax & Hsame).
    destruct Hinv as (Hep & Hsteps & Hconv & Hsave & Hbest & Hval & Hnone).
    destruct (val_loss st) as [vl |] eqn:Hvl.
    + assert (Hpos : 0 < epoch st).
      { destruct (Z.eq_dec (epoch st) 0) as [H0 | H0]; [| lia].
        destruct (Hnone H0) as [Habs _]. discriminate Habs. }
      assert (Hmpos : 0 < max_epoch).
      { destruct (Z.lt_ge_cases 0 max_epoch) as [Hl | Hg]; [exact Hl |].
        rewrite (Hsame Hg) in Hpos. cbn [epoch] in Hpos. lia. }
      specialize (Hmax Hmpos).
      destruct ((ritem vl <? best_loss st)%float && is_some model_path)
        eqn:Hexit; cbn [fst snd epoch log best_loss].
      * apply andb_prop in Hexit. destruct Hexit as [_ Hpath].
        split; [split; [exact Hmpos |]; split; [exact Hmax |];
                rewrite count_events_app;
                change (count_events is_optimizer_step
                          [PrintSaved (epoch st); Save (epoch st)]) with 0%nat;
                lia |].
        split; [discriminate |].
        intros e Hin. apply in_app_iff in Hin.
        destruct Hin as [Hin | [Hin | [Hin | []]]]; [| discriminate Hin |].
        -- destruct (Hsave e Hin) as (Hp & Hm & Hr).
           split; [exact Hp |]. split; [left; exact Hm | exact Hr].
        -- injection Hin as <-.
           split; [destruct model_path; [discriminate | discriminate Hpath] |].
           split; [right; reflexivity | lia].
      * split; [split; [exact Hmpos |]; split; [exact Hmax | lia] |].
        split; [discriminate |].
        intros e Hin. destruct (Hsave e Hin) as (Hp & Hm & Hr).
        split; [exact Hp |]. split; [left; exact Hm | exact Hr].
    + cbn [fst snd].
      assert (H0 : epoch st = 0).
      { destruct (Z.eq_dec (epoch st) 0) as [H0 | H0]; [exact H0 |].
        assert (Hpos : 0 < epoch st) by lia.
        specialize (Hval Hpos). discriminate Hval. }
      destruct (Hnone H0) as [_ Hlog].
      split; [left; split; [exact H0 | rewrite Hlog; reflexivity] |].
      split; [discriminate |].
      intros e Hin. rewrite Hlog in Hin. destruct Hin.
  - (* an exception in a pass *)
    destruct Hrun as (Hep & Hsteps & Hconv & Hsave). cbn [fst snd].
    split; [right; split; [lia | exact Hsteps] |].
    split; [discriminate |].
    intros e' Hin. destruct (Hsave e' Hin) as (Hp & Hm & Hr).
    split; [exact Hp |]. split; [left; exact Hm | exact Hr].
  - destruct Hrun.
Qed.

(** With no pass through the loop, the test after it reads a [val_loss]
    that was never bound. *)
Lemma train_net_with_no_pass (self : ResNet R) (dataset : DataSet R)
    (max_epoch batch_size : Z) (model_path : option string) (g : Rng) :
  check_data_info self dataset = Ok tt ->
  max_epoch <= 0 ->
  train_net_with adam randperm optimizer_step loss self dataset max_epoch
    batch_size model_path g
  = (train_init adam self g, Raised UnboundLocalError).
Proof.
  intros Hcheck Hmax. unfold train_net_with. rewrite Hcheck.
  destruct (Z.to_nat max_epoch); cbn [train_loop_with];
    unfold train_init at 1; cbn [epoch];
    (destruct (Z.ltb_spec 0 max_epoch) as [Hlt | _]; [lia |]);
    reflexivity.
Qed.

End TrainingWithFacts.

Section TrainNetIsLoop.
Context {R : Type} `{Scalar R}.
Variables Opt Rng : Type.
Variable adam : ResNet R -> Opt.
Variable randperm : Rng -> nat -> list nat * Rng.
Variable optimizer_step :
  Opt -> ResNet R -> tensor2 R -> tensor3 R -> Opt * ResNet R.

(** [train_net] is the loop over [calculate_loss]. *)
Lemma train_loop_is_with (dataset : DataSet R) (max_epoch batch_size : Z)
    (model_path : option string) (fuel : nat) :
  forall st : train_state R Opt Rng,
    train_loop randperm optimizer_step fuel dataset max_epoch batch_size
      model_path st
    = train_loop_with randperm optimizer_step calculate_loss fuel dataset
        max_epoch batch_size model_path st.
Proof.
  induction fuel as [| fuel IH]; intros st; cbn [train_loop train_loop_with];
    [reflexivity |].
  destruct (epoch st <? max_epoch); [| reflexivity].
  change (train_iter randperm optimizer_step dataset batch_size model_path st)
    with (train_iter_with randperm optimizer_step calculate_loss dataset
            batch_size model_path st).
  destruct (train_iter_with randperm optimizer_step calculate_loss dataset
              batch_size model_path st) as [st' [| | e]];
    [apply IH | reflexivity | reflexivity].
Qed.

Lemma train_net_is_with (self : ResNet R) (dataset : DataSet R)
    (max_epoch batch_size : Z) (model_path : option string) (g : Rng) :
  train_net adam randperm optimizer_step self dataset max_epoch batch_size
    model_path g
  = train_net_with adam randperm optimizer_step calculate_loss self dataset
      max_epoch batch_size model_path g.
Proof.
  unfold train_net, train_net_with. now rewrite train_loop_is_with.
Qed.

End TrainNetIsLoop.

(** ** The single-scale loss *)

Section SingleLossFacts.
Context {R : Type} `{Scalar R} `{ScalarMax R}.

Lemma expand3_same (t : tensor3 R) :
  expand3 (dim0 t) (dim1 t) (dim2 t) t = entries3 t.
Proof.
  unfold expand3. rewrite expand_same.
  rewrite <- (map_id (entries3 t)) at 2. apply map_ext. intros m.
  rewrite expand_same.
  rewrite <- (map_id m) at 2. apply map_ext. intros r. apply expand_same.
Qed.

Lemma criterion3_same_shape (a b : tensor3 R) :
  dim0 a = dim0 b -> dim1 a = dim1 b -> dim2 a = dim2 b ->
  criterion3 a b = Ok (pointwise3 sq_diff a b).
Proof.
  intros Hd0 Hd1 Hd2. unfold criterion3, pointwise3.
  rewrite <- Hd0, <- Hd1, <- Hd2, !bdim_same, !bind_Ok_red.
  rewrite expand3_same.
  rewrite Hd0, Hd1, Hd2, expand3_same. reflexivity.
Qed.

Lemma assign_step_same (p : tensor3 R) (t : nat) (v : tensor2 R) :
  rows v = dim0 p -> cols v = dim2 p ->
  assign_step p t v
  = Ok (T3 (dim0 p) (dim1 p) (dim2 p)
          (zip_with (fun m r => list_set t r m) (entries3 p) (entries v))).
Proof.
  intros Hr Hc. unfold assign_step.
  rewrite <- Hr, <- Hc, !Nat.eqb_refl, expand2_same. reflexivity.
Qed.

(** The recurrence returns on batches of the declared shape, whatever the
    horizon is, and keeps the shape of [y_preds]. *)
Lemma rollout_ok (arch : list nat) (self : ResNet R) (w : which)
    (x0 : tensor2 R) :
  ResNet_of arch self -> (2 <= length arch)%nat ->
  Z.of_nat (cols x0) = n_dim self ->
  forall (ts : list nat) (p : tensor3 R) (y : tensor2 R),
    dim0 p = rows x0 -> dim2 p = cols x0 ->
    rows y = rows x0 -> cols y = cols x0 ->
    exists q, rollout self w ts p y = Ok q /\
              dim0 q = dim0 p /\ dim1 q = dim1 p /\ dim2 q = dim2 p.
Proof.
  intros Hnet Hlen Hx. induction ts as [| t ts IH]; intros p y Hp0 Hp2 Hr Hc.
  - exists p. cbn [rollout]. auto.
  - cbn [rollout].
    destruct (forward_value arch self x0 y w Hnet Hlen Hx Hr Hc)
      as (Hf & Hrs & Hcs).
    rewrite Hf, bind_Ok_red.
    rewrite assign_step_same by congruence. rewrite bind_Ok_red.
    match goal with
    | |- context [rollout self w ts ?p' ?y'] =>
        destruct (IH p' y') as (q & Hq & Hq0 & Hq1 & Hq2);
          cbn [dim0 dim1 dim2]; auto
    end.
    exists q. cbn [dim0 dim1 dim2] in Hq0, Hq1, Hq2. auto.
Qed.

(** X7. With an empty horizon, [calculate_loss_single] takes no step and
    raises RuntimeError: the maximum of a tensor without entries. *)
Theorem calculate_loss_single_empty_horizon (self : ResNet R)
    (x : tensor2 R) (ys : tensor3 R) (w : float) (type_scale : which) :
  Z.of_nat (dim2 ys) = n_dim self ->
  dim1 ys = O ->
  calculate_loss_single self x ys w type_scale = Err RuntimeError.
Proof.
  intros Hd Hn. unfold calculate_loss_single.
  rewrite py_assert_true by (apply Z.eqb_eq; exact Hd).
  rewrite bind_Ok_red, Hn. cbn [seq rollout]. rewrite bind_Ok_red.
  rewrite criterion3_same_shape by (cbn [zeros_like_shape dim0 dim1 dim2]; auto).
  rewrite !bind_Ok_red.
  unfold tmax3, pointwise3, zeros_like_shape. cbn [dim0 dim1 dim2].
  rewrite Nat.mul_0_r. reflexivity.
Qed.

(** On a batch of the declared shape that is not empty, the loss returns
    for every horizon of one column or more. *)
Lemma calculate_loss_single_ok (arch : list nat) (self : ResNet R)
    (x : tensor2 R) (ys : tensor3 R) (w : float) (type_scale : which) :
  ResNet_of arch self -> (2 <= length arch)%nat ->
  Z.of_nat (cols x) = n_dim self ->
  dim0 ys = rows x -> dim2 ys = cols x ->
  (1 <= dim0 ys)%nat -> (1 <= dim1 ys)%nat -> (1 <= dim2 ys)%nat ->
  exists l, calculate_loss_single self x ys w type_scale = Ok l.
Proof.
  intros Hnet Hlen Hx Hd0 Hd2 Hb Hn Hd. unfold calculate_loss_single.
  rewrite py_assert_true by (apply Z.eqb_eq; lia).
  rewrite bind_Ok_red.
  destruct (rollout_ok arch self type_scale x Hnet Hlen Hx
              (seq 0 (dim1 ys))
              (zeros_like_shape (dim0 ys) (dim1 ys) (dim2 ys)) x)
    as (q & Hq & Hq0 & Hq1 & Hq2); auto.
  cbn [zeros_like_shape dim0 dim1 dim2] in Hq0, Hq1, Hq2.
  rewrite Hq, bind_Ok_red.
  rewrite criterion3_same_shape by assumption.
  rewrite !bind_Ok_red.
  unfold tmax3. cbn [pointwise3 dim0 dim1 dim2].
  destruct (Nat.eqb_spec (dim0 q * dim1 q * dim2 q) 0) as [He | _].
  - exfalso. rewrite Hq0, Hq1, Hq2 in He.
    apply Nat.eq_mul_0 in He. destruct He as [He | He]; [| lia].
    apply Nat.eq_mul_0 in He. lia.
  - rewrite bind_Ok_red. eexists. reflexivity.
Qed.

Lemma list_set_app {A : Type} (l1 l2 : list A) (z r : A) :
  list_set (length l1) r (l1 ++ z :: l2) = l1 ++ r :: l2.
Proof.
  induction l1 as [| a l1 IH]; cbn [length app list_set];
    [reflexivity | now rewrite IH].
Qed.

Lemma zip_with_tab {A B C : Type} (g : A -> B -> C) (f : nat -> A) (d : B)
    (l : list B) :
  forall k,
    zip_with g (map f (seq k (length l))) l
    = map (fun i => g (f i) (nth (i - k) l d)) (seq k (length l)).
Proof.
  induction l as [| b l IH]; intros k; cbn [length seq map zip_with];
    [reflexivity |].
  rewrite Nat.sub_diag. cbn [nth]. f_equal.
  rewrite IH. apply map_ext_in. intros i Hi. apply in_seq in Hi.
  replace (i - k)%nat with (S (i - S k)) by lia. reflexivity.
Qed.

Lemma repeat_tab {A : Type} (a : A) (n : nat) :
  forall k, repeat a n = map (fun _ => a) (seq k n).
Proof.
  induction n as [| n IH]; intros k; cbn [repeat seq map];
    [reflexivity | now rewrite <- IH].
Qed.

(** One step on a batch of the right width: it returns, and its value has
    the shape of the batch and entries that fit it. *)
Lemma step_wf (arch : list nat) (self : ResNet R) (y : tensor2 R)
    (w : which) :
  ResNet_of arch self -> (2 <= length arch)%nat ->
  Z.of_nat (cols y) = n_dim self -> wf2 y ->
  forward self y w = Ok (step self y w) /\
  rows (step self y w) = rows y /\ cols (step self y w) = cols y /\
  wf2 (step self y w).
Proof.
  intros Hnet Hlen Hy Hwf.
  destruct (forward_ok arch self y w Hnet Hlen Hy)
    as (_ & _ & r & _ & _ & Hrr & Hcr & Hwfr & Hf).
  unfold step. rewrite Hf. cbn [result_value].
  split; [reflexivity |]. split; [reflexivity |]. split; [reflexivity |].
  apply pointwise_wf; auto.
Qed.

(** The recurrence fills [y_preds] with the trajectory: after the steps
    [done], the remaining [m] columns are written one by one. *)
Lemma rollout_trajectory (arch : list nat) (self : ResNet R) (w : which)
    (B n D : nat) :
  ResNet_of arch self -> (2 <= length arch)%nat ->
  Z.of_nat D = n_dim self ->
  forall (m : nat) (done : list (tensor2 R)) (y : tensor2 R),
    rows y = B -> cols y = D -> wf2 y ->
    rollout self w (seq (length done) m)
      (T3 B n D
         (map (fun i => map (fun q => nth i (entries q) []) done
                        ++ repeat (repeat rzero D) m) (seq 0 B))) y
    = Ok (T3 B n D
            (map (fun i => map (fun q => nth i (entries q) [])
                             (done ++ trajectory self w m y)) (seq 0 B))).
Proof.
  intros Hnet Hlen HD.
  induction m as [| m IH]; intros done y Hr Hc Hwf.
  - cbn [seq rollout repeat trajectory]. do 2 f_equal.
    apply map_ext. intros i. now rewrite !app_nil_r.
  - cbn [seq rollout trajectory].
    destruct (step_wf arch self y w Hnet Hlen) as (Hf & Hrs & Hcs & Hwfs);
      [lia | exact Hwf |].
    rewrite Hf, bind_Ok_red.
    rewrite assign_step_same by (cbn [dim0 dim2]; congruence).
    rewrite bind_Ok_red. cbn [dim0 dim1 dim2 entries3].
    assert (HB : length (entries (step self y w)) = B).
    { destruct Hwfs as [Hl _]. congruence. }
    rewrite <- HB at 2.
    rewrite (zip_with_tab _ _ []). rewrite HB.
    specialize (IH (done ++ [step self y w]) (step self y w)).
    rewrite length_app in IH. cbn [length] in IH.
    replace (length done + 1)%nat with (S (length done)) in IH by lia.
    rewrite <- app_assoc in IH. cbn [app] in IH.
    rewrite <- IH by congruence.
    do 2 f_equal. apply map_ext. intros i.
    rewrite Nat.sub_0_r. cbn [repeat].
    rewrite <- (length_map (fun q => nth i (entries q) []) done) at 1.
    rewrite list_set_app.
    rewrite map_app. cbn [map]. rewrite <- app_assoc. reflexivity.
Qed.

Lemma trajectory_length (self : ResNet R) (w : which) (n : nat) :
  forall x, length (trajectory self w n x) = n.
Proof.
  induction n as [| n IH]; intros x; cbn [trajectory length];
    [reflexivity | now rewrite IH].
Qed.

(** X16. [calculate_loss_single] does not compare the batch sizes of [x]
    and [ys] either: when [x] has neither the batch size of [ys] nor a
    single row, the first step is computed and its assignment to
    [y_preds[:, 0, :]] raises RuntimeError. *)
Theorem calculate_loss_single_batch_mismatch (arch : list nat)
    (self : ResNet R) (x : tensor2 R) (ys : tensor3 R) (w : float)
    (type_scale : which) :
  ResNet_of arch self -> (2 <= length arch)%nat ->
  Z.of_nat (cols x) = n_dim self -> dim2 ys = cols x ->
  (1 <= dim1 ys)%nat ->
  rows x <> dim0 ys -> rows x <> 1%nat ->
  calculate_loss_single self x ys w type_scale = Err RuntimeError.
Proof.
  intros Hnet Hlen Hx Hd2 Hd1 Hne Hx1.
  unfold calculate_loss_single.
  rewrite py_assert_true by (apply Z.eqb_eq; lia).
  rewrite bind_Ok_red.
  destruct (dim1 ys) as [| n] eqn:Hn; [lia |].
  cbn [seq rollout].
  destruct (forward_value arch self x x type_scale Hnet Hlen Hx eq_refl eq_refl)
    as (Hf & Hrs & Hcs).
  rewrite Hf, bind_Ok_red.
  unfold assign_step at 1. cbn [zeros_like_shape dim0 dim1 dim2].
  rewrite Hrs.
  destruct (Nat.eqb_spec (rows x) (dim0 ys)); [contradiction |].
  destruct (Nat.eqb_spec (rows x) 1); [contradiction |].
  reflexivity.
Qed.

(** X15. The single-scale loss reads the block it is given and no other:
    two models with the same [n_dim] and the same block [type_scale] have
    the same loss, whatever their other blocks are. *)
Theorem calculate_loss_single_reads_one_block (self self' : ResNet R)
    (x : tensor2 R) (ys : tensor3 R) (w : float) (type_scale : which) :
  n_dim self' = n_dim self ->
  block self' type_scale = block self type_scale ->
  calculate_loss_single self' x ys w type_scale
  = calculate_loss_single self x ys w type_scale.
Proof.
  intros Hn Hb.
  assert (Hroll : forall ts p y,
            rollout self' type_scale ts p y = rollout self type_scale ts p y).
  { induction ts as [| t ts IH]; intros p y; cbn [rollout]; [reflexivity |].
    unfold forward. rewrite Hb.
    destruct (NNBlock_forward (block self type_scale) y) as [r | e];
      [| reflexivity].
    rewrite !bind_Ok_red.
    destruct (tadd y r) as [y1 | e]; [| reflexivity].
    rewrite !bind_Ok_red.
    destruct (assign_step p t y1) as [p1 | e]; [| reflexivity].
    rewrite !bind_Ok_red. apply IH. }
  unfold calculate_loss_single. now rewrite Hn, Hroll.
Qed.

(** X8. On a model with at least one layer, a batch [x] of shape
    (B, n_dim) and targets [ys] of shape (B, n, n_dim) with no dimension
    empty, [calculate_loss_single] returns the loss in closed form: column
    [t] of the predictions is the state after [t + 1] steps with the block
    [type_scale], and the loss is [w] times the mean plus [1 - w] times
    the maximum of the squared errors. *)
Theorem calculate_loss_single_closed_form (arch : list nat) (self : ResNet R)
    (x : tensor2 R) (ys : tensor3 R) (w : float) (type_scale : which) :
  ResNet_of arch self -> (2 <= length arch)%nat ->
  wf2 x -> Z.of_nat (cols x) = n_dim self ->
  dim0 ys = rows x -> dim2 ys = cols x ->
  (1 <= dim0 ys)%nat -> (1 <= dim1 ys)%nat -> (1 <= dim2 ys)%nat ->
  calculate_loss_single self x ys w type_scale
  = Ok (loss_single_spec self x ys w type_scale).
Proof.
  intros Hnet Hlen Hwf Hx Hd0 Hd2 Hb Hn Hd.
  unfold calculate_loss_single, loss_single_spec.
  rewrite py_assert_true by (apply Z.eqb_eq; lia).
  rewrite bind_Ok_red.
  unfold zeros_like_shape.
  rewrite (repeat_tab _ (dim0 ys) 0).
  pose proof (rollout_trajectory arch self type_scale (dim0 ys) (dim1 ys)
                (dim2 ys) Hnet Hlen) as Hroll.
  specialize (Hroll ltac:(lia) (dim1 ys) [] x ltac:(congruence)
                ltac:(congruence) Hwf).
  cbn [length map app] in Hroll. rewrite Hroll, bind_Ok_red.
  assert (Hstack :
    T3 (dim0 ys) (dim1 ys) (dim2 ys)
       (map (fun i => map (fun q => nth i (entries q) [])
                        (trajectory self type_scale (dim1 ys) x))
            (seq 0 (dim0 ys)))
    = stack_steps (dim0 ys) (dim2 ys)
        (trajectory self type_scale (dim1 ys) x)).
  { unfold stack_steps. now rewrite trajectory_length. }
  rewrite Hstack.
  rewrite criterion3_same_shape
    by (unfold stack_steps; cbn [dim0 dim1 dim2];
        rewrite ?trajectory_length; reflexivity).
  rewrite !bind_Ok_red.
  unfold tmax3.
  destruct (Nat.eqb_spec
              (dim0 (pointwise3 sq_diff
                       (stack_steps (dim0 ys) (dim2 ys)
                          (trajectory self type_scale (dim1 ys) x)) ys)
               * dim1 (pointwise3 sq_diff
                         (stack_steps (dim0 ys) (dim2 ys)
                            (trajectory self type_scale (dim1 ys) x)) ys)
               * dim2 (pointwise3 sq_diff
                         (stack_steps (dim0 ys) (dim2 ys)
                            (trajectory self type_scale (dim1 ys) x)) ys)) 0)
    as [He | _].
  - exfalso. unfold pointwise3, stack_steps in He.
    cbn [dim0 dim1 dim2] in He. rewrite trajectory_length in He.
    apply Nat.eq_mul_0 in He. destruct He as [He | He]; [| lia].
    apply Nat.eq_mul_0 in He. lia.
  - rewrite bind_Ok_red. reflexivity.
Qed.

End SingleLossFacts.

(** ** [train_net] and [train_net_single] *)

Section TrainingMethods.
Context {R : Type} `{Scalar R} `{ScalarMax R}.
Variables Opt Rng : Type.
Variable adam : ResNet R -> Opt.
Variable randperm : Rng -> nat -> list nat * Rng.
Variable optimizer_step :
  Opt -> ResNet R -> tensor2 R -> tensor3 R -> Opt * ResNet R.

(** X9. Both training methods apply one optimizer step per completed
    pass: [max_epoch] steps when the loop runs out (which needs
    [max_epoch > 0]), and [epoch - 1] steps when the pass of [epoch] stops
    early or raises; a run that raises before its first pass has applied
    none.  The loop always ends within the [max_epoch] passes. *)
Theorem training_steps_follow_epochs (self : ResNet R) (dataset : DataSet R)
    (max_epoch batch_size : Z) (w : float) (model_path : option string)
    (g : Rng) :
  steps_follow_epochs max_epoch
    (train_net adam randperm optimizer_step self dataset max_epoch batch_size
       model_path g) /\
  steps_follow_epochs max_epoch
    (train_net_single adam randperm optimizer_step self dataset max_epoch
       batch_size w model_path g).
Proof.
  split; [rewrite train_net_is_with | unfold train_net_single];
    apply (train_net_with_facts Opt Rng adam randperm optimizer_step).
Qed.

(** X10. Both training methods stop early only in a pass that follows a
    report: at an epoch 1000 k + 1 with k >= 1, with [best_loss] at or
    below 1e-8, and having printed the convergence message once. *)
Theorem training_converges_after_report (self : ResNet R)
    (dataset : DataSet R) (max_epoch batch_size : Z) (w : float)
    (model_path : option string) (g : Rng) :
  converges_after_report
    (train_net adam randperm optimizer_step self dataset max_epoch batch_size
       model_path g) /\
  converges_after_report
    (train_net_single adam randperm optimizer_step self dataset max_epoch
       batch_size w model_path g).
Proof.
  split; [rewrite train_net_is_with | unfold train_net_single];
    apply (train_net_with_facts Opt Rng adam randperm optimizer_step).
Qed.

(** X11. Both training methods write a checkpoint only when a model path
    is given, and only for an epoch that is a multiple of 1000 (in its
    report) or the epoch at which the loop was left. *)
Theorem training_saves_at_reports_or_exit (self : ResNet R)
    (dataset : DataSet R) (max_epoch batch_size : Z) (w : float)
    (model_path : option string) (g : Rng) :
  saves_at_reports_or_exit model_path
    (train_net adam randperm optimizer_step self dataset max_epoch batch_size
       model_path g) /\
  saves_at_reports_or_exit model_path
    (train_net_single adam randperm optimizer_step self dataset max_epoch
       batch_size w model_path g).
Proof.
  split; [rewrite train_net_is_with | unfold train_net_single];
    apply (train_net_with_facts Opt Rng adam randperm optimizer_step).
Qed.

(** X12. With [max_epoch <= 0] and a consistent dataset, no call of a
    training method returns: when Adam's constructor refuses its arguments
    (a learning rate that is not [0.0 <= lr], a model without parameters)
    the call raises its ValueError, and otherwise it raises
    UnboundLocalError, because the test after the loop reads [val_loss],
    which no pass has bound; the run is then in its initial state. *)
Theorem training_without_a_pass_raises (self : ResNet R)
    (dataset : DataSet R) (max_epoch batch_size : Z) (w lr : float)
    (model_path : option string) (g : Rng) :
  check_data_info self dataset = Ok tt ->
  max_epoch <= 0 ->
  let raised :=
    if adam_accepts self lr
    then Runs (train_init adam self g, Raised UnboundLocalError)
    else AdamValueError in
  train_net_call adam randperm optimizer_step self dataset max_epoch
    batch_size lr model_path g = raised /\
  train_net_single_call adam randperm optimizer_step self dataset max_epoch
    batch_size w lr model_path g = raised.
Proof.
  intros Hcheck Hmax. cbv zeta.
  unfold train_net_call, train_net_single_call. rewrite Hcheck.
  destruct (adam_accepts self lr); [| split; reflexivity].
  split; f_equal.
  - rewrite train_net_is_with. now apply train_net_with_no_pass.
  - unfold train_net_single. now apply train_net_with_no_pass.
Qed.

End TrainingMethods.

Section HorizonOfTheData.
Context {R : Type} `{Scalar R} `{ScalarMax R}.
Variables Opt Rng : Type.
Variable adam : ResNet R -> Opt.
Variable randperm : Rng -> nat -> list nat * Rng.
Variable optimizer_step :
  Opt -> ResNet R -> tensor2 R -> tensor3 R -> Opt * ResNet R.

Lemma take_rows3_dim1 (t b : tensor3 R) (idx : list nat) :
  take_rows3 t idx = Ok b -> dim1 b = dim1 t.
Proof.
  unfold take_rows3. intros Hb. apply bind_inv in Hb.
  destruct Hb as (ms & _ & Hb). injection Hb as <-. reflexivity.
Qed.

(** With fewer than five horizon columns in the training or in the
    validation targets, a pass of [train_net] raises before its test. *)
Lemma train_iter_short_horizon (dataset : DataSet R) (batch_size : Z)
    (model_path : option string) (st : train_state R Opt Rng) :
  (dim1 (train_ys dataset) < 5)%nat \/ (dim1 (val_ys dataset) < 5)%nat ->
  exists st' e,
    train_iter randperm optimizer_step dataset batch_size model_path st
    = (st', Raise e) /\
    log st' = log st /\ epoch st' = epoch st + 1.
Proof.
  intros Hshort. unfold train_iter.
  destruct (n_train dataset <? 0); [eexists; eexists; split; [reflexivity |];
                                    split; reflexivity |].
  destruct (randperm (rng st) (Z.to_nat (n_train dataset)))
    as [new_idxs rng1].
  destruct (take_rows (train_x dataset) (py_slice_to new_idxs batch_size))
    as [batch_x | e];
    [| eexists; eexists; split; [reflexivity |]; split; reflexivity].
  destruct (take_rows3 (train_ys dataset) (py_slice_to new_idxs batch_size))
    as [batch_ys | e] eqn:Hys;
    [| eexists; eexists; split; [reflexivity |]; split; reflexivity].
  destruct (calculate_loss (net st) batch_x batch_ys) as [tl | e] eqn:Htl;
    [| eexists; eexists; split; [reflexivity |]; split; reflexivity].
  destruct (calculate_loss (net st) (val_x dataset) (val_ys dataset))
    as [vl | e] eqn:Hvl;
    [| eexists; eexists; split; [reflexivity |]; split; reflexivity].
  exfalso.
  apply calculate_loss_ok_column4 in Htl.
  apply calculate_loss_ok_column4 in Hvl.
  apply take_rows3_dim1 in Hys. lia.
Qed.

(** X13. [train_net] needs five horizon columns: when the training or the
    validation targets have fewer and [max_epoch > 0], the call raises
    (in its first pass at the latest) and no optimizer step, print or
    checkpoint has happened. *)
Theorem train_net_needs_five_columns (self : ResNet R) (dataset : DataSet R)
    (max_epoch batch_size : Z) (model_path : option string) (g : Rng) :
  0 < max_epoch ->
  (dim1 (train_ys dataset) < 5)%nat \/ (dim1 (val_ys dataset) < 5)%nat ->
  exists st e,
    train_net adam randperm optimizer_step self dataset max_epoch batch_size
      model_path g = (st, Raised e) /\
    log st = [] /\ net st = self /\ epoch st <= 1.
Proof.
  intros Hmax Hshort. unfold train_net.
  destruct (check_data_info self dataset) as [[] | e].
  2: { eexists; eexists. split; [reflexivity |].
       unfold train_init; cbn [log net epoch]. repeat split. lia. }
  destruct (Z.to_nat max_epoch) as [| fuel] eqn:Hfuel; [lia |].
  cbn [train_loop]. unfold train_init at 1. cbn [epoch].
  destruct (Z.ltb_spec 0 max_epoch) as [_ | Hge]; [| lia].
  destruct (train_iter_short_horizon dataset batch_size model_path
              (train_init adam self g) Hshort) as (st' & e & Hit & Hlog & Hep).
  assert (Hnet : net st' = self).
  { revert Hit. unfold train_iter.
    repeat match goal with
           | |- context [match ?c with _ => _ end] => destruct c
           | |- context [if ?c then _ else _] => destruct c
           end; intros Hit; injection Hit as <- _; try reflexivity;
      discriminate. }
  rewrite Hit. exists st', e. split; [reflexivity |].
  split; [exact Hlog |]. split; [exact Hnet |].
  rewrite Hep. unfold train_init; cbn [epoch]. lia.
Qed.

Section SingleRuns.
Variable arch : list nat.
Variable dataset : DataSet R.
Variables (max_epoch batch_size : Z) (w : float) (model_path : option string).
Hypothesis Hlen : (2 <= length arch)%nat.
Hypothesis Hfits : dataset_fits_single arch dataset batch_size.
Hypothesis Hperm :
  forall g n, length (fst (randperm g n)) = n /\
              Forall (fun i => (i < n)%nat) (fst (randperm g n)).
Hypothesis Hopt :
  forall o m bx bys,
    ResNet_of arch m -> ResNet_of arch (snd (optimizer_step o m bx bys)).

(** No exception escapes a pass of [train_net_single], and the model keeps
    its architecture. *)
Lemma train_iter_single_good (st st' : train_state R Opt Rng) (c : control) :
  ResNet_of arch (net st) ->
  train_iter_with randperm optimizer_step
    (fun m x ys => calculate_loss_single m x ys w small)
    dataset batch_size model_path st = (st', c) ->
  (forall e, c <> Raise e) /\ ResNet_of arch (net st').
Proof.
  intros Hnet Hit.
  destruct Hfits
    as (Hbs & Hn & Hd & Hxc & Hy0 & Hy2 & Hy1 & Hvr & Hvc & Hv0 & Hv2 & Hv1).
  assert (Hnd : n_dim (net st) = Z.of_nat (hd O arch)) by apply Hnet.
  unfold train_iter_with in Hit.
  destruct (Z.ltb_spec (n_train dataset) 0) as [Hneg | _]; [lia |].
  pose proof (Hperm (rng st) (Z.to_nat (n_train dataset))) as [Hplen Hidx].
  destruct (randperm (rng st) (Z.to_nat (n_train dataset)))
    as [new_idxs rng1].
  cbn [fst] in Hidx, Hplen.
  assert (Hsl : Forall (fun i => (i < rows (train_x dataset))%nat)
                  (py_slice_to new_idxs batch_size)).
  { apply Forall_py_slice_to. eapply Forall_impl; [| exact Hidx].
    intros i Hi; cbv beta in *. lia. }
  assert (Hone : (1 <= length (py_slice_to new_idxs batch_size))%nat).
  { unfold py_slice_to.
    destruct (Z.ltb_spec batch_size 0) as [Hb | _]; [lia |].
    rewrite length_firstn, Hplen. lia. }
  destruct (take_rows_ok (train_x dataset) _ Hsl) as [rs Hrs].
  rewrite Hrs in Hit.
  rewrite <- Hy0 in Hsl.
  destruct (take_rows3_ok (train_ys dataset) _ Hsl) as [ms Hms].
  rewrite Hms in Hit.
  match type of Hit with
  | context [calculate_loss_single (net st) ?bx ?bys w small] =>
      destruct (calculate_loss_single_ok arch (net st) bx bys w small)
        as (tl & Htl); cbn [rows cols dim0 dim1 dim2]; auto; try lia
  end.
  rewrite Htl in Hit.
  destruct (calculate_loss_single_ok arch (net st) (val_x dataset)
              (val_ys dataset) w small) as (vl & Hvl); auto; try lia.
  rewrite Hvl in Hit.
  destruct (best_loss st <=? threshold)%float.
  - injection Hit as <- <-. split; [discriminate | exact Hnet].
  - match type of Hit with
    | context [optimizer_step ?o ?m ?bx ?bys] =>
        pose proof (Hopt o m bx bys Hnet) as Hnet1;
        destruct (optimizer_step o m bx bys) as [opt1 net1]
    end.
    cbn [snd] in Hnet1.
    destruct ((epoch st + 1) mod 1000 =? 0);
      [destruct (ritem vl <? best_loss st)%float |];
      injection Hit as <- <-; (split; [discriminate | exact Hnet1]).
Qed.

Lemma train_loop_single_good (fuel : nat) :
  forall (st st' : train_state R Opt Rng) (out : outcome),
    ResNet_of arch (net st) ->
    train_loop_with randperm optimizer_step
      (fun m x ys => calculate_loss_single m x ys w small)
      fuel dataset max_epoch batch_size model_path st = (st', out) ->
    (forall e, out <> Raised e) /\ ResNet_of arch (net st').
Proof.
  induction fuel as [| fuel IH]; intros st st' out Hnet Hrun;
    cbn [train_loop_with] in Hrun.
  - destruct (epoch st <? max_epoch); injection Hrun as <- <-;
      (split; [discriminate | exact Hnet]).
  - destruct (epoch st <? max_epoch).
    2: { injection Hrun as <- <-. split; [discriminate | exact Hnet]. }
    destruct (train_iter_with randperm optimizer_step
                (fun m x ys => calculate_loss_single m x ys w small)
                dataset batch_size model_path st) as [st1 c] eqn:Hit.
    destruct (train_iter_single_good st st1 c Hnet Hit) as [Hraise Hnet1].
    destruct c as [| | e]; [| | contradiction (Hraise e); reflexivity].
    + exact (IH st1 st' out Hnet1 Hrun).
    + injection Hrun as <- <-. split; [discriminate | exact Hnet1].
Qed.

End SingleRuns.


End HorizonOfTheData.

(** ** The further properties on concrete cases *)

Module MoreExamples.
Import Fixture Cases.

Lemma new_linear_is_sized : new_linear_sized new_linear.
Proof.
  intros g a b. unfold new_linear, Linear_wf.
  cbn [fst in_features out_features weight bias].
  rewrite !repeat_length.
  split; [reflexivity |]. split; [reflexivity |].
  split; [reflexivity |]. split; [| reflexivity].
  apply Forall_forall. intros r Hr. apply repeat_spec in Hr. subst r.
  apply repeat_length.
Qed.

Lemma init_is_model :
  ResNet_init new_linear arch 0.01%float 4 relu tt = Ok (model, tt).
Proof. reflexivity. Qed.

Example init_rejects_unequal_ends :
  ResNet_init new_linear [3; 2; 4]%nat 0.01%float 4 relu tt
  = Err AssertionError.
Proof. reflexivity. Qed.

Lemma ResNet_init_builds_arch_witness :
  ResNet_of arch model /\
  n_dim model = Z.of_nat (hd O arch) /\ hd O arch = last arch O /\
  dt model = 0.01%float /\ step_size model = 4 /\
  activation (block model large) = relu /\
  activation (block model small) = relu.
Proof.
  apply (ResNet_init_builds_arch unit new_linear arch 0.01%float 4 relu tt tt
           model);
    [exact new_linear_is_sized | exact init_is_model].
Defined.

Lemma wf2_x2' : wf2 x2.
Proof.
  unfold wf2, x2; simpl. repeat first [reflexivity | split | constructor].
Qed.

Lemma constructed_model_steps_witness :
  exists y, forward model x2 large = Ok y /\ shape2 y = shape2 x2 /\ wf2 y.
Proof.
  apply (constructed_model_steps unit new_linear arch 0.01%float 4 relu tt tt
           model x2 large);
    [ exact new_linear_is_sized | exact init_is_model
    | unfold arch; cbn [length]; lia | exact wf2_x2' | reflexivity ].
Defined.

Lemma model_is_of_arch : ResNet_of arch model.
Proof.
  unfold ResNet_of, NNBlock_of, arch, model; simpl.
  repeat first [reflexivity | split | constructor].
Qed.

Lemma forward_wrong_width_witness :
  forward model x_narrow small = Err RuntimeError.
Proof.
  apply (forward_wrong_width arch model x_narrow small);
    [ exact model_is_of_arch | unfold arch; cbn [length]; lia
    | discriminate ].
Defined.

Lemma calculate_loss_batch_mismatch_witness :
  calculate_loss model x2 ys3 = Err RuntimeError.
Proof.
  apply (calculate_loss_batch_mismatch arch model x2 ys3);
    [ exact model_is_of_arch | unfold arch; cbn [length]; lia
    | reflexivity | reflexivity | cbn; lia
    | discriminate | discriminate | discriminate ].
Defined.

Lemma calculate_loss_single_empty_horizon_witness :
  calculate_loss_single model x2 ys_empty 1%float small = Err RuntimeError.
Proof.
  apply (calculate_loss_single_empty_horizon model x2 ys_empty 1%float small);
    reflexivity.
Defined.

Lemma calculate_loss_single_closed_form_witness :
  calculate_loss_single model x2 ys_one 0.5%float small
  = Ok (loss_single_spec model x2 ys_one 0.5%float small).
Proof.
  apply (calculate_loss_single_closed_form arch model x2 ys_one 0.5%float
           small);
    [ exact model_is_of_arch | unfold arch; cbn [length]; lia
    | exact wf2_x2' | reflexivity | reflexivity | reflexivity
    | cbn; lia | cbn; lia | cbn; lia ].
Defined.

(** The zero model leaves its input as it is; against targets 1 the
    squared errors are 0, 1, 4, 9, 16, 36: mean 11, maximum 36, all exact
    in binary32 and in binary64. *)
Example calculate_loss_single_exact :
  calculate_loss_single model (T2 2 3 [[1; 2; 3]; [4; 5; 7]]%float) ys_one
    0.5%float small
  = Ok 23.5%float.
Proof. vm_compute. reflexivity. Qed.

Lemma calculate_loss_single_batch_mismatch_witness :
  calculate_loss_single model x2 ys3 1%float small = Err RuntimeError.
Proof.
  apply (calculate_loss_single_batch_mismatch arch model x2 ys3 1%float small);
    [ exact model_is_of_arch | unfold arch; cbn [length]; lia
    | reflexivity | reflexivity | cbn; lia | discriminate | discriminate ].
Defined.

Lemma calculate_loss_single_reads_one_block_witness :
  calculate_loss_single model_other_large x2 ys_one 0.5%float small
  = calculate_loss_single model x2 ys_one 0.5%float small.
Proof.
  apply (calculate_loss_single_reads_one_block model model_other_large x2
           ys_one 0.5%float small); reflexivity.
Defined.

(** The multi-scale loss does read the large block. *)
Example calculate_loss_reads_both_blocks :
  calculate_loss model_other_large x2 ys2 <> calculate_loss model x2 ys2.
Proof. vm_compute. discriminate. Qed.

Lemma training_without_a_pass_raises_witness :
  train_net_call adam randperm optimizer_step model dataset 0 20 1e-3%float
    None tt
  = Runs (train_init adam model tt, Raised UnboundLocalError) /\
  train_net_single_call adam randperm optimizer_step model dataset 0 20
    1%float 1e-3%float None tt
  = Runs (train_init adam model tt, Raised UnboundLocalError).
Proof.
  apply (training_without_a_pass_raises unit unit adam randperm optimizer_step
           model dataset 0 20 1%float 1e-3%float None tt);
    [reflexivity | lia].
Defined.

(** On the model of a one-entry [arch], and with a negative learning
    rate, it is Adam that raises. *)
Example training_without_parameters :
  train_net_call adam randperm optimizer_step model0 dataset 0 20 1e-3%float
    None tt = AdamValueError.
Proof. reflexivity. Qed.

Example training_with_negative_lr :
  train_net_single_call adam randperm optimizer_step model dataset 5 20
    1%float (-1e-3)%float None tt = AdamValueError.
Proof. reflexivity. Qed.

Lemma train_net_needs_five_columns_witness :
  exists st e,
    train_net adam randperm optimizer_step model dataset_short 5 20 None tt
    = (st, Raised e) /\
    log st = [] /\ net st = model /\ epoch st <= 1.
Proof.
  apply (train_net_needs_five_columns unit unit adam randperm optimizer_step
           model dataset_short 5 20 None tt);
    [lia | left; cbn; lia].
Defined.

Lemma randperm_is_permutation_prefix (g : unit) (n : nat) :
  length (fst (randperm g n)) = n /\
  Forall (fun i => (i < n)%nat) (fst (randperm g n)).
Proof.
  unfold randperm; cbn [fst]. split; [apply length_seq |].
  apply Forall_forall. intros i Hi. apply in_seq in Hi. lia.
Qed.

Lemma dataset_short_fits : dataset_fits_single arch dataset_short 20.
Proof.
  unfold dataset_fits_single, dataset_short, arch, const2, const3.
  cbn [n_train train_x train_ys val_x val_ys rows cols dim0 dim1 dim2 hd].
  repeat split; lia.
Qed.


(** The two methods on [dataset_short]: the first raises in its first
    pass, the second makes its five steps. *)
Example train_net_on_four_columns :
  snd (train_net adam randperm optimizer_step model dataset_short 5 20 None tt)
  = Raised IndexError.
Proof. vm_compute. reflexivity. Qed.

Example train_net_single_on_four_columns :
  let r := train_net_single adam randperm optimizer_step model dataset_short
             5 20 1%float None tt in
  snd r = Finished Exhausted /\
  log (fst r) = [OptimizerStep 1; OptimizerStep 2; OptimizerStep 3;
                 OptimizerStep 4; OptimizerStep 5].
Proof. vm_compute. split; reflexivity. Qed.

End MoreExamples.
